(** * wave: the in-memory store (server/storage.ts) and its REST routes

    A shallow embedding of [MemStorage] (server/storage.ts), of the record
    types of shared/schema.ts and of the route handlers that call the store
    (server routes), followed by the properties of the storage layer.

    Conventions of the embedding.
    - A JavaScript [number] that can reach the store is [NaN] or an integer;
      integers are kept as mathematical integers of [Z] (JavaScript computes
      exactly on integers of magnitude up to 2^53).
    - A [Date] is its [getTime()] value, a number of milliseconds.
    - A [Map<number, V>] is the list of its entries in insertion order, the
      order in which [values()] iterates.
    - A method that may [throw] returns a [completion].
    - The store holds records of the types it declares. Where a handler
      catches what the store throws on other values, the posts are taken
      as they are held at run time ([Stored]).
    - The methods are [async] but never await anything: each one runs to
      completion when called, so a method is a function from the store
      before to the store after and the value its promise resolves to. *)

From Stdlib Require Import ZArith List String Ascii Bool Lia.
From Stdlib Require Import Permutation Sorted.
From Stdlib Require Import DecimalString DecimalPos.
Import ListNotations.
Open Scope string_scope.
Open Scope list_scope.
Open Scope Z_scope.

(* ================================================================== *)
(** * JavaScript values *)

Inductive number : Type :=
| NaN
| Int (z : Z).

(** SameValueZero on numbers, the key equality of [Map]. *)
Definition same_value_zero (a b : number) : bool :=
  match a, b with
  | NaN, NaN => true
  | Int x, Int y => x =? y
  | _, _ => false
  end.

(** [a === b] on numbers: [NaN] equals nothing, itself included. *)
Definition strict_equals (a b : number) : bool :=
  match a, b with
  | Int x, Int y => x =? y
  | _, _ => false
  end.

(** [a + b] on numbers. *)
Definition num_add (a b : number) : number :=
  match a, b with
  | Int x, Int y => Int (x + y)
  | _, _ => NaN
  end.

(** ToIntegerOrInfinity: [NaN] becomes 0. *)
Definition to_integer (a : number) : Z :=
  match a with
  | NaN => 0
  | Int z => z
  end.

(** A column that may hold [null]; a property left out of an object reads
    as [undefined]. *)
Inductive nullable (A : Type) : Type :=
| Undefined
| Null
| Val (a : A).
Arguments Undefined {A}.
Arguments Null {A}.
Arguments Val {A} a.

Definition Date : Type := Z.
Definition getTime (d : Date) : Z := d.

(** What a call completes with: a value, or a thrown [Error(message)]. *)
Inductive completion (A : Type) : Type :=
| Return (a : A)
| Throw (message : string).
Arguments Return {A} a.
Arguments Throw {A} message.

(* ================================================================== *)
(** * Map<number, V> *)

Module JsMap.
Section Entries.
Context {V : Type}.

Definition t : Type := list (number * V).

Definition empty : t := [].

Fixpoint get (k : number) (m : t) : option V :=
  match m with
  | [] => None
  | (k', v) :: m' => if same_value_zero k' k then Some v else get k m'
  end.

Definition has (k : number) (m : t) : bool :=
  match get k m with Some _ => true | None => false end.

(** [set] keeps the position of a key that is present and appends a new
    key at the end. *)
Fixpoint set (k : number) (v : V) (m : t) : t :=
  match m with
  | [] => [(k, v)]
  | (k', v') :: m' =>
      if same_value_zero k' k then (k', v) :: m' else (k', v') :: set k v m'
  end.

Fixpoint remove (k : number) (m : t) : t :=
  match m with
  | [] => []
  | (k', v') :: m' =>
      if same_value_zero k' k then m' else (k', v') :: remove k m'
  end.

(** [delete] answers whether the key was present. *)
Definition delete (k : number) (m : t) : t * bool :=
  (remove k m, has k m).

Definition keys (m : t) : list number := map fst m.
Definition values (m : t) : list V := map snd m.
Definition size (m : t) : nat := List.length m.

End Entries.
Arguments t V : clear implicits.
End JsMap.

(* ================================================================== *)
(** * Arrays *)

Section Arrays.
Context {A : Type}.

(** [Array.prototype.slice(start, end)]: negative positions count from the
    end, every position is clamped to the array. *)
Definition clamp_index (len rel : Z) : Z :=
  if rel <? 0 then Z.max (len + rel) 0 else Z.min rel len.

Definition slice (start stop : number) (l : list A) : list A :=
  let len := Z.of_nat (List.length l) in
  let k := clamp_index len (to_integer start) in
  let final := clamp_index len (to_integer stop) in
  firstn (Z.to_nat (Z.max (final - k) 0)) (skipn (Z.to_nat k) l).

(** [Array.prototype.sort(comparefn)] is a stable sort: [a] is placed
    before [b] when [comparefn(a, b) < 0], after it when it is positive, and
    elements that compare equal keep their order. Written as the insertion
    of each element, from the last to the first, in front of the sorted
    rest; for the comparators of the store, which compare one key, this is
    the only array a stable sort can give ([stable_sort_unique]). *)
Fixpoint sort_insert (comparefn : A -> A -> Z) (x : A) (l : list A) : list A :=
  match l with
  | [] => [x]
  | y :: l' =>
      if comparefn x y <=? 0 then x :: y :: l'
      else y :: sort_insert comparefn x l'
  end.

Fixpoint sort (comparefn : A -> A -> Z) (l : list A) : list A :=
  match l with
  | [] => []
  | x :: l' => sort_insert comparefn x (sort comparefn l')
  end.

(** The same sort with a comparator that may throw: the first call that
    throws ends the sort with what it threw. An array of fewer than two
    elements is returned without a call. *)
Fixpoint sort_insert_try (comparefn : A -> A -> completion Z) (x : A)
  (l : list A) : completion (list A) :=
  match l with
  | [] => Return [x]
  | y :: l' =>
      match comparefn x y with
      | Throw message => Throw message
      | Return c =>
          if c <=? 0 then Return (x :: y :: l')
          else match sort_insert_try comparefn x l' with
               | Throw message => Throw message
               | Return placed => Return (y :: placed)
               end
      end
  end.

Fixpoint sort_try (comparefn : A -> A -> completion Z) (l : list A)
  : completion (list A) :=
  match l with
  | [] => Return []
  | x :: l' =>
      match sort_try comparefn l' with
      | Throw message => Throw message
      | Return sorted => sort_insert_try comparefn x sorted
      end
  end.

End Arrays.

(** [{ ...old, ...partial }] on one property: a property present in the
    partial object replaces the old value. *)
Definition spread {A : Type} (old : A) (partial : option A) : A :=
  match partial with
  | Some v => v
  | None => old
  end.

(* ================================================================== *)
(** * The records of shared/schema.ts

    One module per table. [t] is the selected row ([User], [Blog], ...),
    [insert] the row without its [id] ([InsertUser], ...), [partial] the
    type [Partial<User>] of an update: every property optional, [id]
    included. Integer columns hold integers, as the insert schemas check. *)

Module User.
Record t : Type := mk {
  id : Z;
  uid : string;
  username : string;
  email : string;
  displayName : string;
  bio : nullable string;
  photoURL : nullable string;
  location : nullable string;
  website : nullable string
}.
Record insert : Type := mkInsert {
  i_uid : string;
  i_username : string;
  i_email : string;
  i_displayName : string;
  i_bio : nullable string;
  i_photoURL : nullable string;
  i_location : nullable string;
  i_website : nullable string
}.
Record partial : Type := mkPartial {
  p_id : option Z;
  p_uid : option string;
  p_username : option string;
  p_email : option string;
  p_displayName : option string;
  p_bio : option (nullable string);
  p_photoURL : option (nullable string);
  p_location : option (nullable string);
  p_website : option (nullable string)
}.
(** [{ ...user, id }] *)
Definition with_id (user : insert) (id : Z) : t :=
  mk id (i_uid user) (i_username user) (i_email user) (i_displayName user)
     (i_bio user) (i_photoURL user) (i_location user) (i_website user).
(** [{ ...user, ...userData }] *)
Definition merge (user : t) (userData : partial) : t :=
  mk (spread (id user) (p_id userData))
     (spread (uid user) (p_uid userData))
     (spread (username user) (p_username userData))
     (spread (email user) (p_email userData))
     (spread (displayName user) (p_displayName userData))
     (spread (bio user) (p_bio userData))
     (spread (photoURL user) (p_photoURL userData))
     (spread (location user) (p_location userData))
     (spread (website user) (p_website userData)).
End User.

Module Blog.
Record t : Type := mk {
  id : Z;
  userId : Z;
  title : string;
  content : string;
  coverImage : nullable string;
  category : string;
  tags : nullable (list string);
  publishedAt : Date
}.
Record insert : Type := mkInsert {
  i_userId : Z;
  i_title : string;
  i_content : string;
  i_coverImage : nullable string;
  i_category : string;
  i_tags : nullable (list string);
  i_publishedAt : Date
}.
Record partial : Type := mkPartial {
  p_id : option Z;
  p_userId : option Z;
  p_title : option string;
  p_content : option string;
  p_coverImage : option (nullable string);
  p_category : option string;
  p_tags : option (nullable (list string));
  p_publishedAt : option Date
}.
(** [{ ...blog, id }] *)
Definition with_id (blog : insert) (id : Z) : t :=
  mk id (i_userId blog) (i_title blog) (i_content blog) (i_coverImage blog)
     (i_category blog) (i_tags blog) (i_publishedAt blog).
(** [{ ...blog, ...blogData }] *)
Definition merge (blog : t) (blogData : partial) : t :=
  mk (spread (id blog) (p_id blogData))
     (spread (userId blog) (p_userId blogData))
     (spread (title blog) (p_title blogData))
     (spread (content blog) (p_content blogData))
     (spread (coverImage blog) (p_coverImage blogData))
     (spread (category blog) (p_category blogData))
     (spread (tags blog) (p_tags blogData))
     (spread (publishedAt blog) (p_publishedAt blogData)).
End Blog.

Module Like.
Record t : Type := mk {
  id : Z;
  userId : Z;
  blogId : Z
}.
Record insert : Type := mkInsert {
  i_userId : Z;
  i_blogId : Z
}.
(** [{ ...like, id }] *)
Definition with_id (like : insert) (id : Z) : t :=
  mk id (i_userId like) (i_blogId like).
End Like.

Module Follower.
Record t : Type := mk {
  id : Z;
  followerId : Z;
  followingId : Z
}.
Record insert : Type := mkInsert {
  i_followerId : Z;
  i_followingId : Z
}.
(** [{ ...follower, id }] *)
Definition with_id (follower : insert) (id : Z) : t :=
  mk id (i_followerId follower) (i_followingId follower).
End Follower.

Module Comment.
Record t : Type := mk {
  id : Z;
  userId : Z;
  blogId : Z;
  content : string;
  createdAt : Date;
  parentId : nullable Z
}.
Record insert : Type := mkInsert {
  i_userId : Z;
  i_blogId : Z;
  i_content : string;
  i_createdAt : Date;
  i_parentId : nullable Z
}.
Record partial : Type := mkPartial {
  p_id : option Z;
  p_userId : option Z;
  p_blogId : option Z;
  p_content : option string;
  p_createdAt : option Date;
  p_parentId : option (nullable Z)
}.
(** [{ ...comment, id }] *)
Definition with_id (comment : insert) (id : Z) : t :=
  mk id (i_userId comment) (i_blogId comment) (i_content comment)
     (i_createdAt comment) (i_parentId comment).
(** [{ ...comment, ...commentData }] *)
Definition merge (comment : t) (commentData : partial) : t :=
  mk (spread (id comment) (p_id commentData))
     (spread (userId comment) (p_userId commentData))
     (spread (blogId comment) (p_blogId commentData))
     (spread (content comment) (p_content commentData))
     (spread (createdAt comment) (p_createdAt commentData))
     (spread (parentId comment) (p_parentId commentData)).
End Comment.

Abbreviation User := User.t.
Abbreviation InsertUser := User.insert.
Abbreviation Blog := Blog.t.
Abbreviation InsertBlog := Blog.insert.
Abbreviation Like := Like.t.
Abbreviation InsertLike := Like.insert.
Abbreviation Follower := Follower.t.
Abbreviation InsertFollower := Follower.insert.
Abbreviation Comment := Comment.t.
Abbreviation InsertComment := Comment.insert.

(* ================================================================== *)
(** * MemStorage (server/storage.ts) *)

Record MemStorage : Type := mkMemStorage {
  users : JsMap.t User;
  blogs : JsMap.t Blog;
  likes : JsMap.t Like;
  followers : JsMap.t Follower;
  comments : JsMap.t Comment;
  userId : Z;
  blogId : Z;
  likeId : Z;
  followerId : Z;
  commentId : Z
}.

(** [constructor()] *)
Definition new_MemStorage : MemStorage :=
  mkMemStorage JsMap.empty JsMap.empty JsMap.empty JsMap.empty JsMap.empty
               1 1 1 1 1.

(** Assignments to the fields of [this]. *)
Definition set_users (m : JsMap.t User) (this : MemStorage) : MemStorage :=
  mkMemStorage m (blogs this) (likes this) (followers this) (comments this)
    (userId this) (blogId this) (likeId this) (followerId this)
    (commentId this).
Definition set_blogs (m : JsMap.t Blog) (this : MemStorage) : MemStorage :=
  mkMemStorage (users this) m (likes this) (followers this) (comments this)
    (userId this) (blogId this) (likeId this) (followerId this)
    (commentId this).
Definition set_likes (m : JsMap.t Like) (this : MemStorage) : MemStorage :=
  mkMemStorage (users this) (blogs this) m (followers this) (comments this)
    (userId this) (blogId this) (likeId this) (followerId this)
    (commentId this).
Definition set_followers (m : JsMap.t Follower) (this : MemStorage)
  : MemStorage :=
  mkMemStorage (users this) (blogs this) (likes this) m (comments this)
    (userId this) (blogId this) (likeId this) (followerId this)
    (commentId this).
Definition set_comments (m : JsMap.t Comment) (this : MemStorage)
  : MemStorage :=
  mkMemStorage (users this) (blogs this) (likes this) (followers this) m
    (userId this) (blogId this) (likeId this) (followerId this)
    (commentId this).
Definition set_userId (n : Z) (this : MemStorage) : MemStorage :=
  mkMemStorage (users this) (blogs this) (likes this) (followers this)
    (comments this) n (blogId this) (likeId this) (followerId this)
    (commentId this).
Definition set_blogId (n : Z) (this : MemStorage) : MemStorage :=
  mkMemStorage (users this) (blogs this) (likes this) (followers this)
    (comments this) (userId this) n (likeId this) (followerId this)
    (commentId this).
Definition set_likeId (n : Z) (this : MemStorage) : MemStorage :=
  mkMemStorage (users this) (blogs this) (likes this) (followers this)
    (comments this) (userId this) (blogId this) n (followerId this)
    (commentId this).
Definition set_followerId (n : Z) (this : MemStorage) : MemStorage :=
  mkMemStorage (users this) (blogs this) (likes this) (followers this)
    (comments this) (userId this) (blogId this) (likeId this) n
    (commentId this).
Definition set_commentId (n : Z) (this : MemStorage) : MemStorage :=
  mkMemStorage (users this) (blogs this) (likes this) (followers this)
    (comments this) (userId this) (blogId this) (likeId this)
    (followerId this) n.

(** ** User operations *)

Definition getUser (id : number) (this : MemStorage) : option User :=
  JsMap.get id (users this).

Definition getUserByUid (uid : string) (this : MemStorage) : option User :=
  find (fun user => String.eqb (User.uid user) uid)
       (JsMap.values (users this)).

Definition getUserByUsername (username : string) (this : MemStorage)
  : option User :=
  find (fun user => String.eqb (User.username user) username)
       (JsMap.values (users this)).

Definition createUser (user : InsertUser) (this : MemStorage)
  : MemStorage * User :=
  let id := userId this in
  let this := set_userId (id + 1) this in
  let newUser := User.with_id user id in
  let this := set_users (JsMap.set (Int id) newUser (users this)) this in
  (this, newUser).

Definition updateUser (id : number) (userData : User.partial)
  (this : MemStorage) : MemStorage * completion User :=
  match JsMap.get id (users this) with
  | None => (this, Throw "User not found")
  | Some user =>
      let updatedUser := User.merge user userData in
      let this := set_users (JsMap.set id updatedUser (users this)) this in
      (this, Return updatedUser)
  end.

(** ** Blog operations *)

Definition getBlog (id : number) (this : MemStorage) : option Blog :=
  JsMap.get id (blogs this).

(** [(a, b) => b.publishedAt.getTime() - a.publishedAt.getTime()] *)
Definition by_publishedAt_desc (a b : Blog) : Z :=
  getTime (Blog.publishedAt b) - getTime (Blog.publishedAt a).

(** [getBlogs(limit = 10, offset = 0)]: an argument left out ([None]) takes
    its default. *)
Definition getBlogs (limit offset : option number) (this : MemStorage)
  : list Blog :=
  let limit := match limit with Some n => n | None => Int 10 end in
  let offset := match offset with Some n => n | None => Int 0 end in
  slice offset (num_add offset limit)
        (sort by_publishedAt_desc (JsMap.values (blogs this))).

Definition getBlogsByUser (userId : number) (this : MemStorage) : list Blog :=
  sort by_publishedAt_desc
       (filter (fun blog => strict_equals (Int (Blog.userId blog)) userId)
               (JsMap.values (blogs this))).

Definition getBlogsByCategory (category : string) (this : MemStorage)
  : list Blog :=
  sort by_publishedAt_desc
       (filter (fun blog => String.eqb (Blog.category blog) category)
               (JsMap.values (blogs this))).

Definition createBlog (blog : InsertBlog) (this : MemStorage)
  : MemStorage * Blog :=
  let id := blogId this in
  let this := set_blogId (id + 1) this in
  let newBlog := Blog.with_id blog id in
  let this := set_blogs (JsMap.set (Int id) newBlog (blogs this)) this in
  (this, newBlog).

Definition updateBlog (id : number) (blogData : Blog.partial)
  (this : MemStorage) : MemStorage * completion Blog :=
  match JsMap.get id (blogs this) with
  | None => (this, Throw "Blog not found")
  | Some blog =>
      let updatedBlog := Blog.merge blog blogData in
      let this := set_blogs (JsMap.set id updatedBlog (blogs this)) this in
      (this, Return updatedBlog)
  end.

Definition deleteBlog (id : number) (this : MemStorage)
  : MemStorage * bool :=
  let (m, existed) := JsMap.delete id (blogs this) in
  (set_blogs m this, existed).

(** ** Like operations *)

Definition getLike (userId blogId : number) (this : MemStorage) : option Like :=
  find (fun like => strict_equals (Int (Like.userId like)) userId
                    && strict_equals (Int (Like.blogId like)) blogId)
       (JsMap.values (likes this)).

Definition getLikesByBlog (blogId : number) (this : MemStorage) : list Like :=
  filter (fun like => strict_equals (Int (Like.blogId like)) blogId)
         (JsMap.values (likes this)).

Definition getLikesByUser (userId : number) (this : MemStorage) : list Like :=
  filter (fun like => strict_equals (Int (Like.userId like)) userId)
         (JsMap.values (likes this)).

Definition createLike (like : InsertLike) (this : MemStorage)
  : MemStorage * Like :=
  let id := likeId this in
  let this := set_likeId (id + 1) this in
  let newLike := Like.with_id like id in
  let this := set_likes (JsMap.set (Int id) newLike (likes this)) this in
  (this, newLike).

Definition deleteLike (id : number) (this : MemStorage)
  : MemStorage * bool :=
  let (m, existed) := JsMap.delete id (likes this) in
  (set_likes m this, existed).

(** ** Follower operations *)

Definition getFollower (followerId followingId : number) (this : MemStorage)
  : option Follower :=
  find (fun follower =>
          strict_equals (Int (Follower.followerId follower)) followerId
          && strict_equals (Int (Follower.followingId follower)) followingId)
       (JsMap.values (followers this)).

Definition getFollowers (userId : number) (this : MemStorage) : list Follower :=
  filter (fun follower =>
            strict_equals (Int (Follower.followingId follower)) userId)
         (JsMap.values (followers this)).

Definition getFollowing (userId : number) (this : MemStorage) : list Follower :=
  filter (fun follower =>
            strict_equals (Int (Follower.followerId follower)) userId)
         (JsMap.values (followers this)).

Definition createFollower (follower : InsertFollower) (this : MemStorage)
  : MemStorage * Follower :=
  let id := followerId this in
  let this := set_followerId (id + 1) this in
  let newFollower := Follower.with_id follower id in
  let this :=
    set_followers (JsMap.set (Int id) newFollower (followers this)) this in
  (this, newFollower).

Definition deleteFollower (id : number) (this : MemStorage)
  : MemStorage * bool :=
  let (m, existed) := JsMap.delete id (followers this) in
  (set_followers m this, existed).

(** ** Comment operations *)

Definition getComment (id : number) (this : MemStorage) : option Comment :=
  JsMap.get id (comments this).

(** [(a, b) => b.createdAt.getTime() - a.createdAt.getTime()] *)
Definition by_createdAt_desc (a b : Comment) : Z :=
  getTime (Comment.createdAt b) - getTime (Comment.createdAt a).

Definition getCommentsByBlog (blogId : number) (this : MemStorage)
  : list Comment :=
  sort by_createdAt_desc
       (filter (fun comment =>
                 strict_equals (Int (Comment.blogId comment)) blogId)
               (JsMap.values (comments this))).

Definition getCommentsByUser (userId : number) (this : MemStorage)
  : list Comment :=
  sort by_createdAt_desc
       (filter (fun comment =>
                 strict_equals (Int (Comment.userId comment)) userId)
               (JsMap.values (comments this))).

Definition createComment (comment : InsertComment) (this : MemStorage)
  : MemStorage * Comment :=
  let id := commentId this in
  let this := set_commentId (id + 1) this in
  let newComment := Comment.with_id comment id in
  let this :=
    set_comments (JsMap.set (Int id) newComment (comments this)) this in
  (this, newComment).

Definition updateComment (id : number) (commentData : Comment.partial)
  (this : MemStorage) : MemStorage * completion Comment :=
  match JsMap.get id (comments this) with
  | None => (this, Throw "Comment not found")
  | Some comment =>
      let updatedComment := Comment.merge comment commentData in
      let this :=
        set_comments (JsMap.set id updatedComment (comments this)) this in
      (this, Return updatedComment)
  end.

Definition deleteComment (id : number) (this : MemStorage)
  : MemStorage * bool :=
  let (m, existed) := JsMap.delete id (comments this) in
  (set_comments m this, existed).

(** ** The posts at run time

    The store declares [Map<number, Blog>] and [Blog] declares
    [publishedAt: Date], but the types are gone at run time.
    PUT /api/blogs/:id hands [req.body] to [updateBlog] as it came, and a
    JSON body holds no [Date]: when it has a [publishedAt], the spread
    [{ ...blog, ...blogData }] leaves a JSON value there, a string for
    instance. [Stored.t] is a post as the [Map] can hold it: a [Blog], or
    [{ ...blog, publishedAt }] with a JSON value, given by its text.
    [getTime] is no function of a JSON value, so calling it throws a
    [TypeError]; its message is sent by no handler and is not modelled. *)

Module Stored.

Inductive t : Type :=
| typed (blog : Blog)
| untyped (blog : Blog) (publishedAt : string).

Definition is_typed (post : t) : bool :=
  match post with
  | typed _ => true
  | untyped _ _ => false
  end.

(** [post.publishedAt.getTime()] *)
Definition publishedAt_getTime (post : t) : completion Z :=
  match post with
  | typed blog => Return (getTime (Blog.publishedAt blog))
  | untyped _ _ => Throw "TypeError"
  end.

(** [(a, b) => b.publishedAt.getTime() - a.publishedAt.getTime()] *)
Definition by_publishedAt_desc (a b : t) : completion Z :=
  match publishedAt_getTime b with
  | Throw message => Throw message
  | Return tb =>
      match publishedAt_getTime a with
      | Throw message => Throw message
      | Return ta => Return (tb - ta)
      end
  end.

(** [getBlogs(limit = 10, offset = 0)] on [this.blogs] as it is held. *)
Definition getBlogs (limit offset : option number) (blogs : JsMap.t t)
  : completion (list t) :=
  let limit := match limit with Some n => n | None => Int 10 end in
  let offset := match offset with Some n => n | None => Int 0 end in
  match sort_try by_publishedAt_desc (JsMap.values blogs) with
  | Throw message => Throw message
  | Return sorted => Return (slice offset (num_add offset limit) sorted)
  end.

(** The posts of a store that holds what it declares. *)
Definition blogs (this : MemStorage) : JsMap.t t :=
  map (fun entry => (fst entry, typed (snd entry))) (blogs this).

End Stored.

(** ** Sequences of mutating calls

    The methods of [IStorage] that assign to [this]; the [get...] methods
    above only read it. *)

Inductive call : Type :=
| CreateUser (user : InsertUser)
| UpdateUser (id : number) (userData : User.partial)
| CreateBlog (blog : InsertBlog)
| UpdateBlog (id : number) (blogData : Blog.partial)
| DeleteBlog (id : number)
| CreateLike (like : InsertLike)
| DeleteLike (id : number)
| CreateFollower (follower : InsertFollower)
| DeleteFollower (id : number)
| CreateComment (comment : InsertComment)
| UpdateComment (id : number) (commentData : Comment.partial)
| DeleteComment (id : number).

(** What the promise of a call settles to. *)
Inductive answer : Type :=
| GotUser (user : User)
| GotBlog (blog : Blog)
| GotLike (like : Like)
| GotFollower (follower : Follower)
| GotComment (comment : Comment)
| GotBool (b : bool)
| Rejected (message : string).

Definition settle {A : Type} (got : A -> answer) (c : completion A) : answer :=
  match c with
  | Return a => got a
  | Throw message => Rejected message
  end.

Definition invoke (c : call) (this : MemStorage) : MemStorage * answer :=
  match c with
  | CreateUser user =>
      let (this, r) := createUser user this in (this, GotUser r)
  | UpdateUser id userData =>
      let (this, r) := updateUser id userData this in
      (this, settle GotUser r)
  | CreateBlog blog =>
      let (this, r) := createBlog blog this in (this, GotBlog r)
  | UpdateBlog id blogData =>
      let (this, r) := updateBlog id blogData this in
      (this, settle GotBlog r)
  | DeleteBlog id =>
      let (this, r) := deleteBlog id this in (this, GotBool r)
  | CreateLike like =>
      let (this, r) := createLike like this in (this, GotLike r)
  | DeleteLike id =>
      let (this, r) := deleteLike id this in (this, GotBool r)
  | CreateFollower follower =>
      let (this, r) := createFollower follower this in (this, GotFollower r)
  | DeleteFollower id =>
      let (this, r) := deleteFollower id this in (this, GotBool r)
  | CreateComment comment =>
      let (this, r) := createComment comment this in (this, GotComment r)
  | UpdateComment id commentData =>
      let (this, r) := updateComment id commentData this in
      (this, settle GotComment r)
  | DeleteComment id =>
      let (this, r) := deleteComment id this in (this, GotBool r)
  end.

(** The calls of [cs] made one after the other on [this]: each call with
    its answer, and the store at the end. *)
Fixpoint run (cs : list call) (this : MemStorage)
  : list (call * answer) * MemStorage :=
  match cs with
  | [] => ([], this)
  | c :: cs' =>
      let (this, a) := invoke c this in
      let (log, this) := run cs' this in
      ((c, a) :: log, this)
  end.

(** The store after the calls [cs] on a store fresh from its constructor. *)
Definition after (cs : list call) : MemStorage :=
  snd (run cs new_MemStorage).

(** The five tables of the store, with the entries and the counter of
    each. *)
Inductive table : Type := Users | Blogs | Likes | Followers | Comments.

Definition keys_of (t : table) (this : MemStorage) : list number :=
  match t with
  | Users => JsMap.keys (users this)
  | Blogs => JsMap.keys (blogs this)
  | Likes => JsMap.keys (likes this)
  | Followers => JsMap.keys (followers this)
  | Comments => JsMap.keys (comments this)
  end.

Definition counter_of (t : table) (this : MemStorage) : Z :=
  match t with
  | Users => userId this
  | Blogs => blogId this
  | Likes => likeId this
  | Followers => followerId this
  | Comments => commentId this
  end.

(** The identity a [create...] call of table [t] answered with. *)
Definition assigned_id (t : table) (entry : call * answer) : option Z :=
  match t, entry with
  | Users, (CreateUser _, GotUser r) => Some (User.id r)
  | Blogs, (CreateBlog _, GotBlog r) => Some (Blog.id r)
  | Likes, (CreateLike _, GotLike r) => Some (Like.id r)
  | Followers, (CreateFollower _, GotFollower r) => Some (Follower.id r)
  | Comments, (CreateComment _, GotComment r) => Some (Comment.id r)
  | _, _ => None
  end.

Fixpoint assigned_ids (t : table) (log : list (call * answer)) : list Z :=
  match log with
  | [] => []
  | entry :: log' =>
      match assigned_id t entry with
      | Some id => id :: assigned_ids t log'
      | None => assigned_ids t log'
      end
  end.

(** [first, first + 1, ..., first + n - 1] *)
Fixpoint count_from (first : Z) (n : nat) : list Z :=
  match n with
  | O => []
  | S n' => first :: count_from (first + 1) n'
  end.

(* ================================================================== *)
(** * The routes (registerRoutes)

    A handler takes the parts of the request it reads and the store, and
    gives the store afterwards and the response it sends. Strings are
    sequences of code units below 256. *)

(** ** parseInt(string), no radix given *)

(** White space and line terminators. *)
Definition is_white_space (c : ascii) : bool :=
  let n := Z.of_N (N_of_ascii c) in
  ((9 <=? n) && (n <=? 13)) || (n =? 32) || (n =? 160).

Fixpoint trim_start (s : string) : string :=
  match s with
  | String c s' => if is_white_space c then trim_start s' else s
  | EmptyString => s
  end.

(** The value of a digit: [0-9], then [a-z] or [A-Z] from 10 on. *)
Definition digit_value (c : ascii) : option Z :=
  let n := Z.of_N (N_of_ascii c) in
  if (48 <=? n) && (n <=? 57) then Some (n - 48)
  else if (97 <=? n) && (n <=? 122) then Some (n - 87)
  else if (65 <=? n) && (n <=? 90) then Some (n - 55)
  else None.

Definition radix_digit (radix : Z) (c : ascii) : option Z :=
  match digit_value c with
  | Some d => if d <? radix then Some d else None
  | None => None
  end.

(** The value of the longest prefix of [s] made of digits of the radix,
    after the digits read so far ([acc]); [None] while no digit was read. *)
Fixpoint read_digits (radix : Z) (s : string) (acc : option Z) : option Z :=
  match s with
  | EmptyString => acc
  | String c s' =>
      match radix_digit radix c with
      | Some d =>
          read_digits radix s'
            (Some (radix * match acc with Some a => a | None => 0 end + d))
      | None => acc
      end
  end.

Definition parseInt (input : string) : number :=
  let s := trim_start input in
  let (sign, s) :=
    match s with
    | String "-" s' => (-1, s')
    | String "+" s' => (1, s')
    | _ => (1, s)
    end in
  let (radix, s) :=
    match s with
    | String "0" (String "x" s') => (16, s')
    | String "0" (String "X" s') => (16, s')
    | _ => (10, s)
    end in
  match read_digits radix s None with
  | None => NaN
  | Some n => Int (sign * n)
  end.

(** A string is falsy when it is empty. *)
Definition truthy (s : string) : bool :=
  match s with
  | EmptyString => false
  | String _ _ => true
  end.

(** ** Responses *)

Inductive json : Type :=
| Message (message : string)
| ValidationError
| Success
| OneUser (user : User)
| OneBlog (blog : Blog)
| BlogList (blogs : list Stored.t)
| OneLike (like : Like)
| OneFollower (follower : Follower)
| OneComment (comment : Comment).

Record Response : Type := respond {
  status : Z;
  body : json
}.

(** What a handler's [try] block can catch. *)
Inductive exception : Type :=
| ZodError
| Error (message : string).

Definition handleError (err : exception) : Response :=
  match err with
  | ZodError => respond 400 ValidationError
  | Error _ => respond 500 (Message "Internal server error")
  end.

(** ** Handlers

    The body of a POST is given as the outcome of the insert schema's
    [parse]: [None] when it throws a [ZodError], the parsed record
    otherwise. The body of a PUT is passed on as it is, taken as the
    partial object that the update method declares. *)

Definition post_users (body : option InsertUser) (storage : MemStorage)
  : MemStorage * Response :=
  match body with
  | None => (storage, handleError ZodError)
  | Some userData =>
      match getUserByUsername (User.i_username userData) storage with
      | Some existingUser =>
          (storage, respond 409 (Message "Username already exists"))
      | None =>
          let (storage, user) := createUser userData storage in
          (storage, respond 201 (OneUser user))
      end
  end.

Definition put_users (id : string) (body : User.partial)
  (storage : MemStorage) : MemStorage * Response :=
  let id := parseInt id in
  match updateUser id body storage with
  | (storage, Return user) => (storage, respond 200 (OneUser user))
  | (storage, Throw message) => (storage, handleError (Error message))
  end.

(** [limit] and [offset] as the handler computes them from the query. *)
Definition query_number (param : option string) (default : Z) : number :=
  match param with
  | Some s => if truthy s then parseInt s else Int default
  | None => Int default
  end.

(** GET /api/blogs reads the store and leaves it as it is. It is given the
    posts as the store holds them at run time; what [getBlogs] throws is
    caught and handed to [handleError]. *)
Definition get_blogs (limit offset : option string)
  (blogs : JsMap.t Stored.t) : Response :=
  let limit := query_number limit 10 in
  let offset := query_number offset 0 in
  match Stored.getBlogs (Some limit) (Some offset) blogs with
  | Return blogs => respond 200 (BlogList blogs)
  | Throw message => handleError (Error message)
  end.

Definition post_blogs (body : option InsertBlog) (storage : MemStorage)
  : MemStorage * Response :=
  match body with
  | None => (storage, handleError ZodError)
  | Some blogData =>
      let (storage, blog) := createBlog blogData storage in
      (storage, respond 201 (OneBlog blog))
  end.

Definition put_blogs (id : string) (body : Blog.partial)
  (storage : MemStorage) : MemStorage * Response :=
  let id := parseInt id in
  match updateBlog id body storage with
  | (storage, Return blog) => (storage, respond 200 (OneBlog blog))
  | (storage, Throw message) => (storage, handleError (Error message))
  end.

Definition delete_blogs (id : string) (storage : MemStorage)
  : MemStorage * Response :=
  let id := parseInt id in
  let (storage, success) := deleteBlog id storage in
  if negb success then (storage, respond 404 (Message "Blog not found"))
  else (storage, respond 200 Success).

Definition post_likes (body : option InsertLike) (storage : MemStorage)
  : MemStorage * Response :=
  match body with
  | None => (storage, handleError ZodError)
  | Some likeData =>
      match getLike (Int (Like.i_userId likeData))
                    (Int (Like.i_blogId likeData)) storage with
      | Some existingLike =>
          (storage, respond 409 (Message "Like already exists"))
      | None =>
          let (storage, like) := createLike likeData storage in
          (storage, respond 201 (OneLike like))
      end
  end.

Definition delete_likes (id : string) (storage : MemStorage)
  : MemStorage * Response :=
  let id := parseInt id in
  let (storage, success) := deleteLike id storage in
  if negb success then (storage, respond 404 (Message "Like not found"))
  else (storage, respond 200 Success).

Definition post_followers (body : option InsertFollower)
  (storage : MemStorage) : MemStorage * Response :=
  match body with
  | None => (storage, handleError ZodError)
  | Some followerData =>
      match getFollower (Int (Follower.i_followerId followerData))
                        (Int (Follower.i_followingId followerData))
                        storage with
      | Some existingFollower =>
          (storage, respond 409 (Message "Already following this user"))
      | None =>
          let (storage, follower) := createFollower followerData storage in
          (storage, respond 201 (OneFollower follower))
      end
  end.

Definition delete_followers (id : string) (storage : MemStorage)
  : MemStorage * Response :=
  let id := parseInt id in
  let (storage, success) := deleteFollower id storage in
  if negb success
  then (storage, respond 404 (Message "Follower relationship not found"))
  else (storage, respond 200 Success).

Definition post_comments (body : option InsertComment)
  (storage : MemStorage) : MemStorage * Response :=
  match body with
  | None => (storage, handleError ZodError)
  | Some commentData =>
      let (storage, comment) := createComment commentData storage in
      (storage, respond 201 (OneComment comment))
  end.

Definition put_comments (id : string) (body : Comment.partial)
  (storage : MemStorage) : MemStorage * Response :=
  let id := parseInt id in
  match updateComment id body storage with
  | (storage, Return comment) => (storage, respond 200 (OneComment comment))
  | (storage, Throw message) => (storage, handleError (Error message))
  end.

Definition delete_comments (id : string) (storage : MemStorage)
  : MemStorage * Response :=
  let id := parseInt id in
  let (storage, success) := deleteComment id storage in
  if negb success then (storage, respond 404 (Message "Comment not found"))
  else (storage, respond 200 Success).

(** ** Requests

    The routes that write to the store, and the post listing. The other
    GET routes read the store and leave it as it is. *)

Inductive Request : Type :=
| POST_users (body : option InsertUser)
| PUT_users (id : string) (body : User.partial)
| GET_blogs (limit offset : option string)
| POST_blogs (body : option InsertBlog)
| PUT_blogs (id : string) (body : Blog.partial)
| DELETE_blogs (id : string)
| POST_likes (body : option InsertLike)
| DELETE_likes (id : string)
| POST_followers (body : option InsertFollower)
| DELETE_followers (id : string)
| POST_comments (body : option InsertComment)
| PUT_comments (id : string) (body : Comment.partial)
| DELETE_comments (id : string).

Definition handle (req : Request) (storage : MemStorage)
  : MemStorage * Response :=
  match req with
  | POST_users body => post_users body storage
  | PUT_users id body => put_users id body storage
  | GET_blogs limit offset =>
      (storage, get_blogs limit offset (Stored.blogs storage))
  | POST_blogs body => post_blogs body storage
  | PUT_blogs id body => put_blogs id body storage
  | DELETE_blogs id => delete_blogs id storage
  | POST_likes body => post_likes body storage
  | DELETE_likes id => delete_likes id storage
  | POST_followers body => post_followers body storage
  | DELETE_followers id => delete_followers id storage
  | POST_comments body => post_comments body storage
  | PUT_comments id body => put_comments id body storage
  | DELETE_comments id => delete_comments id storage
  end.

(** The store after the server, started on a fresh store, has served the
    requests [reqs] one after the other. *)
Fixpoint serve (reqs : list Request) (storage : MemStorage) : MemStorage :=
  match reqs with
  | [] => storage
  | req :: reqs' => serve reqs' (fst (handle req storage))
  end.

Definition served (reqs : list Request) : MemStorage :=
  serve reqs new_MemStorage.

(** The decimal writing of an integer, as a client puts it in a path or a
    query. *)
Definition decimal (n : Z) : string :=
  NilZero.string_of_int (Z.to_int n).

(** The order the specification describes for the post listing: by
    publication timestamp descending, ties by identity descending. It is
    compared with [by_publishedAt_desc], the comparator of the source. *)
Definition spec_publishedAt_then_id_desc (a b : Blog) : Z :=
  if getTime (Blog.publishedAt b) - getTime (Blog.publishedAt a) =? 0
  then Blog.id b - Blog.id a
  else getTime (Blog.publishedAt b) - getTime (Blog.publishedAt a).

(** A query parameter the specification wants rejected: present, and
    negative or not a number. *)
Definition negative_or_non_numeric (param : option string) : bool :=
  match param with
  | Some s =>
      truthy s &&
      match parseInt s with
      | NaN => true
      | Int z => z <? 0
      end
  | None => false
  end.

Definition is_some {A : Type} (o : option A) : bool :=
  match o with Some _ => true | None => false end.

(** The key of every entry is the [id] of its record. *)
Definition key_is_id {V : Type} (id : V -> Z) (m : JsMap.t V) : Prop :=
  forall k v, In (k, v) m -> k = Int (id v).

(** The keys of a table are distinct integers from 1 up to the counter,
    in increasing order. *)
Definition keys_below (next : Z) (ks : list number) : Prop :=
  1 <= next
  /\ exists zs, ks = map Int zs
                /\ StronglySorted Z.lt zs
                /\ Forall (fun z => 1 <= z < next) zs.

Definition store_ok (this : MemStorage) : Prop :=
  forall t, keys_below (counter_of t this) (keys_of t this).

(** The comparators of the source are of this form: the key of the second
    argument minus the key of the first, for a descending order. *)
Definition descending {A : Type} (key : A -> Z) (a b : A) : Z :=
  key b - key a.

(** The pair a like, or a follower relation, is looked up by. *)
Definition like_pair (like : Like) : Z * Z :=
  (Like.userId like, Like.blogId like).

Definition follower_pair (follower : Follower) : Z * Z :=
  (Follower.followerId follower, Follower.followingId follower).

(** What the routes maintain on the two relations: every record is stored
    under its [id], and no pair is recorded twice. *)
Definition relations_ok (this : MemStorage) : Prop :=
  key_is_id Like.id (likes this)
  /\ NoDup (map like_pair (JsMap.values (likes this)))
  /\ key_is_id Follower.id (followers this)
  /\ NoDup (map follower_pair (JsMap.values (followers this))).

(** A key that no later [create...] of table [t] can be given. *)
Definition spent (t : table) (k : number) (this : MemStorage) : Prop :=
  match k with
  | NaN => True
  | Int z => z < counter_of t this
  end.

(** The entries of a map without those of key [k]. *)
Definition without {V : Type} (k : number) (m : JsMap.t V) : JsMap.t V :=
  filter (fun e => negb (same_value_zero (fst e) k)) m.

(** The value of a decimal numeral, digit after digit from the value
    [acc] of the digits before it. *)
Fixpoint uint_value (d : Decimal.uint) (acc : Z) : Z :=
  match d with
  | Decimal.Nil => acc
  | Decimal.D0 l => uint_value l (10 * acc + 0)
  | Decimal.D1 l => uint_value l (10 * acc + 1)
  | Decimal.D2 l => uint_value l (10 * acc + 2)
  | Decimal.D3 l => uint_value l (10 * acc + 3)
  | Decimal.D4 l => uint_value l (10 * acc + 4)
  | Decimal.D5 l => uint_value l (10 * acc + 5)
  | Decimal.D6 l => uint_value l (10 * acc + 6)
  | Decimal.D7 l => uint_value l (10 * acc + 7)
  | Decimal.D8 l => uint_value l (10 * acc + 8)
  | Decimal.D9 l => uint_value l (10 * acc + 9)
  end.

(** One property of a merged record: the value of the partial object when
    it has the property, the old value otherwise. *)
Definition merged {R P A : Type} (field : R -> A) (given : P -> option A)
  (old : R) (partial : P) (new : R) : Prop :=
  field new = match given partial with
              | Some v => v
              | None => field old
              end.

(** ** The routes that read the store

    Other GET routes of [registerRoutes], on a store that holds what it
    declares, where the call they make does not throw. They leave the
    store as it is, so a handler is a function from the store to the
    response. A route that sends an array of likes, followers or comments
    answers with a [Listing]. *)

Record Listing (A : Type) : Type := send {
  list_status : Z;
  list_body : list A
}.
Arguments send {A} list_status list_body.
Arguments list_status {A} _.
Arguments list_body {A} _.

(** GET /api/users/:id *)
Definition get_users_id (id : string) (storage : MemStorage) : Response :=
  let id := parseInt id in
  match getUser id storage with
  | None => respond 404 (Message "User not found")
  | Some user => respond 200 (OneUser user)
  end.

(** GET /api/users/uid/:uid *)
Definition get_users_uid (uid : string) (storage : MemStorage) : Response :=
  match getUserByUid uid storage with
  | None => respond 404 (Message "User not found")
  | Some user => respond 200 (OneUser user)
  end.

(** GET /api/users/username/:username *)
Definition get_users_username (username : string) (storage : MemStorage)
  : Response :=
  match getUserByUsername username storage with
  | None => respond 404 (Message "User not found")
  | Some user => respond 200 (OneUser user)
  end.

(** GET /api/blogs/:id *)
Definition get_blogs_id (id : string) (storage : MemStorage) : Response :=
  let id := parseInt id in
  match getBlog id storage with
  | None => respond 404 (Message "Blog not found")
  | Some blog => respond 200 (OneBlog blog)
  end.

(** GET /api/likes/blog/:blogId *)
Definition get_likes_blog (blogId : string) (storage : MemStorage)
  : Listing Like :=
  let blogId := parseInt blogId in
  send 200 (getLikesByBlog blogId storage).

(** GET /api/likes/user/:userId *)
Definition get_likes_user (userId : string) (storage : MemStorage)
  : Listing Like :=
  let userId := parseInt userId in
  send 200 (getLikesByUser userId storage).

(** GET /api/followers/:userId *)
Definition get_followers_user (userId : string) (storage : MemStorage)
  : Listing Follower :=
  let userId := parseInt userId in
  send 200 (getFollowers userId storage).

(** GET /api/following/:userId *)
Definition get_following_user (userId : string) (storage : MemStorage)
  : Listing Follower :=
  let userId := parseInt userId in
  send 200 (getFollowing userId storage).

(** GET /api/comments/blog/:blogId *)
Definition get_comments_blog (blogId : string) (storage : MemStorage)
  : Listing Comment :=
  let blogId := parseInt blogId in
  send 200 (getCommentsByBlog blogId storage).

(** ** The like and follow buttons of the client

    [BlogDetail] (client/src/pages/explore.tsx) and [Profile] hold the
    array fetched from GET /api/likes/blog/:id, or from
    GET /api/followers/:userId, and the [id] of the signed-in user. What
    is modelled is the state the page derives from the array and the
    request the [mutationFn] of its button sends; [None] when it sends
    none. A template string writes the [id] of a record in decimal. *)

(** [insertLikeSchema.parse] and [insertFollowerSchema.parse] on a body
    of two numbers. The columns are declared [integer(...)] in
    shared/schema.ts, the 32-bit integer of the database: the schema
    derived from the table takes an integer from -2^31 to 2^31 - 1 and
    refuses any other number, and [NaN], which JSON writes [null]. *)
Definition int32 (z : Z) : bool :=
  (- 2 ^ 31 <=? z) && (z <=? 2 ^ 31 - 1).

Definition insertLikeSchema (userId blogId : number) : option InsertLike :=
  match userId, blogId with
  | Int userId, Int blogId =>
      if int32 userId && int32 blogId
      then Some (Like.mkInsert userId blogId)
      else None
  | _, _ => None
  end.

Definition insertFollowerSchema (followerId followingId : number)
  : option InsertFollower :=
  match followerId, followingId with
  | Int followerId, Int followingId =>
      if int32 followerId && int32 followingId
      then Some (Follower.mkInsert followerId followingId)
      else None
  | _, _ => None
  end.

(** [!!likes.find((like) => like.userId === dbUser.id)] *)
Definition isLiked (likes : list Like) (dbUserId : Z) : bool :=
  is_some
    (find (fun like => strict_equals (Int (Like.userId like)) (Int dbUserId))
          likes).

(** [toggleLikeMutation.mutationFn(liked)], on the page of post [id]: the
    body it posts is [{ userId: dbUser.id, blogId: parseInt(id) }], which
    the route hands to [insertLikeSchema.parse]. *)
Definition toggleLike (liked : bool) (likes : list Like) (dbUserId : Z)
  (id : string) : option Request :=
  if liked then
    match find (fun like =>
                  strict_equals (Int (Like.userId like)) (Int dbUserId))
               likes with
    | Some likeToDelete =>
        Some (DELETE_likes (decimal (Like.id likeToDelete)))
    | None => None
    end
  else
    Some (POST_likes (insertLikeSchema (Int dbUserId) (parseInt id))).

(** [followers?.some((follower) => follower.followerId === dbUser.id)] *)
Definition isFollowing (followers : list Follower) (dbUserId : Z) : bool :=
  existsb (fun follower =>
             strict_equals (Int (Follower.followerId follower))
                           (Int dbUserId))
          followers.

(** [followMutation.mutationFn(follow)], on the profile of the user
    [profileUserId]: the body it posts is
    [{ followerId: dbUser.id, followingId: profileUser.id }], which the
    route hands to [insertFollowerSchema.parse]. *)
Definition toggleFollow (follow : bool) (followers : list Follower)
  (dbUserId profileUserId : Z) : option Request :=
  if follow then
    Some (POST_followers
            (insertFollowerSchema (Int dbUserId) (Int profileUserId)))
  else
    match find (fun f =>
                  strict_equals (Int (Follower.followerId f))
                                (Int dbUserId))
               followers with
    | Some followerRecord =>
        Some (DELETE_followers (decimal (Follower.id followerRecord)))
    | None => None
    end.

(** The store after the request a button sends, if it sends one. *)
Definition after_click (req : option Request) (storage : MemStorage)
  : MemStorage :=
  match req with
  | Some req => fst (handle req storage)
  | None => storage
  end.

(** ** What the statements on sequences speak of *)

(** A request to PUT /api/users/:id. *)
Definition is_PUT_users (req : Request) : bool :=
  match req with
  | PUT_users _ _ => true
  | _ => false
  end.

(** An update whose partial object has an [id]. *)
Definition carries_id (c : call) : bool :=
  match c with
  | UpdateUser _ userData => is_some (User.p_id userData)
  | UpdateBlog _ blogData => is_some (Blog.p_id blogData)
  | UpdateComment _ commentData => is_some (Comment.p_id commentData)
  | _ => false
  end.

(** Every record of the five tables is stored under its own [id]. *)
Definition ids_are_keys (this : MemStorage) : Prop :=
  key_is_id User.id (users this)
  /\ key_is_id Blog.id (blogs this)
  /\ key_is_id Like.id (likes this)
  /\ key_is_id Follower.id (followers this)
  /\ key_is_id Comment.id (comments this).

(** A [create...] call of table [t]; a [delete...] call of table [t] that
    answered [true]. *)
Definition is_create (t : table) (entry : call * answer) : bool :=
  is_some (assigned_id t entry).

Definition is_removal (t : table) (entry : call * answer) : bool :=
  match t, entry with
  | Blogs, (DeleteBlog _, GotBool true) => true
  | Likes, (DeleteLike _, GotBool true) => true
  | Followers, (DeleteFollower _, GotBool true) => true
  | Comments, (DeleteComment _, GotBool true) => true
  | _, _ => false
  end.

Definition count {A : Type} (p : A -> bool) (l : list A) : nat :=
  List.length (filter p l).

(** ** Sample data

    Records and stores on which the statements below are instantiated. *)

Definition sample_user : InsertUser :=
  User.mkInsert "uid-1" "alice" "alice@example.org" "Alice"
                Null Null Null Null.

(** Another username, the same [uid] and [email]. *)
Definition sample_user_twin : InsertUser :=
  User.mkInsert "uid-1" "bob" "alice@example.org" "Bob"
                Null Null Null Null.

Definition sample_blog (publishedAt : Date) : InsertBlog :=
  Blog.mkInsert 1 "Hello" "A post" Null "Tech" Null publishedAt.

Definition sample_like : InsertLike := Like.mkInsert 1 1.

Definition sample_follower : InsertFollower := Follower.mkInsert 1 2.

Definition sample_comment : InsertComment :=
  Comment.mkInsert 1 1 "Nice" 2000 Null.

(** A store with one record in each table, each made by a request. *)
Definition sample_requests : list Request :=
  [POST_users (Some sample_user); POST_blogs (Some (sample_blog 1000));
   POST_likes (Some sample_like); POST_followers (Some sample_follower);
   POST_comments (Some sample_comment)].

Definition sample_calls : list call :=
  [CreateUser sample_user; CreateBlog (sample_blog 1000);
   CreateLike sample_like; CreateFollower sample_follower;
   CreateComment sample_comment].

(** Two posts as the store holds them once a PUT has left a JSON number
    at the [publishedAt] of the second. *)
Definition sample_stored : JsMap.t Stored.t :=
  [(Int 1, Stored.typed (Blog.with_id (sample_blog 1000) 1));
   (Int 2, Stored.untyped (Blog.with_id (sample_blog 2000) 2) "2000")].

(** Partial objects that carry nothing but an [id]. *)
Definition only_id_user (id : Z) : User.partial :=
  User.mkPartial (Some id) None None None None None None None None.

Definition only_id_blog (id : Z) : Blog.partial :=
  Blog.mkPartial (Some id) None None None None None None None.

Definition only_id_comment (id : Z) : Comment.partial :=
  Comment.mkPartial (Some id) None None None None None.

(** A partial object that carries nothing but a username. *)
Definition only_username (username : string) : User.partial :=
  User.mkPartial None None (Some username) None None None None None None.

(** Two users, made by two requests. *)
Definition two_users : list Request :=
  [POST_users (Some sample_user); POST_users (Some sample_user_twin)].

(** ** Tactics *)

Ltac unfold_methods :=
  unfold createUser, updateUser, createBlog, updateBlog, deleteBlog,
    createLike, deleteLike, createFollower, deleteFollower,
    createComment, updateComment, deleteComment, JsMap.delete in *.

Ltac case_get :=
  repeat match goal with
  | |- context [match JsMap.get ?k ?m with _ => _ end] =>
      destruct (JsMap.get k m) eqn:?; simpl
  end.

(** Evaluates the tests made on the characters written out in the goal. *)
Ltac eval_chars :=
  repeat match goal with
  | |- context [radix_digit ?r (Ascii ?a ?b ?c ?d ?e ?f ?g ?h)] =>
      let v := eval vm_compute in
                 (radix_digit r (Ascii a b c d e f g h)) in
      change (radix_digit r (Ascii a b c d e f g h)) with v
  | |- context [is_white_space (Ascii ?a ?b ?c ?d ?e ?f ?g ?h)] =>
      let v := eval vm_compute in
                 (is_white_space (Ascii a b c d e f g h)) in
      change (is_white_space (Ascii a b c d e f g h)) with v
  end.

(* ================================================================== *)
(** * Properties of Map *)

Section MapFacts.
Context {V : Type}.
Implicit Types (m : JsMap.t V) (k : number) (v : V).

Lemma same_value_zero_eq a b : same_value_zero a b = true <-> a = b.
Proof.
  destruct a as [|x], b as [|y]; simpl; split; try easy.
  - intros H. apply Z.eqb_eq in H. now subst.
  - intros [= ->]. apply Z.eqb_refl.
Qed.

Lemma same_value_zero_refl a : same_value_zero a a = true.
Proof. now apply same_value_zero_eq. Qed.

Lemma same_value_zero_neq a b : same_value_zero a b = false <-> a <> b.
Proof.
  rewrite <- same_value_zero_eq. destruct (same_value_zero a b); split;
    congruence.
Qed.

Lemma get_In_keys k m : JsMap.get k m <> None <-> In k (JsMap.keys m).
Proof.
  induction m as [|[k' v'] m IH]; simpl.
  - tauto.
  - destruct (same_value_zero k' k) eqn:E.
    + apply same_value_zero_eq in E. split; [auto | discriminate].
    + apply same_value_zero_neq in E. rewrite IH. tauto.
Qed.

Lemma get_None_keys k m : JsMap.get k m = None <-> ~ In k (JsMap.keys m).
Proof.
  rewrite <- get_In_keys. destruct (JsMap.get k m); split; try congruence.
  intros H. exfalso. apply H. discriminate.
Qed.

Lemma has_In_keys k m : JsMap.has k m = true <-> In k (JsMap.keys m).
Proof.
  rewrite <- get_In_keys. unfold JsMap.has.
  destruct (JsMap.get k m); split; congruence.
Qed.

Lemma has_false_keys k m : JsMap.has k m = false <-> ~ In k (JsMap.keys m).
Proof.
  rewrite <- has_In_keys. destruct (JsMap.has k m); split; congruence.
Qed.

Lemma get_set_same k v m : JsMap.get k (JsMap.set k v m) = Some v.
Proof.
  induction m as [|[k' v'] m IH]; simpl.
  - now rewrite same_value_zero_refl.
  - destruct (same_value_zero k' k) eqn:E; simpl; now rewrite E.
Qed.

Lemma get_set_other k k' v m :
  k <> k' -> JsMap.get k' (JsMap.set k v m) = JsMap.get k' m.
Proof.
  intros Hne. induction m as [|[k0 v0] m IH]; simpl.
  - apply same_value_zero_neq in Hne. now rewrite Hne.
  - destruct (same_value_zero k0 k) eqn:E; simpl.
    + apply same_value_zero_eq in E. subst k0.
      apply same_value_zero_neq in Hne. now rewrite Hne.
    + now rewrite IH.
Qed.

(** A key that is absent is appended. *)
Lemma set_absent k v m :
  JsMap.get k m = None -> JsMap.set k v m = m ++ [(k, v)].
Proof.
  induction m as [|[k' v'] m IH]; simpl; [reflexivity|].
  destruct (same_value_zero k' k); [discriminate|].
  intros H. now rewrite IH.
Qed.

(** A key that is present keeps its place, and the keys are the same. *)
Lemma keys_set_present k v m :
  JsMap.get k m <> None -> JsMap.keys (JsMap.set k v m) = JsMap.keys m.
Proof.
  induction m as [|[k' v'] m IH]; simpl; [congruence|].
  destruct (same_value_zero k' k); simpl; [reflexivity|].
  intros H. now rewrite IH.
Qed.

Lemma size_set_present k v m :
  JsMap.get k m <> None -> JsMap.size (JsMap.set k v m) = JsMap.size m.
Proof.
  intros H. unfold JsMap.size.
  rewrite <- (length_map fst (JsMap.set k v m)), <- (length_map fst m).
  now apply f_equal, keys_set_present.
Qed.

(** [remove] drops the entries of its key, when no key is repeated. *)
Lemma remove_filter k m :
  NoDup (JsMap.keys m) ->
  JsMap.remove k m =
  filter (fun e => negb (same_value_zero (fst e) k)) m.
Proof.
  induction m as [|[k' v'] m IH]; simpl; [reflexivity|].
  intros Hnd. apply NoDup_cons_iff in Hnd. destruct Hnd as [Hk' Hnd].
  destruct (same_value_zero k' k) eqn:E; simpl.
  - apply same_value_zero_eq in E. subst k'.
    symmetry. apply forallb_filter_id. apply forallb_forall.
    intros [k1 v1] Hin. simpl.
    destruct (same_value_zero k1 k) eqn:E1; [|reflexivity].
    apply same_value_zero_eq in E1. subst k1. exfalso. apply Hk'.
    change k with (fst (k, v1)). now apply in_map.
  - now rewrite IH.
Qed.

Lemma remove_absent k m : JsMap.get k m = None -> JsMap.remove k m = m.
Proof.
  induction m as [|[k' v'] m IH]; simpl; [reflexivity|].
  destruct (same_value_zero k' k); [discriminate|].
  intros H. now rewrite IH.
Qed.

Lemma keys_remove_incl k k' m :
  In k' (JsMap.keys (JsMap.remove k m)) -> In k' (JsMap.keys m).
Proof.
  induction m as [|[k0 v0] m IH]; simpl; [tauto|].
  destruct (same_value_zero k0 k); simpl; tauto.
Qed.

Lemma get_remove_same k m :
  NoDup (JsMap.keys m) -> JsMap.get k (JsMap.remove k m) = None.
Proof.
  induction m as [|[k' v'] m IH]; simpl; [reflexivity|].
  intros Hnd. apply NoDup_cons_iff in Hnd. destruct Hnd as [Hk' Hnd].
  destruct (same_value_zero k' k) eqn:E; simpl.
  - apply same_value_zero_eq in E. subst k'. now apply get_None_keys.
  - rewrite E. now apply IH.
Qed.

Lemma get_remove_other k k' m :
  k <> k' -> JsMap.get k' (JsMap.remove k m) = JsMap.get k' m.
Proof.
  intros Hne. induction m as [|[k0 v0] m IH]; simpl; [reflexivity|].
  destruct (same_value_zero k0 k) eqn:E; simpl.
  - apply same_value_zero_eq in E. subst k0.
    apply same_value_zero_neq in Hne. now rewrite Hne.
  - now rewrite IH.
Qed.

Lemma get_In k v m : JsMap.get k m = Some v -> In (k, v) m.
Proof.
  induction m as [|[k' v'] m IH]; simpl; [discriminate|].
  destruct (same_value_zero k' k) eqn:E.
  - apply same_value_zero_eq in E. intros [= ->]. subst. now left.
  - intros H. right. now apply IH.
Qed.

Lemma In_get k v m :
  NoDup (JsMap.keys m) -> In (k, v) m -> JsMap.get k m = Some v.
Proof.
  induction m as [|[k' v'] m IH]; simpl; [tauto|].
  intros Hnd. apply NoDup_cons_iff in Hnd. destruct Hnd as [Hk' Hnd].
  intros [[= -> ->]|Hin].
  - now rewrite same_value_zero_refl.
  - destruct (same_value_zero k' k) eqn:E.
    + apply same_value_zero_eq in E. subst k'. exfalso. apply Hk'.
      change k with (fst (k, v)). now apply in_map.
    + now apply IH.
Qed.

End MapFacts.

(* ================================================================== *)
(** * The keys of a table *)

Section KeyFacts.
Context {V : Type}.
Implicit Types (m : JsMap.t V) (k : number) (v : V).

Lemma sorted_snoc (zs : list Z) (n : Z) :
  StronglySorted Z.lt zs -> Forall (fun z => z < n) zs ->
  StronglySorted Z.lt (zs ++ [n]).
Proof.
  induction 1 as [|z zs Hs IH Hz]; simpl; intros Hn.
  - repeat constructor.
  - inversion Hn; subst. constructor; [now apply IH|].
    apply Forall_app. split; [assumption|]. now repeat constructor.
Qed.

Lemma sorted_NoDup (zs : list Z) : StronglySorted Z.lt zs -> NoDup zs.
Proof.
  induction 1 as [|z zs Hs IH Hz]; constructor; [|assumption].
  intros Hin. rewrite Forall_forall in Hz. specialize (Hz z Hin). lia.
Qed.

Lemma Int_injective : forall x y, Int x = Int y -> x = y.
Proof. now intros x y [= ->]. Qed.

Lemma keys_below_NoDup n ks : keys_below n ks -> NoDup ks.
Proof.
  intros [_ (zs & -> & Hs & _)].
  apply Finite.Injective_map_NoDup; [exact Int_injective|].
  now apply sorted_NoDup.
Qed.

Lemma keys_below_bound n ks z :
  keys_below n ks -> In (Int z) ks -> 1 <= z < n.
Proof.
  intros [_ (zs & -> & _ & Hb)] Hin. apply in_map_iff in Hin.
  destruct Hin as (z' & [= ->] & Hin).
  rewrite Forall_forall in Hb. now apply Hb.
Qed.

Lemma keys_below_fresh n ks : keys_below n ks -> ~ In (Int n) ks.
Proof. intros H Hin. pose proof (keys_below_bound _ _ _ H Hin). lia. Qed.

Lemma keys_below_no_NaN n ks : keys_below n ks -> ~ In NaN ks.
Proof.
  intros [_ (zs & -> & _)] Hin. apply in_map_iff in Hin.
  now destruct Hin as (z' & [=] & _).
Qed.

Lemma keys_below_empty : keys_below 1 [].
Proof.
  split; [lia|]. exists []. repeat split; constructor.
Qed.

Lemma keys_below_snoc n ks :
  keys_below n ks -> keys_below (n + 1) (ks ++ [Int n]).
Proof.
  intros [Hn (zs & -> & Hs & Hb)]. split; [lia|].
  exists (zs ++ [n]). rewrite map_app. split; [reflexivity|]. split.
  - apply sorted_snoc; [assumption|].
    eapply Forall_impl; [|exact Hb]. simpl. intros; lia.
  - apply Forall_app. split.
    + eapply Forall_impl; [|exact Hb]. simpl. intros; lia.
    + repeat constructor; lia.
Qed.

Lemma keys_below_tail n k ks : keys_below n (k :: ks) -> keys_below n ks.
Proof.
  intros [Hn (zs & E & Hs & Hb)]. destruct zs as [|z zs]; [discriminate|].
  injection E as -> ->. split; [assumption|]. exists zs.
  inversion Hs; inversion Hb; subst. now repeat split.
Qed.

Lemma keys_below_cons n z ks ks' :
  keys_below n (Int z :: ks) -> keys_below n ks' ->
  (forall k, In k ks' -> In k ks) ->
  keys_below n (Int z :: ks').
Proof.
  intros [Hn (zs & E & Hs & Hb)] [_ (zs' & -> & Hs' & Hb')] Hincl.
  destruct zs as [|z0 zs]; [discriminate|]. injection E as -> ->.
  split; [assumption|]. exists (z0 :: zs'). split; [reflexivity|].
  inversion Hs as [|? ? Hs0 Hlt]; inversion Hb; subst. split.
  - constructor; [assumption|]. rewrite Forall_forall in *.
    intros x Hx. apply Hlt.
    specialize (Hincl (Int x) (in_map Int _ _ Hx)).
    apply in_map_iff in Hincl. now destruct Hincl as (x' & [= ->] & Hx').
  - now constructor.
Qed.

Lemma keys_below_set_fresh n v m :
  keys_below n (JsMap.keys m) ->
  JsMap.set (Int n) v m = m ++ [(Int n, v)]
  /\ keys_below (n + 1) (JsMap.keys (JsMap.set (Int n) v m)).
Proof.
  intros H.
  assert (E : JsMap.set (Int n) v m = m ++ [(Int n, v)]).
  { apply set_absent, get_None_keys. now apply keys_below_fresh. }
  split; [assumption|]. rewrite E. unfold JsMap.keys. rewrite map_app.
  now apply keys_below_snoc.
Qed.

Lemma keys_below_set_present n k v m :
  JsMap.get k m <> None ->
  keys_below n (JsMap.keys m) ->
  keys_below n (JsMap.keys (JsMap.set k v m)).
Proof. intros Hget H. now rewrite keys_set_present. Qed.

Lemma keys_below_remove n k m :
  keys_below n (JsMap.keys m) ->
  keys_below n (JsMap.keys (JsMap.remove k m)).
Proof.
  induction m as [|[k' v'] m IH]; simpl; [trivial|].
  intros H. pose proof (keys_below_tail _ _ _ H) as Ht.
  destruct (same_value_zero k' k); simpl; [assumption|].
  destruct k' as [|z].
  - exfalso. apply (keys_below_no_NaN _ _ H). now left.
  - apply keys_below_cons with (ks := JsMap.keys m); auto.
    intros k0. apply keys_remove_incl.
Qed.

End KeyFacts.

(* ================================================================== *)
(** * parseInt reads back the decimal writing of an integer *)

Lemma read_digits_uint d acc :
  read_digits 10 (NilEmpty.string_of_uint d) (Some acc)
  = Some (uint_value d acc).
Proof.
  revert acc. induction d; intros acc;
    cbn [NilEmpty.string_of_uint read_digits uint_value];
    [reflexivity| ..]; eval_chars; cbv beta iota; apply IHd.
Qed.

Lemma uint_value_pos d p :
  uint_value d (Z.pos p) = Z.pos (Pos.of_uint_acc d p).
Proof.
  revert p. induction d; intros p; cbn [uint_value Pos.of_uint_acc];
    [reflexivity| ..]; rewrite <- IHd; f_equal; lia.
Qed.

Lemma uint_value_0 d : uint_value d 0 = Z.of_N (Pos.of_uint d).
Proof.
  induction d; cbn [uint_value Pos.of_uint]; try reflexivity;
    try assumption; apply uint_value_pos.
Qed.

Lemma parseInt_uint d :
  d <> Decimal.Nil ->
  parseInt (NilEmpty.string_of_uint d) = Int (uint_value d 0)
  /\ parseInt (String "-" (NilEmpty.string_of_uint d))
     = Int (- uint_value d 0).
Proof.
  intros Hd. destruct d as [|l|l|l|l|l|l|l|l|l|l];
    [congruence|destruct l|..];
    (split; unfold parseInt;
     cbn [NilEmpty.string_of_uint trim_start]; eval_chars; cbv beta iota;
     repeat (cbn [read_digits]; eval_chars; cbv beta iota);
     rewrite ?read_digits_uint; cbn [uint_value]; f_equal; lia).
Qed.

Lemma parseInt_decimal n : parseInt (decimal n) = Int n.
Proof.
  unfold decimal. destruct n as [|p|p]; [reflexivity| |];
    cbn [Z.to_int NilZero.string_of_int];
    pose proof (Unsigned.to_uint_nonnil p) as Hp;
    destruct (parseInt_uint _ Hp) as [Hpos Hneg];
    unfold NilZero.string_of_uint;
    destruct (Pos.to_uint p) eqn:E; try congruence;
    rewrite <- E in *; rewrite ?Hpos, ?Hneg, uint_value_0;
    rewrite DecimalPos.Unsigned.of_to; reflexivity.
Qed.

Lemma truthy_decimal n : truthy (decimal n) = true.
Proof.
  unfold decimal. destruct n as [|p|p]; try reflexivity.
  cbn [Z.to_int NilZero.string_of_int]. unfold NilZero.string_of_uint.
  destruct (Pos.to_uint p); reflexivity.
Qed.

(** A string that starts with a character which is neither white space,
    nor a sign, nor a decimal digit is not a number. *)
Lemma parseInt_not_a_number c s :
  is_white_space c = false ->
  c <> "-"%char -> c <> "+"%char ->
  radix_digit 10 c = None ->
  parseInt (String c s) = NaN.
Proof.
  intros Hws Hm Hp Hd. unfold parseInt. cbn [trim_start]. rewrite Hws.
  destruct c as [[] [] [] [] [] [] [] []];
    try congruence; try discriminate Hd; try discriminate Hws;
    cbv beta iota; cbn [read_digits]; rewrite ?Hd; reflexivity.
Qed.

(* ================================================================== *)
(** * The store after any sequence of calls *)

Lemma new_MemStorage_ok : store_ok new_MemStorage.
Proof. intros t. destruct t; exact keys_below_empty. Qed.

Lemma invoke_ok c this : store_ok this -> store_ok (fst (invoke c this)).
Proof.
  intros H t.
  pose proof (H Users) as HU. pose proof (H Blogs) as HB.
  pose proof (H Likes) as HL. pose proof (H Followers) as HF.
  pose proof (H Comments) as HC. specialize (H t).
  destruct c; simpl; unfold_methods; simpl; case_get;
    destruct t; simpl in *; try assumption;
    try (now apply keys_below_set_fresh);
    try (apply keys_below_set_present; [congruence | assumption]);
    try (now apply keys_below_remove).
Qed.

Lemma run_cons c cs this :
  run (c :: cs) this =
  ((c, snd (invoke c this)) :: fst (run cs (fst (invoke c this))),
   snd (run cs (fst (invoke c this)))).
Proof.
  simpl. destruct (invoke c this) as [this1 a]. simpl.
  now destruct (run cs this1).
Qed.

Lemma run_ok cs this : store_ok this -> store_ok (snd (run cs this)).
Proof.
  revert this. induction cs as [|c cs IH]; intros this H; [assumption|].
  rewrite run_cons. simpl. now apply IH, invoke_ok.
Qed.

Lemma after_ok cs : store_ok (after cs).
Proof. apply run_ok, new_MemStorage_ok. Qed.

(** ** Identities come from the counters *)

Lemma invoke_counter t c this :
  match assigned_id t (c, snd (invoke c this)) with
  | Some id =>
      id = counter_of t this
      /\ counter_of t (fst (invoke c this)) = counter_of t this + 1
  | None => counter_of t (fst (invoke c this)) = counter_of t this
  end.
Proof.
  destruct c, t; simpl; unfold_methods; simpl; case_get; simpl; auto.
Qed.

Lemma assigned_ids_run t cs this :
  let ids := assigned_ids t (fst (run cs this)) in
  ids = count_from (counter_of t this) (List.length ids)
  /\ counter_of t (snd (run cs this))
     = counter_of t this + Z.of_nat (List.length ids).
Proof.
  revert this. induction cs as [|c cs IH]; intros this.
  - simpl. split; [reflexivity | lia].
  - rewrite run_cons. cbn [fst snd assigned_ids].
    pose proof (invoke_counter t c this) as Hc.
    destruct (IH (fst (invoke c this))) as [IH1 IH2]. cbv zeta in *.
    destruct (assigned_id t (c, snd (invoke c this))) as [id|].
    + destruct Hc as [-> Hnext]. cbn [List.length count_from]. split.
      * f_equal. rewrite <- Hnext. exact IH1.
      * rewrite IH2, Hnext. lia.
    + rewrite <- Hc. now split.
Qed.

Lemma count_from_lower a n : Forall (fun z => a <= z) (count_from a n).
Proof.
  revert a. induction n as [|n IH]; intros a; simpl; constructor; [lia|].
  eapply Forall_impl; [|apply IH]. simpl. intros; lia.
Qed.

Lemma count_from_sorted a n : StronglySorted Z.lt (count_from a n).
Proof.
  revert a. induction n as [|n IH]; intros a; simpl; constructor.
  - apply IH.
  - eapply Forall_impl; [|apply count_from_lower]. simpl. intros; lia.
Qed.

(** C5. Within each table, the identities that successive [create...]
    calls answer with, over any sequence of calls on a fresh store, are
    1, 2, 3, ... in this order: they start at 1, strictly increase and are
    never repeated, whatever was deleted in between. Creating A, deleting
    A and creating B gives B the identity after that of A; on a fresh
    store A gets 1 and B gets 2. *)
Theorem identities_never_reassigned :
  forall (cs : list call) (t : table),
    let ids := assigned_ids t (fst (run cs new_MemStorage)) in
    ids = count_from 1 (List.length ids)
    /\ StronglySorted Z.lt ids
    /\ NoDup ids
    /\ (forall a b : InsertBlog,
          let (this1, A) := createBlog a (after cs) in
          let (this2, deleted) := deleteBlog (Int (Blog.id A)) this1 in
          let (this3, B) := createBlog b this2 in
          deleted = true /\ Blog.id B = Blog.id A + 1)
    /\ (forall a b : InsertBlog,
          let (this1, A) := createBlog a new_MemStorage in
          let (this2, deleted) := deleteBlog (Int (Blog.id A)) this1 in
          let (this3, B) := createBlog b this2 in
          Blog.id A = 1 /\ deleted = true /\ Blog.id B = 2)
    /\ (forall a b : InsertLike,
          let (this1, A) := createLike a (after cs) in
          let (this2, deleted) := deleteLike (Int (Like.id A)) this1 in
          let (this3, B) := createLike b this2 in
          deleted = true /\ Like.id B = Like.id A + 1)
    /\ (forall a b : InsertLike,
          let (this1, A) := createLike a new_MemStorage in
          let (this2, deleted) := deleteLike (Int (Like.id A)) this1 in
          let (this3, B) := createLike b this2 in
          Like.id A = 1 /\ deleted = true /\ Like.id B = 2)
    /\ (forall a b : InsertFollower,
          let (this1, A) := createFollower a (after cs) in
          let (this2, deleted) :=
            deleteFollower (Int (Follower.id A)) this1 in
          let (this3, B) := createFollower b this2 in
          deleted = true /\ Follower.id B = Follower.id A + 1)
    /\ (forall a b : InsertFollower,
          let (this1, A) := createFollower a new_MemStorage in
          let (this2, deleted) :=
            deleteFollower (Int (Follower.id A)) this1 in
          let (this3, B) := createFollower b this2 in
          Follower.id A = 1 /\ deleted = true /\ Follower.id B = 2)
    /\ (forall a b : InsertComment,
          let (this1, A) := createComment a (after cs) in
          let (this2, deleted) := deleteComment (Int (Comment.id A)) this1 in
          let (this3, B) := createComment b this2 in
          deleted = true /\ Comment.id B = Comment.id A + 1)
    /\ (forall a b : InsertComment,
          let (this1, A) := createComment a new_MemStorage in
          let (this2, deleted) := deleteComment (Int (Comment.id A)) this1 in
          let (this3, B) := createComment b this2 in
          Comment.id A = 1 /\ deleted = true /\ Comment.id B = 2).
Proof.
  intros cs t ids.
  destruct (assigned_ids_run t cs new_MemStorage) as [Hids _].
  fold ids in Hids.
  assert (E : counter_of t new_MemStorage = 1) by now destruct t.
  rewrite E in Hids.
  split; [exact Hids|]. split; [rewrite Hids; apply count_from_sorted|].
  split; [rewrite Hids; apply sorted_NoDup, count_from_sorted|].
  repeat split; intros; unfold_methods; cbn;
    unfold JsMap.has; rewrite ?get_set_same; reflexivity.
Qed.

(** ** Creating a record *)

(** The counter of a table is not one of its keys. *)
Lemma counter_is_fresh {V : Type} (m : JsMap.t V) n v :
  keys_below n (JsMap.keys m) ->
  JsMap.get (Int n) m = None /\ JsMap.set (Int n) v m = m ++ [(Int n, v)].
Proof.
  intros H. split.
  - now apply get_None_keys, keys_below_fresh.
  - now apply keys_below_set_fresh.
Qed.

(** C6. On the store reached by any sequence of calls, a [create...] call
    answers with the input record plus the identity taken from the
    counter: each property of the record it answers with is the property
    of the input, and its [id] is the counter. Looking this identity up
    afterwards gives this record; the identity was free before; and the
    store afterwards is the store before with this one entry added at the
    end of its table and the counter of the table advanced by one,
    everything else being the same. Likes and followers have no lookup by
    identity in [IStorage]: their [Map] is read. *)
Theorem create_then_get :
  forall (cs : list call),
    let this := after cs in
    (forall user : InsertUser,
        let (this1, newUser) := createUser user this in
        newUser = User.with_id user (userId this)
        /\ (User.id newUser = userId this
            /\ User.uid newUser = User.i_uid user
            /\ User.username newUser = User.i_username user
            /\ User.email newUser = User.i_email user
            /\ User.displayName newUser = User.i_displayName user
            /\ User.bio newUser = User.i_bio user
            /\ User.photoURL newUser = User.i_photoURL user
            /\ User.location newUser = User.i_location user
            /\ User.website newUser = User.i_website user)
        /\ getUser (Int (User.id newUser)) this1 = Some newUser
        /\ getUser (Int (User.id newUser)) this = None
        /\ this1 = set_users (users this ++ [(Int (userId this), newUser)])
                     (set_userId (userId this + 1) this))
    /\ (forall blog : InsertBlog,
          let (this1, newBlog) := createBlog blog this in
          newBlog = Blog.with_id blog (blogId this)
          /\ (Blog.id newBlog = blogId this
              /\ Blog.userId newBlog = Blog.i_userId blog
              /\ Blog.title newBlog = Blog.i_title blog
              /\ Blog.content newBlog = Blog.i_content blog
              /\ Blog.coverImage newBlog = Blog.i_coverImage blog
              /\ Blog.category newBlog = Blog.i_category blog
              /\ Blog.tags newBlog = Blog.i_tags blog
              /\ Blog.publishedAt newBlog = Blog.i_publishedAt blog)
          /\ getBlog (Int (Blog.id newBlog)) this1 = Some newBlog
          /\ getBlog (Int (Blog.id newBlog)) this = None
          /\ this1 = set_blogs (blogs this ++ [(Int (blogId this), newBlog)])
                       (set_blogId (blogId this + 1) this))
    /\ (forall like : InsertLike,
          let (this1, newLike) := createLike like this in
          newLike = Like.with_id like (likeId this)
          /\ (Like.id newLike = likeId this
              /\ Like.userId newLike = Like.i_userId like
              /\ Like.blogId newLike = Like.i_blogId like)
          /\ JsMap.get (Int (Like.id newLike)) (likes this1) = Some newLike
          /\ JsMap.get (Int (Like.id newLike)) (likes this) = None
          /\ this1 = set_likes (likes this ++ [(Int (likeId this), newLike)])
                       (set_likeId (likeId this + 1) this))
    /\ (forall follower : InsertFollower,
          let (this1, newFollower) := createFollower follower this in
          newFollower = Follower.with_id follower (followerId this)
          /\ (Follower.id newFollower = followerId this
              /\ Follower.followerId newFollower
                 = Follower.i_followerId follower
              /\ Follower.followingId newFollower
                 = Follower.i_followingId follower)
          /\ JsMap.get (Int (Follower.id newFollower)) (followers this1)
             = Some newFollower
          /\ JsMap.get (Int (Follower.id newFollower)) (followers this)
             = None
          /\ this1 = set_followers
                       (followers this
                        ++ [(Int (followerId this), newFollower)])
                       (set_followerId (followerId this + 1) this))
    /\ (forall comment : InsertComment,
          let (this1, newComment) := createComment comment this in
          newComment = Comment.with_id comment (commentId this)
          /\ (Comment.id newComment = commentId this
              /\ Comment.userId newComment = Comment.i_userId comment
              /\ Comment.blogId newComment = Comment.i_blogId comment
              /\ Comment.content newComment = Comment.i_content comment
              /\ Comment.createdAt newComment = Comment.i_createdAt comment
              /\ Comment.parentId newComment = Comment.i_parentId comment)
          /\ getComment (Int (Comment.id newComment)) this1
             = Some newComment
          /\ getComment (Int (Comment.id newComment)) this = None
          /\ this1 = set_comments
                       (comments this
                        ++ [(Int (commentId this), newComment)])
                       (set_commentId (commentId this + 1) this)).
Proof.
  intros cs this. pose proof (after_ok cs) as Hok. fold this in Hok.
  clearbody this.
  repeat apply conj; intros x.
  - destruct (counter_is_fresh (users this) _ (User.with_id x (userId this))
                (Hok Users)) as [Hget Hset].
    unfold createUser, getUser. simpl. rewrite get_set_same.
    repeat split; try assumption. simpl in Hset. now rewrite Hset.
  - destruct (counter_is_fresh (blogs this) _ (Blog.with_id x (blogId this))
                (Hok Blogs)) as [Hget Hset].
    unfold createBlog, getBlog. simpl. rewrite get_set_same.
    repeat split; try assumption. simpl in Hset. now rewrite Hset.
  - destruct (counter_is_fresh (likes this) _ (Like.with_id x (likeId this))
                (Hok Likes)) as [Hget Hset].
    unfold createLike. simpl. rewrite get_set_same.
    repeat split; try assumption. simpl in Hset. now rewrite Hset.
  - destruct (counter_is_fresh (followers this) _
                (Follower.with_id x (followerId this))
                (Hok Followers)) as [Hget Hset].
    unfold createFollower. simpl. rewrite get_set_same.
    repeat split; try assumption. simpl in Hset. now rewrite Hset.
  - destruct (counter_is_fresh (comments this) _
                (Comment.with_id x (commentId this))
                (Hok Comments)) as [Hget Hset].
    unfold createComment, getComment. simpl. rewrite get_set_same.
    repeat split; try assumption. simpl in Hset. now rewrite Hset.
Qed.

(** ** Deleting a record *)

Lemma absent_set_fresh {V : Type} (m : JsMap.t V) n k v :
  keys_below n (JsMap.keys m) -> k <> Int n ->
  ~ In k (JsMap.keys m) -> ~ In k (JsMap.keys (JsMap.set (Int n) v m)).
Proof.
  intros Hok Hne Hk. destruct (keys_below_set_fresh n v m Hok) as [-> _].
  unfold JsMap.keys. rewrite map_app, in_app_iff. simpl.
  intros [H|[H|[]]]; [now apply Hk | congruence].
Qed.

Lemma absent_set_present {V : Type} (m : JsMap.t V) k k' v :
  JsMap.get k' m <> None ->
  ~ In k (JsMap.keys m) -> ~ In k (JsMap.keys (JsMap.set k' v m)).
Proof. intros Hget Hk. now rewrite keys_set_present. Qed.

Lemma absent_remove {V : Type} (m : JsMap.t V) k k' :
  ~ In k (JsMap.keys m) -> ~ In k (JsMap.keys (JsMap.remove k' m)).
Proof. intros Hk Hin. apply Hk. eapply keys_remove_incl, Hin. Qed.

Lemma spent_differs t k this : spent t k this -> k <> Int (counter_of t this).
Proof. destruct k; simpl; [discriminate|]. intros H [= ->]. lia. Qed.

(** A key of a table was given by its counter. *)
Lemma present_spent t k this :
  store_ok this -> In k (keys_of t this) -> spent t k this.
Proof.
  intros Hok Hin. destruct k as [|z]; simpl; [exact I|].
  now apply (keys_below_bound _ _ _ (Hok t) Hin).
Qed.

(** A spent key that is absent stays so. *)
Lemma invoke_spent t k c this :
  store_ok this -> spent t k this -> ~ In k (keys_of t this) ->
  spent t k (fst (invoke c this))
  /\ ~ In k (keys_of t (fst (invoke c this))).
Proof.
  intros Hok Hs Hk. pose proof (spent_differs _ _ _ Hs) as Hne.
  pose proof (Hok t) as Ht.
  destruct c, t; simpl; unfold_methods; simpl; case_get; simpl in *;
    try (split; assumption);
    (split;
     [ destruct k; simpl in *; trivial; lia
     | first [ now apply absent_set_fresh
             | apply absent_set_present; [congruence | assumption]
             | now apply absent_remove ] ]).
Qed.

Lemma run_spent t k cs this :
  store_ok this -> spent t k this -> ~ In k (keys_of t this) ->
  ~ In k (keys_of t (snd (run cs this))).
Proof.
  revert this. induction cs as [|c cs IH]; intros this Hok Hs Hk.
  - exact Hk.
  - rewrite run_cons. simpl.
    destruct (invoke_spent t k c this Hok Hs Hk) as [Hs' Hk'].
    apply IH; auto using invoke_ok.
Qed.

(** What [Map.delete] does to a table whose keys are in order. *)
Lemma delete_table {V : Type} (m : JsMap.t V) n k :
  keys_below n (JsMap.keys m) ->
  JsMap.remove k m = without k m
  /\ JsMap.has k m = is_some (JsMap.get k m)
  /\ JsMap.get k (without k m) = None
  /\ (JsMap.get k m = None -> without k m = m).
Proof.
  intros Hok. pose proof (keys_below_NoDup _ _ Hok) as Hnd.
  unfold without. rewrite <- (remove_filter k m Hnd).
  repeat split.
  - now apply get_remove_same.
  - apply remove_absent.
Qed.

Lemma set_same_table this :
  set_users (users this) this = this
  /\ set_blogs (blogs this) this = this
  /\ set_likes (likes this) this = this
  /\ set_followers (followers this) this = this
  /\ set_comments (comments this) this = this.
Proof. now destruct this. Qed.

(** C7. On the store reached by any sequence of calls, every [delete...]
    answers [true] exactly when a record was stored under the identity,
    [false] otherwise, and returns in both cases; the store afterwards is
    the store before without the entry of this identity (unchanged when
    there was none), so that a lookup finds nothing. After a delete that
    answered [true], whatever calls are made next, a delete of the same
    identity answers [false]. *)
Theorem delete_true_once :
  forall (before later : list call) (id : number),
    let this := after before in
    (let (this1, existed) := deleteBlog id this in
     existed = is_some (getBlog id this)
     /\ this1 = set_blogs (without id (blogs this)) this
     /\ getBlog id this1 = None
     /\ (if existed
         then snd (deleteBlog id (snd (run later this1))) = false
         else this1 = this))
    /\ (let (this1, existed) := deleteLike id this in
        existed = is_some (JsMap.get id (likes this))
        /\ this1 = set_likes (without id (likes this)) this
        /\ JsMap.get id (likes this1) = None
        /\ (if existed
            then snd (deleteLike id (snd (run later this1))) = false
            else this1 = this))
    /\ (let (this1, existed) := deleteFollower id this in
        existed = is_some (JsMap.get id (followers this))
        /\ this1 = set_followers (without id (followers this)) this
        /\ JsMap.get id (followers this1) = None
        /\ (if existed
            then snd (deleteFollower id (snd (run later this1))) = false
            else this1 = this))
    /\ (let (this1, existed) := deleteComment id this in
        existed = is_some (getComment id this)
        /\ this1 = set_comments (without id (comments this)) this
        /\ getComment id this1 = None
        /\ (if existed
            then snd (deleteComment id (snd (run later this1))) = false
            else this1 = this)).
Proof.
  intros before later id this.
  pose proof (after_ok before) as Hok. fold this in Hok. clearbody this.
  pose proof (set_same_table this) as (_ & EB & EL & EF & EC).
  split; [|split; [|split]].
  - destruct (delete_table (blogs this) _ id (Hok Blogs))
      as (Er & Eh & Hg & Ha).
    pose proof (invoke_ok (DeleteBlog id) this Hok) as Hok1.
    pose proof (run_spent Blogs id later
                  (fst (invoke (DeleteBlog id) this)) Hok1) as Hrun.
    unfold deleteBlog, getBlog, JsMap.delete in *.
    simpl in *. rewrite Er, Eh in *. repeat split; try assumption.
    destruct (JsMap.get id (blogs this)) eqn:G; simpl.
    + apply has_false_keys, Hrun.
      * apply (present_spent Blogs id this Hok). simpl.
        apply get_In_keys. congruence.
      * now apply get_None_keys.
    + now rewrite Ha.
  - destruct (delete_table (likes this) _ id (Hok Likes))
      as (Er & Eh & Hg & Ha).
    pose proof (invoke_ok (DeleteLike id) this Hok) as Hok1.
    pose proof (run_spent Likes id later
                  (fst (invoke (DeleteLike id) this)) Hok1) as Hrun.
    unfold deleteLike, JsMap.delete in *.
    simpl in *. rewrite Er, Eh in *. repeat split; try assumption.
    destruct (JsMap.get id (likes this)) eqn:G; simpl.
    + apply has_false_keys, Hrun.
      * apply (present_spent Likes id this Hok). simpl.
        apply get_In_keys. congruence.
      * now apply get_None_keys.
    + now rewrite Ha.
  - destruct (delete_table (followers this) _ id (Hok Followers))
      as (Er & Eh & Hg & Ha).
    pose proof (invoke_ok (DeleteFollower id) this Hok) as Hok1.
    pose proof (run_spent Followers id later
                  (fst (invoke (DeleteFollower id) this)) Hok1) as Hrun.
    unfold deleteFollower, JsMap.delete in *.
    simpl in *. rewrite Er, Eh in *. repeat split; try assumption.
    destruct (JsMap.get id (followers this)) eqn:G; simpl.
    + apply has_false_keys, Hrun.
      * apply (present_spent Followers id this Hok). simpl.
        apply get_In_keys. congruence.
      * now apply get_None_keys.
    + now rewrite Ha.
  - destruct (delete_table (comments this) _ id (Hok Comments))
      as (Er & Eh & Hg & Ha).
    pose proof (invoke_ok (DeleteComment id) this Hok) as Hok1.
    pose proof (run_spent Comments id later
                  (fst (invoke (DeleteComment id) this)) Hok1) as Hrun.
    unfold deleteComment, getComment, JsMap.delete in *.
    simpl in *. rewrite Er, Eh in *. repeat split; try assumption.
    destruct (JsMap.get id (comments this)) eqn:G; simpl.
    + apply has_false_keys, Hrun.
      * apply (present_spent Comments id this Hok). simpl.
        apply get_In_keys. congruence.
      * now apply get_None_keys.
    + now rewrite Ha.
Qed.

(** ** Updating a record *)

Lemma without_set {V : Type} (m : JsMap.t V) k v :
  without k (JsMap.set k v m) = without k m.
Proof.
  unfold without. induction m as [|[k' v'] m IH]; simpl.
  - now rewrite same_value_zero_refl.
  - destruct (same_value_zero k' k) eqn:E; simpl; rewrite E; simpl;
      [reflexivity | now rewrite IH].
Qed.

(** C4. An update on an identity that is not stored throws
    ["... not found"] and leaves the store as it is. On a stored identity
    it answers with the merged record and stores it under the identity:
    each property of the merged record is the one of the partial object
    when the partial object has it, and the old one otherwise; the keys of
    the table, its other entries and the other tables are unchanged. This
    holds for users, blogs and comments, on every store. *)
Theorem update_merges_partial :
  forall (this : MemStorage) (id : number),
    (forall userData : User.partial,
        match getUser id this with
        | None =>
            updateUser id userData this = (this, Throw "User not found")
        | Some user =>
            let (this1, r) := updateUser id userData this in
            let updatedUser := User.merge user userData in
            r = Return updatedUser
            /\ getUser id this1 = Some updatedUser
            /\ merged User.id User.p_id user userData updatedUser
            /\ merged User.uid User.p_uid user userData updatedUser
            /\ merged User.username User.p_username user userData
                 updatedUser
            /\ merged User.email User.p_email user userData updatedUser
            /\ merged User.displayName User.p_displayName user userData
                 updatedUser
            /\ merged User.bio User.p_bio user userData updatedUser
            /\ merged User.photoURL User.p_photoURL user userData
                 updatedUser
            /\ merged User.location User.p_location user userData
                 updatedUser
            /\ merged User.website User.p_website user userData
                 updatedUser
            /\ JsMap.keys (users this1) = JsMap.keys (users this)
            /\ without id (users this1) = without id (users this)
            /\ this1 = set_users (users this1) this
        end)
    /\ (forall blogData : Blog.partial,
          match getBlog id this with
          | None =>
              updateBlog id blogData this = (this, Throw "Blog not found")
          | Some blog =>
              let (this1, r) := updateBlog id blogData this in
              let updatedBlog := Blog.merge blog blogData in
              r = Return updatedBlog
              /\ getBlog id this1 = Some updatedBlog
              /\ merged Blog.id Blog.p_id blog blogData updatedBlog
              /\ merged Blog.userId Blog.p_userId blog blogData updatedBlog
              /\ merged Blog.title Blog.p_title blog blogData updatedBlog
              /\ merged Blog.content Blog.p_content blog blogData
                   updatedBlog
              /\ merged Blog.coverImage Blog.p_coverImage blog blogData
                   updatedBlog
              /\ merged Blog.category Blog.p_category blog blogData
                   updatedBlog
              /\ merged Blog.tags Blog.p_tags blog blogData updatedBlog
              /\ merged Blog.publishedAt Blog.p_publishedAt blog blogData
                   updatedBlog
              /\ JsMap.keys (blogs this1) = JsMap.keys (blogs this)
              /\ without id (blogs this1) = without id (blogs this)
              /\ this1 = set_blogs (blogs this1) this
          end)
    /\ (forall commentData : Comment.partial,
          match getComment id this with
          | None =>
              updateComment id commentData this
              = (this, Throw "Comment not found")
          | Some comment =>
              let (this1, r) := updateComment id commentData this in
              let updatedComment := Comment.merge comment commentData in
              r = Return updatedComment
              /\ getComment id this1 = Some updatedComment
              /\ merged Comment.id Comment.p_id comment commentData
                   updatedComment
              /\ merged Comment.userId Comment.p_userId comment commentData
                   updatedComment
              /\ merged Comment.blogId Comment.p_blogId comment commentData
                   updatedComment
              /\ merged Comment.content Comment.p_content comment
                   commentData updatedComment
              /\ merged Comment.createdAt Comment.p_createdAt comment
                   commentData updatedComment
              /\ merged Comment.parentId Comment.p_parentId comment
                   commentData updatedComment
              /\ JsMap.keys (comments this1) = JsMap.keys (comments this)
              /\ without id (comments this1) = without id (comments this)
              /\ this1 = set_comments (comments this1) this
          end).
Proof.
  intros this id. split; [|split]; intros data.
  - unfold updateUser, getUser.
    destruct (JsMap.get id (users this)) as [user|] eqn:G;
      [|reflexivity].
    simpl. rewrite get_set_same, without_set, keys_set_present
      by congruence.
    repeat split. all: destruct data as [[] [] [] [] [] [] [] [] []];
      reflexivity.
  - unfold updateBlog, getBlog.
    destruct (JsMap.get id (blogs this)) as [blog|] eqn:G;
      [|reflexivity].
    simpl. rewrite get_set_same, without_set, keys_set_present
      by congruence.
    repeat split. all: destruct data as [[] [] [] [] [] [] [] []];
      reflexivity.
  - unfold updateComment, getComment.
    destruct (JsMap.get id (comments this)) as [comment|] eqn:G;
      [|reflexivity].
    simpl. rewrite get_set_same, without_set, keys_set_present
      by congruence.
    repeat split. all: destruct data as [[] [] [] [] [] []];
      reflexivity.
Qed.

(** C9. An update does not protect [id]: when the partial object carries
    an [id] k', the record stored under the key k, answered by the update
    and found by a later lookup of k, has k' as its [id]; when k' is not
    k, the [id] of the record under k is not k and the table no longer
    has every record under its own [id]. This holds for users, blogs and
    comments. *)
Theorem update_overwrites_id :
  forall (this : MemStorage) (k k' : Z),
    (forall (user : User) (userData : User.partial),
        getUser (Int k) this = Some user ->
        User.p_id userData = Some k' ->
        let (this1, r) := updateUser (Int k) userData this in
        exists stored,
          r = Return stored
          /\ getUser (Int k) this1 = Some stored
          /\ User.id stored = k'
          /\ (k' <> k ->
              User.id stored <> k /\ ~ key_is_id User.id (users this1)))
    /\ (forall (blog : Blog) (blogData : Blog.partial),
          getBlog (Int k) this = Some blog ->
          Blog.p_id blogData = Some k' ->
          let (this1, r) := updateBlog (Int k) blogData this in
          exists stored,
            r = Return stored
            /\ getBlog (Int k) this1 = Some stored
            /\ Blog.id stored = k'
            /\ (k' <> k ->
                Blog.id stored <> k /\ ~ key_is_id Blog.id (blogs this1)))
    /\ (forall (comment : Comment) (commentData : Comment.partial),
          getComment (Int k) this = Some comment ->
          Comment.p_id commentData = Some k' ->
          let (this1, r) := updateComment (Int k) commentData this in
          exists stored,
            r = Return stored
            /\ getComment (Int k) this1 = Some stored
            /\ Comment.id stored = k'
            /\ (k' <> k ->
                Comment.id stored <> k
                /\ ~ key_is_id Comment.id (comments this1))).
Proof.
  intros this k k'. split; [|split]; intros old data Hget Hid.
  - unfold updateUser, getUser in *. rewrite Hget. simpl.
    exists (User.merge old data). rewrite get_set_same.
    assert (E : User.id (User.merge old data) = k')
      by (simpl; now rewrite Hid).
    repeat split; try assumption; [congruence|].
    intros Hinv.
    specialize (Hinv (Int k) (User.merge old data)
                  (get_In _ _ _ (get_set_same _ _ _))).
    congruence.
  - unfold updateBlog, getBlog in *. rewrite Hget. simpl.
    exists (Blog.merge old data). rewrite get_set_same.
    assert (E : Blog.id (Blog.merge old data) = k')
      by (simpl; now rewrite Hid).
    repeat split; try assumption; [congruence|].
    intros Hinv.
    specialize (Hinv (Int k) (Blog.merge old data)
                  (get_In _ _ _ (get_set_same _ _ _))).
    congruence.
  - unfold updateComment, getComment in *. rewrite Hget. simpl.
    exists (Comment.merge old data). rewrite get_set_same.
    assert (E : Comment.id (Comment.merge old data) = k')
      by (simpl; now rewrite Hid).
    repeat split; try assumption; [congruence|].
    intros Hinv.
    specialize (Hinv (Int k) (Comment.merge old data)
                  (get_In _ _ _ (get_set_same _ _ _))).
    congruence.
Qed.

Lemma update_overwrites_id_witness :
  let this := after sample_calls in
  (getUser (Int 1) this = Some (User.with_id sample_user 1)
   /\ User.p_id (only_id_user 7) = Some 7
   /\ 7 <> 1
   /\ let (this1, r) := updateUser (Int 1) (only_id_user 7) this in
      exists stored,
        r = Return stored
        /\ getUser (Int 1) this1 = Some stored
        /\ User.id stored = 7
        /\ User.id stored <> 1
        /\ ~ key_is_id User.id (users this1))
  /\ (getBlog (Int 1) this = Some (Blog.with_id (sample_blog 1000) 1)
      /\ Blog.p_id (only_id_blog 7) = Some 7
      /\ let (this1, r) := updateBlog (Int 1) (only_id_blog 7) this in
         exists stored,
           r = Return stored
           /\ getBlog (Int 1) this1 = Some stored
           /\ Blog.id stored = 7
           /\ Blog.id stored <> 1
           /\ ~ key_is_id Blog.id (blogs this1))
  /\ (getComment (Int 1) this = Some (Comment.with_id sample_comment 1)
      /\ Comment.p_id (only_id_comment 7) = Some 7
      /\ let (this1, r) :=
           updateComment (Int 1) (only_id_comment 7) this in
         exists stored,
           r = Return stored
           /\ getComment (Int 1) this1 = Some stored
           /\ Comment.id stored = 7
           /\ Comment.id stored <> 1
           /\ ~ key_is_id Comment.id (comments this1)).
Proof.
  intros this.
  assert (Hne : 7 <> 1) by lia.
  destruct (update_overwrites_id this 1 7) as (HU & HB & HC).
  split; [|split].
  - split; [reflexivity|]. split; [reflexivity|]. split; [exact Hne|].
    specialize (HU (User.with_id sample_user 1) (only_id_user 7)
                  eq_refl eq_refl).
    destruct (updateUser (Int 1) (only_id_user 7) this) as [this1 r].
    destruct HU as (stored & Hr & Hg & Hid & Hbroken).
    exists stored. destruct (Hbroken Hne). now repeat split.
  - split; [reflexivity|]. split; [reflexivity|].
    specialize (HB (Blog.with_id (sample_blog 1000) 1) (only_id_blog 7)
                  eq_refl eq_refl).
    destruct (updateBlog (Int 1) (only_id_blog 7) this) as [this1 r].
    destruct HB as (stored & Hr & Hg & Hid & Hbroken).
    exists stored. destruct (Hbroken Hne). now repeat split.
  - split; [reflexivity|]. split; [reflexivity|].
    specialize (HC (Comment.with_id sample_comment 1) (only_id_comment 7)
                  eq_refl eq_refl).
    destruct (updateComment (Int 1) (only_id_comment 7) this)
      as [this1 r].
    destruct HC as (stored & Hr & Hg & Hid & Hbroken).
    exists stored. destruct (Hbroken Hne). now repeat split.
Defined.

(* ================================================================== *)
(** * Sorting and slicing *)

Section SortFacts.
Context {A : Type}.
Implicit Types (comparefn : A -> A -> Z) (l : list A).

Lemma sort_insert_perm comparefn x l :
  Permutation (sort_insert comparefn x l) (x :: l).
Proof.
  induction l as [|y l IH]; simpl; [reflexivity|].
  destruct (comparefn x y <=? 0); [reflexivity|].
  rewrite IH. apply perm_swap.
Qed.

Lemma sort_perm comparefn l : Permutation (sort comparefn l) l.
Proof.
  induction l as [|x l IH]; simpl; [reflexivity|].
  rewrite sort_insert_perm. now apply perm_skip.
Qed.

Lemma sort_length comparefn l :
  List.length (sort comparefn l) = List.length l.
Proof. apply Permutation_length, sort_perm. Qed.

(** Sorting by a key in descending order. *)
Context (key : A -> Z).

Lemma sort_insert_sorted x l :
  StronglySorted (fun a b => key a >= key b) l ->
  StronglySorted (fun a b => key a >= key b) (sort_insert (descending key) x l).
Proof.
  induction 1 as [|y l Hs IH Hy]; simpl.
  - repeat constructor.
  - unfold descending at 1. destruct (Z.leb_spec (key y - key x) 0).
    + constructor; [now constructor|]. constructor; [lia|].
      eapply Forall_impl; [|exact Hy]. simpl. intros; lia.
    + constructor; [assumption|].
      apply (Permutation_Forall
               (Permutation_sym (sort_insert_perm (descending key) x l))).
      constructor; [lia | assumption].
Qed.

Lemma sort_sorted l :
  StronglySorted (fun a b => key a >= key b) (sort (descending key) l).
Proof.
  induction l as [|x l IH]; simpl; [constructor|].
  now apply sort_insert_sorted.
Qed.

(** The sort is stable: records of the same key keep their order. *)
Lemma sort_insert_stable t x l :
  filter (fun a => key a =? t) (sort_insert (descending key) x l)
  = filter (fun a => key a =? t) (x :: l).
Proof.
  induction l as [|y l IH]; simpl; [reflexivity|].
  unfold descending at 1. destruct (Z.leb_spec (key y - key x) 0);
    [reflexivity|].
  simpl in *. rewrite IH.
  destruct (Z.eqb_spec (key x) t), (Z.eqb_spec (key y) t);
    try reflexivity. lia.
Qed.

Lemma sort_stable t l :
  filter (fun a => key a =? t) (sort (descending key) l)
  = filter (fun a => key a =? t) l.
Proof.
  induction l as [|x l IH]; simpl; [reflexivity|].
  rewrite sort_insert_stable. simpl. now rewrite IH.
Qed.

(** Two lists in descending order of the key that agree on the records of
    each key, in their order, are the same list. *)
Lemma sorted_stable_unique (l1 l2 : list A) :
  StronglySorted (fun a b => key a >= key b) l1 ->
  StronglySorted (fun a b => key a >= key b) l2 ->
  (forall t, filter (fun a => key a =? t) l1
             = filter (fun a => key a =? t) l2) ->
  l1 = l2.
Proof.
  revert l2. induction l1 as [|x l1 IH]; intros l2 H1 H2 Hf.
  - destruct l2 as [|y l2]; [reflexivity|].
    specialize (Hf (key y)). simpl in Hf. rewrite Z.eqb_refl in Hf.
    discriminate.
  - destruct l2 as [|y l2].
    { specialize (Hf (key x)). simpl in Hf. rewrite Z.eqb_refl in Hf.
      discriminate. }
    inversion H1 as [|? ? Hs1 Hx]; inversion H2 as [|? ? Hs2 Hy]; subst.
    rewrite Forall_forall in Hx, Hy.
    assert (Hxy : key y >= key x).
    { pose proof (Hf (key x)) as E. simpl in E. rewrite Z.eqb_refl in E.
      assert (Hin : In x (filter (fun a => key a =? key x) (y :: l2)))
        by (simpl; rewrite <- E; now left).
      apply filter_In in Hin. destruct Hin as [Hin _].
      destruct Hin as [->|Hin]; [lia | now apply Hy]. }
    assert (Hyx : key x >= key y).
    { pose proof (Hf (key y)) as E. simpl in E. rewrite Z.eqb_refl in E.
      assert (Hin : In y (filter (fun a => key a =? key y) (x :: l1)))
        by (simpl; rewrite E; now left).
      apply filter_In in Hin. destruct Hin as [Hin _].
      destruct Hin as [->|Hin]; [lia | now apply Hx]. }
    assert (Hk : key x = key y) by lia.
    pose proof (Hf (key x)) as E. simpl in E.
    rewrite Z.eqb_refl, <- Hk, Z.eqb_refl in E. injection E as -> _.
    f_equal. apply IH; try assumption.
    intros t. specialize (Hf t). simpl in Hf.
    destruct (key y =? t); [now injection Hf | exact Hf].
Qed.

(** So [sort] gives the one array a stable sort can give. *)
Lemma stable_sort_unique l l' :
  StronglySorted (fun a b => key a >= key b) l' ->
  (forall t, filter (fun a => key a =? t) l'
             = filter (fun a => key a =? t) l) ->
  l' = sort (descending key) l.
Proof.
  intros Hs Hf. apply sorted_stable_unique; [assumption|apply sort_sorted|].
  intros t. now rewrite Hf, sort_stable.
Qed.

Lemma firstn_min n l :
  firstn (Nat.min n (List.length l)) l = firstn n l.
Proof.
  destruct (Nat.le_ge_cases n (List.length l)).
  - now rewrite Nat.min_l.
  - rewrite Nat.min_r by assumption. now rewrite !firstn_all2.
Qed.

(** [slice(offset, offset + limit)] on counts that are not negative. *)
Lemma slice_page (limit offset : nat) l :
  slice (Int (Z.of_nat offset))
        (num_add (Int (Z.of_nat offset)) (Int (Z.of_nat limit))) l
  = firstn limit (skipn offset l).
Proof.
  unfold slice, clamp_index. simpl to_integer.
  destruct (Z.ltb_spec (Z.of_nat offset) 0); [lia|].
  destruct (Z.ltb_spec (Z.of_nat offset + Z.of_nat limit) 0); [lia|].
  destruct (Nat.le_gt_cases (List.length l) offset) as [Hge|Hlt].
  - replace (Z.to_nat (Z.min (Z.of_nat offset) (Z.of_nat (List.length l))))
      with (List.length l) by lia.
    rewrite skipn_all, (skipn_all2 l Hge). now rewrite !firstn_nil.
  - replace (Z.to_nat (Z.min (Z.of_nat offset) (Z.of_nat (List.length l))))
      with offset by lia.
    rewrite <- (firstn_min limit (skipn offset l)). f_equal.
    rewrite length_skipn. lia.
Qed.

End SortFacts.

(** ** The post listing *)

(** C3, as stated, does not hold: two posts of the same timestamp are
    listed in the order of their creation, the older identity first, and
    not by identity descending. *)
Lemma getBlogs_ties_not_by_id_desc :
  ~ (forall (cs : list call) (limit offset : nat),
        getBlogs (Some (Int (Z.of_nat limit)))
                 (Some (Int (Z.of_nat offset))) (after cs)
        = firstn limit
            (skipn offset
               (sort spec_publishedAt_then_id_desc
                     (JsMap.values (blogs (after cs)))))).
Proof.
  intros H.
  specialize (H [CreateBlog (sample_blog 1000);
                 CreateBlog (sample_blog 1000)] 10%nat 0%nat).
  vm_compute in H. discriminate H.
Qed.

(** C3, amended. On the store reached by any sequence of calls, with a
    limit and an offset that are not negative, the listing is the slice
    [offset, offset + limit) of the posts sorted by publication timestamp
    descending, posts of the same timestamp staying in the order of the
    store, which is the order of creation (increasing keys). A limit left
    out is 10, an offset left out is 0, and an offset at or beyond the
    number of posts gives the empty list. *)
Theorem getBlogs_page :
  forall (cs : list call) (limit offset : nat),
    let this := after cs in
    let posts := JsMap.values (blogs this) in
    let sorted := sort by_publishedAt_desc posts in
    getBlogs (Some (Int (Z.of_nat limit))) (Some (Int (Z.of_nat offset)))
             this
    = firstn limit (skipn offset sorted)
    /\ Permutation sorted posts
    /\ StronglySorted
         (fun a b => getTime (Blog.publishedAt a)
                     >= getTime (Blog.publishedAt b)) sorted
    /\ (forall t : Z,
          filter (fun a => getTime (Blog.publishedAt a) =? t) sorted
          = filter (fun a => getTime (Blog.publishedAt a) =? t) posts)
    /\ (exists keys, JsMap.keys (blogs this) = map Int keys
                     /\ StronglySorted Z.lt keys)
    /\ getBlogs None None this
       = getBlogs (Some (Int 10)) (Some (Int 0)) this
    /\ getBlogs (Some (Int (Z.of_nat limit))) None this
       = getBlogs (Some (Int (Z.of_nat limit))) (Some (Int 0)) this
    /\ getBlogs None (Some (Int (Z.of_nat offset))) this
       = getBlogs (Some (Int 10)) (Some (Int (Z.of_nat offset))) this
    /\ (forall beyond : nat,
          getBlogs (Some (Int (Z.of_nat limit)))
                   (Some (Int (Z.of_nat (List.length posts + beyond))))
                   this
          = []).
Proof.
  intros cs limit offset this posts sorted.
  pose proof (after_ok cs Blogs) as [_ (keys & Hkeys & Hsorted & _)].
  fold this in Hkeys. simpl in Hkeys.
  repeat apply conj; try reflexivity.
  - apply slice_page.
  - apply sort_perm.
  - apply (sort_sorted (fun a => getTime (Blog.publishedAt a))).
  - intros t. apply (sort_stable (fun a => getTime (Blog.publishedAt a))).
  - now exists keys.
  - intros beyond. unfold getBlogs. rewrite slice_page.
    rewrite skipn_all2; [apply firstn_nil|].
    rewrite sort_length. fold posts. lia.
Qed.

(* ================================================================== *)
(** * The store behind the routes *)

Lemma find_found {A : Type} (p : A -> bool) (l : list A) (x : A) :
  In x l -> p x = true -> exists y, find p l = Some y.
Proof.
  intros Hin Hp. destruct (find p l) as [y|] eqn:E; [now exists y|].
  pose proof (find_none p l E x Hin). congruence.
Qed.

Lemma find_absent {A : Type} (p : A -> bool) (l : list A) :
  (forall x, In x l -> p x = false) -> find p l = None.
Proof.
  induction l as [|y l IH]; simpl; intros H; [reflexivity|].
  rewrite (H y) by now left. apply IH. intros x Hx. apply H. now right.
Qed.

Lemma find_last {A : Type} (p : A -> bool) (l : list A) (x : A) :
  find p l = None -> p x = true -> find p (l ++ [x]) = Some x.
Proof.
  induction l as [|y l IH]; simpl; intros Hl Hx.
  - now rewrite Hx.
  - destruct (p y); [discriminate|]. now apply IH.
Qed.

Lemma NoDup_map_same {A B : Type} (f : A -> B) (l : list A) (x y : A) :
  NoDup (map f l) -> In x l -> In y l -> f x = f y -> x = y.
Proof.
  induction l as [|z l IH]; simpl; [tauto|].
  intros Hnd. apply NoDup_cons_iff in Hnd. destruct Hnd as [Hz Hnd].
  intros [->|Hx] [->|Hy] E; auto.
  - exfalso. apply Hz. rewrite E. now apply in_map.
  - exfalso. apply Hz. rewrite <- E. now apply in_map.
Qed.

Section ValueFacts.
Context {V : Type}.
Implicit Types (m : JsMap.t V) (k : number) (v : V).

Lemma In_remove k e m : In e (JsMap.remove k m) -> In e m.
Proof.
  induction m as [|[k' v'] m IH]; simpl; [tauto|].
  destruct (same_value_zero k' k); simpl; tauto.
Qed.

Lemma In_values v m : In v (JsMap.values m) <-> exists k, In (k, v) m.
Proof.
  unfold JsMap.values. rewrite in_map_iff. split.
  - intros ([k v'] & E & Hin). simpl in E. subst. now exists k.
  - intros (k & Hin). now exists (k, v).
Qed.

Lemma values_remove_incl k v m :
  In v (JsMap.values (JsMap.remove k m)) -> In v (JsMap.values m).
Proof.
  rewrite !In_values. intros (k' & Hin). exists k'.
  eapply In_remove, Hin.
Qed.

End ValueFacts.

Section RelationFacts.
Context {V B : Type} (f : V -> B).
Implicit Types (m : JsMap.t V) (k : number) (v : V).

Lemma NoDup_map_remove k m :
  NoDup (map f (JsMap.values m)) ->
  NoDup (map f (JsMap.values (JsMap.remove k m))).
Proof.
  induction m as [|[k' v'] m IH]; simpl; [trivial|].
  intros Hnd. apply NoDup_cons_iff in Hnd. destruct Hnd as [Hv Hnd].
  destruct (same_value_zero k' k); simpl; [assumption|].
  constructor; [|now apply IH].
  intros Hin. apply Hv. apply in_map_iff in Hin.
  destruct Hin as (v & E & Hin). rewrite <- E.
  apply in_map. eapply values_remove_incl, Hin.
Qed.

(** Once the entry of a record is removed, nothing left has its image. *)
Lemma removed_image_gone k v m :
  NoDup (JsMap.keys m) -> NoDup (map f (JsMap.values m)) ->
  In (k, v) m ->
  forall v', In v' (JsMap.values (JsMap.remove k m)) -> f v' <> f v.
Proof.
  induction m as [|[k1 v1] m IH]; simpl; [tauto|].
  intros Hk Hf. apply NoDup_cons_iff in Hk, Hf.
  destruct Hk as [Hk1 Hk], Hf as [Hf1 Hf].
  intros [[= -> ->]|Hin] v' Hv'.
  - rewrite same_value_zero_refl in Hv'. intros E. apply Hf1.
    rewrite <- E. now apply in_map.
  - assert (Hne : same_value_zero k1 k = false).
    { apply same_value_zero_neq. intros ->. apply Hk1.
      change k with (fst (k, v)). now apply in_map. }
    rewrite Hne in Hv'. simpl in Hv'. destruct Hv' as [->|Hv'].
    + intros E. apply Hf1. rewrite E. apply in_map.
      apply In_values. now exists k.
    + now apply IH.
Qed.

End RelationFacts.

Lemma like_test (like : Like) (u b : Z) :
  strict_equals (Int (Like.userId like)) (Int u)
  && strict_equals (Int (Like.blogId like)) (Int b) = true
  <-> like_pair like = (u, b).
Proof.
  unfold like_pair. simpl. rewrite andb_true_iff, !Z.eqb_eq.
  split; [intros [-> ->]; reflexivity | intros [= -> ->]; now split].
Qed.

Lemma follower_test (follower : Follower) (a b : Z) :
  strict_equals (Int (Follower.followerId follower)) (Int a)
  && strict_equals (Int (Follower.followingId follower)) (Int b) = true
  <-> follower_pair follower = (a, b).
Proof.
  unfold follower_pair. simpl. rewrite andb_true_iff, !Z.eqb_eq.
  split; [intros [-> ->]; reflexivity | intros [= -> ->]; now split].
Qed.

(** A handler leaves the store as it is or makes one mutating call. *)
Lemma handle_invokes req storage :
  fst (handle req storage) = storage
  \/ exists c, fst (handle req storage) = fst (invoke c storage).
Proof.
  destruct req as [body|id body|limit offset|body|id body|id|body|id
                  |body|id|body|id body|id]; cbn [handle].
  - unfold post_users. destruct body as [userData|]; [|now left].
    destruct (getUserByUsername _ storage); [now left|].
    right. exists (CreateUser userData). reflexivity.
  - right. exists (UpdateUser (parseInt id) body). unfold put_users, invoke.
    cbv zeta.
    now destruct (updateUser (parseInt id) body storage) as [s [r|e]].
  - now left.
  - unfold post_blogs. destruct body as [blogData|]; [|now left].
    right. exists (CreateBlog blogData). reflexivity.
  - right. exists (UpdateBlog (parseInt id) body). unfold put_blogs, invoke.
    cbv zeta.
    now destruct (updateBlog (parseInt id) body storage) as [s [r|e]].
  - right. exists (DeleteBlog (parseInt id)). unfold delete_blogs, invoke.
    cbv zeta.
    now destruct (deleteBlog (parseInt id) storage) as [s []].
  - unfold post_likes. destruct body as [likeData|]; [|now left].
    destruct (getLike _ _ storage); [now left|].
    right. exists (CreateLike likeData). reflexivity.
  - right. exists (DeleteLike (parseInt id)). unfold delete_likes, invoke.
    cbv zeta.
    now destruct (deleteLike (parseInt id) storage) as [s []].
  - unfold post_followers. destruct body as [followerData|]; [|now left].
    destruct (getFollower _ _ storage); [now left|].
    right. exists (CreateFollower followerData). reflexivity.
  - right. exists (DeleteFollower (parseInt id)).
    unfold delete_followers, invoke.
    cbv zeta. now destruct (deleteFollower (parseInt id) storage) as [s []].
  - unfold post_comments. destruct body as [commentData|]; [|now left].
    right. exists (CreateComment commentData). reflexivity.
  - right. exists (UpdateComment (parseInt id) body).
    unfold put_comments, invoke.
    cbv zeta.
    now destruct (updateComment (parseInt id) body storage) as [s [r|e]].
  - right. exists (DeleteComment (parseInt id)). unfold delete_comments, invoke.
    cbv zeta. now destruct (deleteComment (parseInt id) storage) as [s []].
Qed.

Lemma handle_ok req storage :
  store_ok storage -> store_ok (fst (handle req storage)).
Proof.
  intros H. destruct (handle_invokes req storage) as [->|[c ->]];
    [assumption | now apply invoke_ok].
Qed.

Lemma relations_same this this1 :
  likes this1 = likes this -> followers this1 = followers this ->
  relations_ok this -> relations_ok this1.
Proof. unfold relations_ok. now intros -> ->. Qed.

Lemma key_is_id_snoc {V : Type} (id : V -> Z) (m : JsMap.t V) v :
  key_is_id id m -> key_is_id id (m ++ [(Int (id v), v)]).
Proof.
  intros H k v' Hin. apply in_app_iff in Hin.
  destruct Hin as [Hin|[[= <- <-]|[]]]; [now apply H | reflexivity].
Qed.

Lemma key_is_id_remove {V : Type} (id : V -> Z) (m : JsMap.t V) k :
  key_is_id id m -> key_is_id id (JsMap.remove k m).
Proof. intros H k' v Hin. apply H. eapply In_remove, Hin. Qed.

Lemma NoDup_map_snoc {A B : Type} (f : A -> B) (l : list A) (x : A) :
  NoDup (map f l) -> (forall y, In y l -> f y <> f x) ->
  NoDup (map f (l ++ [x])).
Proof.
  intros Hnd Hx. rewrite map_app. simpl.
  apply NoDup_app; [assumption | repeat constructor; intros [] |].
  intros b Hb [<-|[]]. apply in_map_iff in Hb.
  destruct Hb as (y & E & Hy). now apply (Hx y).
Qed.

Lemma values_app {V : Type} (m m' : JsMap.t V) :
  JsMap.values (m ++ m') = JsMap.values m ++ JsMap.values m'.
Proof. apply map_app. Qed.

Lemma createLike_relations likeData this :
  store_ok this -> relations_ok this ->
  getLike (Int (Like.i_userId likeData)) (Int (Like.i_blogId likeData))
          this = None ->
  relations_ok (fst (createLike likeData this)).
Proof.
  intros Hok (Hk & Hp & Hfk & Hfp) Hget. unfold relations_ok, createLike.
  simpl.
  destruct (keys_below_set_fresh _ (Like.with_id likeData (likeId this))
              (likes this) (Hok Likes)) as [E _].
  simpl in E. rewrite E. repeat split; try assumption.
  - exact (key_is_id_snoc Like.id _
             (Like.with_id likeData (likeId this)) Hk).
  - rewrite values_app. apply NoDup_map_snoc; [assumption|].
    intros y Hy Eq. pose proof (find_none _ _ Hget y Hy) as Hf.
    simpl in Hf. apply like_test in Eq. simpl in Eq. congruence.
Qed.

Lemma createFollower_relations followerData this :
  store_ok this -> relations_ok this ->
  getFollower (Int (Follower.i_followerId followerData))
              (Int (Follower.i_followingId followerData)) this = None ->
  relations_ok (fst (createFollower followerData this)).
Proof.
  intros Hok (Hk & Hp & Hfk & Hfp) Hget.
  unfold relations_ok, createFollower. simpl.
  destruct (keys_below_set_fresh _
              (Follower.with_id followerData (followerId this))
              (followers this) (Hok Followers)) as [E _].
  simpl in E. rewrite E. repeat split; try assumption.
  - exact (key_is_id_snoc Follower.id _
             (Follower.with_id followerData (followerId this)) Hfk).
  - rewrite values_app. apply NoDup_map_snoc; [assumption|].
    intros y Hy Eq. pose proof (find_none _ _ Hget y Hy) as Hf.
    simpl in Hf. apply follower_test in Eq. simpl in Eq. congruence.
Qed.

Lemma deleteLike_relations id this :
  relations_ok this -> relations_ok (fst (deleteLike id this)).
Proof.
  intros (Hk & Hp & Hfk & Hfp). unfold relations_ok, deleteLike. simpl.
  repeat split; try assumption.
  - now apply key_is_id_remove.
  - now apply NoDup_map_remove.
Qed.

Lemma deleteFollower_relations id this :
  relations_ok this -> relations_ok (fst (deleteFollower id this)).
Proof.
  intros (Hk & Hp & Hfk & Hfp). unfold relations_ok, deleteFollower. simpl.
  repeat split; try assumption.
  - now apply key_is_id_remove.
  - now apply NoDup_map_remove.
Qed.

Lemma handle_relations req storage :
  store_ok storage -> relations_ok storage ->
  relations_ok (fst (handle req storage)).
Proof.
  intros Hok Hrel.
  destruct req as [body|id body|limit offset|body|id body|id|body|id
                  |body|id|body|id body|id]; cbn [handle].
  - unfold post_users. destruct body as [userData|]; [|assumption].
    destruct (getUserByUsername _ storage); assumption.
  - unfold put_users, updateUser.
    destruct (JsMap.get (parseInt id) (users storage)); assumption.
  - assumption.
  - unfold post_blogs. destruct body as [blogData|]; assumption.
  - unfold put_blogs, updateBlog.
    destruct (JsMap.get (parseInt id) (blogs storage)); assumption.
  - unfold delete_blogs, deleteBlog, JsMap.delete. simpl.
    destruct (JsMap.has (parseInt id) (blogs storage)); assumption.
  - unfold post_likes. destruct body as [likeData|]; [|assumption].
    destruct (getLike _ _ storage) eqn:G; [assumption|].
    now apply createLike_relations.
  - pose proof (deleteLike_relations (parseInt id) storage Hrel) as H.
    unfold delete_likes.
    now destruct (deleteLike (parseInt id) storage) as [s []].
  - unfold post_followers. destruct body as [followerData|]; [|assumption].
    destruct (getFollower _ _ storage) eqn:G; [assumption|].
    now apply createFollower_relations.
  - pose proof (deleteFollower_relations (parseInt id) storage Hrel) as H.
    unfold delete_followers.
    now destruct (deleteFollower (parseInt id) storage) as [s []].
  - unfold post_comments. destruct body as [commentData|]; assumption.
  - unfold put_comments, updateComment.
    destruct (JsMap.get (parseInt id) (comments storage)); assumption.
  - unfold delete_comments, deleteComment, JsMap.delete. simpl.
    destruct (JsMap.has (parseInt id) (comments storage)); assumption.
Qed.

Lemma serve_invariant reqs storage :
  store_ok storage -> relations_ok storage ->
  store_ok (serve reqs storage) /\ relations_ok (serve reqs storage).
Proof.
  revert storage. induction reqs as [|req reqs IH]; intros storage Hok Hrel.
  - now split.
  - simpl. apply IH; [now apply handle_ok | now apply handle_relations].
Qed.

Lemma served_invariant reqs :
  store_ok (served reqs) /\ relations_ok (served reqs).
Proof.
  apply serve_invariant; [apply new_MemStorage_ok|].
  repeat split; try constructor; intros k v [].
Qed.

(** ** Likes and followers through the routes *)

Lemma like_lookup this (likeData : InsertLike) (existing : Like) :
  relations_ok this ->
  In existing (JsMap.values (likes this)) ->
  like_pair existing = (Like.i_userId likeData, Like.i_blogId likeData) ->
  getLike (Int (Like.i_userId likeData)) (Int (Like.i_blogId likeData)) this
  = Some existing.
Proof.
  intros (_ & Hp & _) Hin Hpair. unfold getLike.
  match goal with
  | |- find ?p _ = _ => destruct (find_found p _ existing Hin) as [y Hy]
  end; [now apply like_test|].
  rewrite Hy. f_equal. apply find_some in Hy. destruct Hy as [Hy Ht].
  apply like_test in Ht.
  apply (NoDup_map_same like_pair _ _ _ Hp Hy Hin). congruence.
Qed.

Lemma follower_lookup this (followerData : InsertFollower)
  (existing : Follower) :
  relations_ok this ->
  In existing (JsMap.values (followers this)) ->
  follower_pair existing
  = (Follower.i_followerId followerData,
     Follower.i_followingId followerData) ->
  getFollower (Int (Follower.i_followerId followerData))
              (Int (Follower.i_followingId followerData)) this
  = Some existing.
Proof.
  intros (_ & _ & _ & Hp) Hin Hpair. unfold getFollower.
  match goal with
  | |- find ?p _ = _ => destruct (find_found p _ existing Hin) as [y Hy]
  end; [now apply follower_test|].
  rewrite Hy. f_equal. apply find_some in Hy. destruct Hy as [Hy Ht].
  apply follower_test in Ht.
  apply (NoDup_map_same follower_pair _ _ _ Hp Hy Hin). congruence.
Qed.

(** Deleting the one like of a pair by its [id] leaves none for the pair;
    creating it again is accepted and the lookup finds the new like. *)
Lemma like_again this (likeData : InsertLike) (existing : Like) :
  store_ok this -> relations_ok this ->
  In existing (JsMap.values (likes this)) ->
  like_pair existing = (Like.i_userId likeData, Like.i_blogId likeData) ->
  let lookup :=
    getLike (Int (Like.i_userId likeData)) (Int (Like.i_blogId likeData)) in
  let this1 := set_likes (JsMap.remove (Int (Like.id existing)) (likes this))
                         this in
  let newLike := Like.with_id likeData (likeId this) in
  delete_likes (decimal (Like.id existing)) this
  = (this1, respond 200 Success)
  /\ lookup this1 = None
  /\ snd (post_likes (Some likeData) this1) = respond 201 (OneLike newLike)
  /\ lookup (fst (post_likes (Some likeData) this1)) = Some newLike.
Proof.
  intros Hok Hrel Hin Hpair lookup this1 newLike.
  pose proof Hrel as (Hk & Hp & _).
  apply In_values in Hin. destruct Hin as (k & Hin).
  pose proof (Hk k existing Hin) as ->.
  assert (Hhas : JsMap.has (Int (Like.id existing)) (likes this) = true).
  { apply has_In_keys. change (Int (Like.id existing))
      with (fst (Int (Like.id existing), existing)). now apply in_map. }
  assert (Hnone : lookup this1 = None).
  { apply find_absent. intros y Hy. simpl in Hy.
    pose proof (removed_image_gone like_pair _ _ _
                  (keys_below_NoDup _ _ (Hok Likes)) Hp Hin y Hy) as Hne.
    destruct (_ && _) eqn:Ht; [|reflexivity].
    apply like_test in Ht. congruence. }
  assert (Hok1 : store_ok this1)
    by exact (invoke_ok (DeleteLike (Int (Like.id existing))) this Hok).
  split; [|split; [exact Hnone|]].
  - unfold delete_likes, deleteLike, JsMap.delete.
    rewrite parseInt_decimal, Hhas. reflexivity.
  - unfold post_likes. fold lookup. rewrite Hnone.
    unfold createLike. simpl. split; [reflexivity|].
    destruct (keys_below_set_fresh _ newLike _ (Hok1 Likes)) as [E _].
    simpl in E. unfold lookup, getLike, newLike in *. simpl.
    rewrite E, values_app.
    apply find_last; [exact Hnone|]. apply like_test. reflexivity.
Qed.

Lemma follower_again this (followerData : InsertFollower)
  (existing : Follower) :
  store_ok this -> relations_ok this ->
  In existing (JsMap.values (followers this)) ->
  follower_pair existing
  = (Follower.i_followerId followerData,
     Follower.i_followingId followerData) ->
  let lookup :=
    getFollower (Int (Follower.i_followerId followerData))
                (Int (Follower.i_followingId followerData)) in
  let this1 :=
    set_followers
      (JsMap.remove (Int (Follower.id existing)) (followers this)) this in
  let newFollower := Follower.with_id followerData (followerId this) in
  delete_followers (decimal (Follower.id existing)) this
  = (this1, respond 200 Success)
  /\ lookup this1 = None
  /\ snd (post_followers (Some followerData) this1)
     = respond 201 (OneFollower newFollower)
  /\ lookup (fst (post_followers (Some followerData) this1))
     = Some newFollower.
Proof.
  intros Hok Hrel Hin Hpair lookup this1 newFollower.
  pose proof Hrel as (_ & _ & Hk & Hp).
  apply In_values in Hin. destruct Hin as (k & Hin).
  pose proof (Hk k existing Hin) as ->.
  assert (Hhas : JsMap.has (Int (Follower.id existing)) (followers this)
                 = true).
  { apply has_In_keys. change (Int (Follower.id existing))
      with (fst (Int (Follower.id existing), existing)). now apply in_map. }
  assert (Hnone : lookup this1 = None).
  { apply find_absent. intros y Hy. simpl in Hy.
    pose proof (removed_image_gone follower_pair _ _ _
                  (keys_below_NoDup _ _ (Hok Followers)) Hp Hin y Hy)
      as Hne.
    destruct (_ && _) eqn:Ht; [|reflexivity].
    apply follower_test in Ht. congruence. }
  assert (Hok1 : store_ok this1)
    by exact (invoke_ok (DeleteFollower (Int (Follower.id existing)))
                this Hok).
  split; [|split; [exact Hnone|]].
  - unfold delete_followers, deleteFollower, JsMap.delete.
    rewrite parseInt_decimal, Hhas. reflexivity.
  - unfold post_followers. fold lookup. rewrite Hnone.
    unfold createFollower. simpl. split; [reflexivity|].
    destruct (keys_below_set_fresh _ newFollower _ (Hok1 Followers))
      as [E _].
    simpl in E. unfold lookup, getFollower, newFollower in *. simpl.
    rewrite E, values_app.
    apply find_last; [exact Hnone|]. apply follower_test. reflexivity.
Qed.

(** C2. On the store reached by any sequence of requests, when a like
    exists for the pair (user, post) of a POST /api/likes, the lookup made
    before the insert finds it and the request is answered 409 with the
    store unchanged; likewise for a follower relation and
    POST /api/followers. Once the existing record is deleted through its
    DELETE route, the same POST is answered 201 and the new record is
    stored. *)
Theorem relation_conflict_then_recreate :
  forall (reqs : list Request),
    let storage := served reqs in
    (forall (likeData : InsertLike) (existing : Like),
        In existing (JsMap.values (likes storage)) ->
        Like.userId existing = Like.i_userId likeData ->
        Like.blogId existing = Like.i_blogId likeData ->
        let lookup :=
          getLike (Int (Like.i_userId likeData))
                  (Int (Like.i_blogId likeData)) in
        lookup storage = Some existing
        /\ post_likes (Some likeData) storage
           = (storage, respond 409 (Message "Like already exists"))
        /\ let (storage1, deleted) :=
             delete_likes (decimal (Like.id existing)) storage in
           deleted = respond 200 Success
           /\ lookup storage1 = None
           /\ let (storage2, created) :=
                post_likes (Some likeData) storage1 in
              let newLike := Like.with_id likeData (likeId storage) in
              created = respond 201 (OneLike newLike)
              /\ lookup storage2 = Some newLike)
    /\ (forall (followerData : InsertFollower) (existing : Follower),
          In existing (JsMap.values (followers storage)) ->
          Follower.followerId existing
          = Follower.i_followerId followerData ->
          Follower.followingId existing
          = Follower.i_followingId followerData ->
          let lookup :=
            getFollower (Int (Follower.i_followerId followerData))
                        (Int (Follower.i_followingId followerData)) in
          lookup storage = Some existing
          /\ post_followers (Some followerData) storage
             = (storage,
                respond 409 (Message "Already following this user"))
          /\ let (storage1, deleted) :=
               delete_followers (decimal (Follower.id existing)) storage in
             deleted = respond 200 Success
             /\ lookup storage1 = None
             /\ let (storage2, created) :=
                  post_followers (Some followerData) storage1 in
                let newFollower :=
                  Follower.with_id followerData (followerId storage) in
                created = respond 201 (OneFollower newFollower)
                /\ lookup storage2 = Some newFollower).
Proof.
  intros reqs storage.
  destruct (served_invariant reqs) as [Hok Hrel]. fold storage in Hok, Hrel.
  clearbody storage. split.
  - intros likeData existing Hin Hu Hb lookup.
    assert (Hpair : like_pair existing
                    = (Like.i_userId likeData, Like.i_blogId likeData))
      by (unfold like_pair; congruence).
    pose proof (like_lookup _ _ _ Hrel Hin Hpair) as Hfound.
    destruct (like_again _ _ _ Hok Hrel Hin Hpair) as (Hd & Hn & Hc & Hl).
    split; [exact Hfound|]. split.
    + unfold post_likes. now rewrite Hfound.
    + rewrite Hd. split; [reflexivity|]. split; [exact Hn|].
      destruct (post_likes (Some likeData) _) as [storage2 created].
      now split.
  - intros followerData existing Hin Hu Hb lookup.
    assert (Hpair : follower_pair existing
                    = (Follower.i_followerId followerData,
                       Follower.i_followingId followerData))
      by (unfold follower_pair; congruence).
    pose proof (follower_lookup _ _ _ Hrel Hin Hpair) as Hfound.
    destruct (follower_again _ _ _ Hok Hrel Hin Hpair)
      as (Hd & Hn & Hc & Hl).
    split; [exact Hfound|]. split.
    + unfold post_followers. now rewrite Hfound.
    + rewrite Hd. split; [reflexivity|]. split; [exact Hn|].
      destruct (post_followers (Some followerData) _)
        as [storage2 created].
      now split.
Qed.

Lemma relation_conflict_then_recreate_witness :
  let storage := served sample_requests in
  let like1 := Like.with_id sample_like 1 in
  let follower1 := Follower.with_id sample_follower 1 in
  (In like1 (JsMap.values (likes storage))
   /\ Like.userId like1 = Like.i_userId sample_like
   /\ Like.blogId like1 = Like.i_blogId sample_like
   /\ let lookup := getLike (Int 1) (Int 1) in
      lookup storage = Some like1
      /\ post_likes (Some sample_like) storage
         = (storage, respond 409 (Message "Like already exists"))
      /\ let (storage1, deleted) := delete_likes "1" storage in
         deleted = respond 200 Success
         /\ lookup storage1 = None
         /\ let (storage2, created) :=
              post_likes (Some sample_like) storage1 in
            let newLike := Like.with_id sample_like 2 in
            created = respond 201 (OneLike newLike)
            /\ lookup storage2 = Some newLike)
  /\ (In follower1 (JsMap.values (followers storage))
      /\ Follower.followerId follower1
         = Follower.i_followerId sample_follower
      /\ Follower.followingId follower1
         = Follower.i_followingId sample_follower
      /\ let lookup := getFollower (Int 1) (Int 2) in
         lookup storage = Some follower1
         /\ post_followers (Some sample_follower) storage
            = (storage,
               respond 409 (Message "Already following this user"))
         /\ let (storage1, deleted) := delete_followers "1" storage in
            deleted = respond 200 Success
            /\ lookup storage1 = None
            /\ let (storage2, created) :=
                 post_followers (Some sample_follower) storage1 in
               let newFollower := Follower.with_id sample_follower 2 in
               created = respond 201 (OneFollower newFollower)
               /\ lookup storage2 = Some newFollower).
Proof.
  intros storage like1 follower1.
  destruct (relation_conflict_then_recreate sample_requests) as [HL HF].
  split.
  - assert (Hin : In like1 (JsMap.values (likes storage)))
      by (left; reflexivity).
    split; [exact Hin|]. split; [reflexivity|]. split; [reflexivity|].
    exact (HL sample_like like1 Hin eq_refl eq_refl).
  - assert (Hin : In follower1 (JsMap.values (followers storage)))
      by (left; reflexivity).
    split; [exact Hin|]. split; [reflexivity|]. split; [reflexivity|].
    exact (HF sample_follower follower1 Hin eq_refl eq_refl).
Defined.

(** ** Users through the routes *)

(** The lookup POST /api/users makes: a user of the same username is
    found, the answer is 409 and the store is left as it is. *)
Lemma post_users_conflict storage (userData : InsertUser) (existing : User) :
  In existing (JsMap.values (users storage)) ->
  User.username existing = User.i_username userData ->
  post_users (Some userData) storage
  = (storage, respond 409 (Message "Username already exists")).
Proof.
  intros Hin Hname. unfold post_users, getUserByUsername.
  match goal with
  | |- context [find ?p ?l] =>
      destruct (find_found p l existing Hin) as [y ->]
  end; [|reflexivity].
  rewrite Hname. apply String.eqb_refl.
Qed.

(** C1, at a request that repeats the [uid] and the [email] of a stored
    user under another username: no lookup is made on these two
    properties, the request is answered 201 and the store then holds two
    users with the same [uid] and the same [email]. *)
Theorem post_users_checks_username_only :
  let storage := served [POST_users (Some sample_user)] in
  let (storage1, response) :=
    post_users (Some sample_user_twin) storage in
  JsMap.values (users storage) = [User.with_id sample_user 1]
  /\ User.i_uid sample_user_twin = User.i_uid sample_user
  /\ User.i_email sample_user_twin = User.i_email sample_user
  /\ response = respond 201 (OneUser (User.with_id sample_user_twin 2))
  /\ JsMap.values (users storage1)
     = [User.with_id sample_user 1; User.with_id sample_user_twin 2]
  /\ map User.uid (JsMap.values (users storage1)) = ["uid-1"; "uid-1"]
  /\ map User.email (JsMap.values (users storage1))
     = ["alice@example.org"; "alice@example.org"].
Proof. vm_compute. repeat split. Qed.

(** C10. On the store reached by any sequence of calls, [createUser] with
    the username of a stored user, [createLike] with the pair of a stored
    like and [createFollower] with the pair of a stored follower relation
    make no check: each answers with a new record under the identity of
    the counter, which was free, and adds it after the records already
    stored, the existing one included. The same input sent to the route
    is answered 409 and leaves the store as it is. *)
Theorem create_makes_no_check :
  forall (cs : list call),
    let this := after cs in
    (forall (user : InsertUser) (existing : User),
        In existing (JsMap.values (users this)) ->
        User.username existing = User.i_username user ->
        let (this1, newUser) := createUser user this in
        newUser = User.with_id user (userId this)
        /\ User.username newUser = User.username existing
        /\ getUser (Int (User.id newUser)) this = None
        /\ JsMap.values (users this1)
           = JsMap.values (users this) ++ [newUser]
        /\ post_users (Some user) this
           = (this, respond 409 (Message "Username already exists")))
    /\ (forall (like : InsertLike) (existing : Like),
          In existing (JsMap.values (likes this)) ->
          like_pair existing = (Like.i_userId like, Like.i_blogId like) ->
          let (this1, newLike) := createLike like this in
          newLike = Like.with_id like (likeId this)
          /\ like_pair newLike = like_pair existing
          /\ JsMap.get (Int (Like.id newLike)) (likes this) = None
          /\ JsMap.values (likes this1)
             = JsMap.values (likes this) ++ [newLike]
          /\ post_likes (Some like) this
             = (this, respond 409 (Message "Like already exists")))
    /\ (forall (follower : InsertFollower) (existing : Follower),
          In existing (JsMap.values (followers this)) ->
          follower_pair existing
          = (Follower.i_followerId follower,
             Follower.i_followingId follower) ->
          let (this1, newFollower) := createFollower follower this in
          newFollower = Follower.with_id follower (followerId this)
          /\ follower_pair newFollower = follower_pair existing
          /\ JsMap.get (Int (Follower.id newFollower)) (followers this)
             = None
          /\ JsMap.values (followers this1)
             = JsMap.values (followers this) ++ [newFollower]
          /\ post_followers (Some follower) this
             = (this,
                respond 409 (Message "Already following this user"))).
Proof.
  intros cs this. pose proof (after_ok cs) as Hok. fold this in Hok.
  clearbody this. split; [|split]; intros x existing Hin Heq.
  - destruct (counter_is_fresh (users this) _
                (User.with_id x (userId this)) (Hok Users)) as [Hg Hs].
    pose proof (post_users_conflict this x existing Hin Heq) as Hpost.
    simpl in Hg, Hs.
    assert (E : createUser x this
                = (fst (createUser x this), snd (createUser x this)))
      by reflexivity.
    rewrite E. cbv beta iota. clear E.
    repeat split; try exact Hpost; try exact Hg;
      [first [simpl; congruence | rewrite Heq; reflexivity]
      |simpl; rewrite Hs, values_app; reflexivity].
  - destruct (counter_is_fresh (likes this) _
                (Like.with_id x (likeId this)) (Hok Likes)) as [Hg Hs].
    assert (Hpost : post_likes (Some x) this
                    = (this, respond 409 (Message "Like already exists"))).
    { unfold post_likes, getLike.
      match goal with
      | |- context [find ?p ?l] =>
          destruct (find_found p l existing Hin) as [y ->]
      end; [|reflexivity].
      now apply like_test. }
    simpl in Hg, Hs.
    assert (E : createLike x this
                = (fst (createLike x this), snd (createLike x this)))
      by reflexivity.
    rewrite E. cbv beta iota. clear E.
    repeat split; try exact Hpost; try exact Hg;
      [first [simpl; congruence | rewrite Heq; reflexivity]
      |simpl; rewrite Hs, values_app; reflexivity].
  - destruct (counter_is_fresh (followers this) _
                (Follower.with_id x (followerId this)) (Hok Followers))
      as [Hg Hs].
    assert (Hpost : post_followers (Some x) this
                    = (this,
                       respond 409 (Message "Already following this user"))).
    { unfold post_followers, getFollower.
      match goal with
      | |- context [find ?p ?l] =>
          destruct (find_found p l existing Hin) as [y ->]
      end; [|reflexivity].
      now apply follower_test. }
    simpl in Hg, Hs.
    assert (E : createFollower x this
                = (fst (createFollower x this), snd (createFollower x this)))
      by reflexivity.
    rewrite E. cbv beta iota. clear E.
    repeat split; try exact Hpost; try exact Hg;
      [first [simpl; congruence | rewrite Heq; reflexivity]
      |simpl; rewrite Hs, values_app; reflexivity].
Qed.

Lemma create_makes_no_check_witness :
  let this := after sample_calls in
  let user1 := User.with_id sample_user 1 in
  let like1 := Like.with_id sample_like 1 in
  let follower1 := Follower.with_id sample_follower 1 in
  (In user1 (JsMap.values (users this))
   /\ User.username user1 = User.i_username sample_user
   /\ let (this1, newUser) := createUser sample_user this in
      newUser = User.with_id sample_user (userId this)
      /\ User.username newUser = User.username user1
      /\ getUser (Int (User.id newUser)) this = None
      /\ JsMap.values (users this1) = JsMap.values (users this) ++ [newUser]
      /\ post_users (Some sample_user) this
         = (this, respond 409 (Message "Username already exists")))
  /\ (In like1 (JsMap.values (likes this))
      /\ like_pair like1
         = (Like.i_userId sample_like, Like.i_blogId sample_like)
      /\ let (this1, newLike) := createLike sample_like this in
         newLike = Like.with_id sample_like (likeId this)
         /\ like_pair newLike = like_pair like1
         /\ JsMap.get (Int (Like.id newLike)) (likes this) = None
         /\ JsMap.values (likes this1)
            = JsMap.values (likes this) ++ [newLike]
         /\ post_likes (Some sample_like) this
            = (this, respond 409 (Message "Like already exists")))
  /\ (In follower1 (JsMap.values (followers this))
      /\ follower_pair follower1
         = (Follower.i_followerId sample_follower,
            Follower.i_followingId sample_follower)
      /\ let (this1, newFollower) :=
           createFollower sample_follower this in
         newFollower = Follower.with_id sample_follower (followerId this)
         /\ follower_pair newFollower = follower_pair follower1
         /\ JsMap.get (Int (Follower.id newFollower)) (followers this)
            = None
         /\ JsMap.values (followers this1)
            = JsMap.values (followers this) ++ [newFollower]
         /\ post_followers (Some sample_follower) this
            = (this,
               respond 409 (Message "Already following this user"))).
Proof.
  intros this user1 like1 follower1.
  destruct (create_makes_no_check sample_calls) as (HU & HL & HF).
  split; [|split].
  - assert (Hin : In user1 (JsMap.values (users this)))
      by (left; reflexivity).
    split; [exact Hin|]. split; [reflexivity|].
    exact (HU sample_user user1 Hin eq_refl).
  - assert (Hin : In like1 (JsMap.values (likes this)))
      by (left; reflexivity).
    split; [exact Hin|]. split; [reflexivity|].
    exact (HL sample_like like1 Hin eq_refl).
  - assert (Hin : In follower1 (JsMap.values (followers this)))
      by (left; reflexivity).
    split; [exact Hin|]. split; [reflexivity|].
    exact (HF sample_follower follower1 Hin eq_refl).
Defined.

(** ** The query of the post listing *)

Lemma slice_map {A B : Type} (f : A -> B) (start stop : number) l :
  slice start stop (map f l) = map f (slice start stop l).
Proof.
  unfold slice. rewrite length_map, skipn_map. apply firstn_map.
Qed.

Lemma values_Stored_blogs storage :
  JsMap.values (Stored.blogs storage)
  = map Stored.typed (JsMap.values (blogs storage)).
Proof.
  unfold Stored.blogs, JsMap.values. rewrite !map_map. reflexivity.
Qed.

(** On posts that hold a [Date] the comparator does not throw, and the
    sort is the sort of the declared store. *)
Lemma sort_insert_try_typed x l :
  sort_insert_try Stored.by_publishedAt_desc (Stored.typed x)
                  (map Stored.typed l)
  = Return (map Stored.typed (sort_insert by_publishedAt_desc x l)).
Proof.
  induction l as [|y l IH]; [reflexivity|].
  cbn [map sort_insert_try sort_insert Stored.by_publishedAt_desc
       Stored.publishedAt_getTime].
  fold (by_publishedAt_desc x y).
  destruct (by_publishedAt_desc x y <=? 0); [reflexivity|].
  now rewrite IH.
Qed.

Lemma sort_try_typed l :
  sort_try Stored.by_publishedAt_desc (map Stored.typed l)
  = Return (map Stored.typed (sort by_publishedAt_desc l)).
Proof.
  induction l as [|x l IH]; [reflexivity|].
  cbn [map sort_try sort]. rewrite IH. apply sort_insert_try_typed.
Qed.

Lemma getBlogs_typed limit offset storage :
  Stored.getBlogs limit offset (Stored.blogs storage)
  = Return (map Stored.typed (getBlogs limit offset storage)).
Proof.
  unfold Stored.getBlogs, getBlogs.
  rewrite values_Stored_blogs, sort_try_typed. now rewrite slice_map.
Qed.

(** A list of posts that all hold a [Date] is the image of a list of
    [Blog]s. *)
Lemma all_typed l :
  forallb Stored.is_typed l = true -> exists l', l = map Stored.typed l'.
Proof.
  induction l as [|[x|x j] l IH]; simpl; intros H.
  - now exists [].
  - destruct (IH H) as [l' ->]. now exists (x :: l').
  - discriminate H.
Qed.

(** The sort throws as soon as there are two posts, one of which holds no
    [Date]; it returns otherwise. *)
Lemma sort_try_throws l :
  (2 <= List.length l)%nat -> forallb Stored.is_typed l = false ->
  sort_try Stored.by_publishedAt_desc l = Throw "TypeError".
Proof.
  induction l as [|x l IH]; intros Hlen Hsome; [simpl in Hlen; lia|].
  cbn [sort_try].
  destruct (forallb Stored.is_typed l) eqn:Hl.
  - destruct (all_typed l Hl) as [l' ->]. rewrite sort_try_typed.
    simpl in Hsome. rewrite Hl, andb_true_r in Hsome.
    destruct x as [x|x j]; [discriminate Hsome|].
    destruct (sort by_publishedAt_desc l') as [|y r] eqn:E.
    + apply (f_equal (@List.length _)) in E. rewrite sort_length in E.
      simpl in Hlen, E. rewrite length_map in Hlen. lia.
    + reflexivity.
  - destruct l as [|y l]; [discriminate Hl|].
    destruct l as [|z l].
    + simpl in Hl. rewrite andb_true_r in Hl.
      destruct y as [y|y j]; [discriminate Hl|]. reflexivity.
    + rewrite IH; [reflexivity | simpl; lia | reflexivity].
Qed.

Lemma sort_try_returns l :
  (List.length l <= 1)%nat \/ forallb Stored.is_typed l = true ->
  exists sorted,
    sort_try Stored.by_publishedAt_desc l = Return sorted.
Proof.
  intros [Hlen|Hall].
  - destruct l as [|x [|y l]]; [now exists [] | now exists [x] |].
    simpl in Hlen. lia.
  - destruct (all_typed l Hall) as [l' ->]. rewrite sort_try_typed.
    now eexists.
Qed.

(** What the handler answers with: 500 when [getBlogs] throws, that is
    when the store holds two posts or more and one of them holds no
    [Date]; 200 otherwise. *)
Lemma get_blogs_status limit offset posts :
  status (get_blogs limit offset posts)
  = if (2 <=? Z.of_nat (List.length posts))
       && negb (forallb Stored.is_typed (JsMap.values posts))
    then 500 else 200.
Proof.
  unfold get_blogs, Stored.getBlogs. cbv zeta.
  assert (Hlen : List.length (JsMap.values posts) = List.length posts)
    by apply length_map.
  destruct (Z.leb_spec 2 (Z.of_nat (List.length posts))) as [H2|H2];
    destruct (forallb Stored.is_typed (JsMap.values posts)) eqn:Hall;
    cbn [andb negb].
  - destruct (sort_try_returns (JsMap.values posts)) as [r ->];
      [now right | reflexivity].
  - rewrite sort_try_throws; [reflexivity | lia | exact Hall].
  - destruct (sort_try_returns (JsMap.values posts)) as [r ->];
      [now right | reflexivity].
  - destruct (sort_try_returns (JsMap.values posts)) as [r ->];
      [left; lia | reflexivity].
Qed.

(** C8, as stated, does not hold: a request with the limit -1 is answered
    200, with what [getBlogs] gives for this limit. *)
Lemma get_blogs_rejects_nothing :
  ~ (forall (limit offset : option string) (storage : MemStorage),
        negative_or_non_numeric limit = true
        \/ negative_or_non_numeric offset = true ->
        status (get_blogs limit offset (Stored.blogs storage)) <> 200).
Proof.
  intros H.
  apply (H (Some "-1"%string) None new_MemStorage);
    [left|]; reflexivity.
Qed.

(** C8, amended. The handler of GET /api/blogs checks nothing of the
    query: a parameter that is absent or empty takes its default (10 and
    0), any other one is passed through [parseInt], and [getBlogs] is
    called with the two numbers. No request is answered 400: the answer
    is 200 with what [getBlogs] returns, or 500 when [getBlogs] throws,
    which depends on the store alone - two posts or more, one of which
    holds no [Date] at [publishedAt] - and not on the query. On a store
    that holds what it declares the answer is 200 with the listing of
    [MemStorage.getBlogs]. So the decimal writing of an integer from
    -2^53 to 2^53, negative ones included, reaches [getBlogs] as this
    integer, and a parameter that starts with a character which is not
    white space, a sign or a digit reaches it as [NaN]. *)
Theorem get_blogs_passes_query :
  forall (limit offset : option string) (posts : JsMap.t Stored.t)
         (storage : MemStorage) (n default : Z) (c : ascii) (s : string),
    - 2 ^ 53 <= n <= 2 ^ 53 ->
    is_white_space c = false ->
    c <> "-"%char -> c <> "+"%char ->
    radix_digit 10 c = None ->
    get_blogs limit offset posts
    = match Stored.getBlogs (Some (query_number limit 10))
                            (Some (query_number offset 0)) posts with
      | Return found => respond 200 (BlogList found)
      | Throw _ => respond 500 (Message "Internal server error")
      end
    /\ status (get_blogs limit offset posts)
       = (if (2 <=? Z.of_nat (List.length posts))
             && negb (forallb Stored.is_typed (JsMap.values posts))
          then 500 else 200)
    /\ status (get_blogs limit offset posts) <> 400
    /\ handle (GET_blogs limit offset) storage
       = (storage,
          respond 200
            (BlogList
               (map Stored.typed
                    (getBlogs (Some (query_number limit 10))
                              (Some (query_number offset 0)) storage))))
    /\ query_number None default = Int default
    /\ query_number (Some ""%string) default = Int default
    /\ query_number (Some (decimal n)) default = Int n
    /\ query_number (Some (String c s)) default = NaN.
Proof.
  intros limit offset posts storage n default c s _ Hws Hm Hp Hd.
  repeat apply conj.
  - unfold get_blogs. cbv zeta.
    now destruct (Stored.getBlogs _ _ posts).
  - apply get_blogs_status.
  - rewrite get_blogs_status.
    now destruct ((2 <=? Z.of_nat (List.length posts))
                  && negb (forallb Stored.is_typed (JsMap.values posts))).
  - cbn [handle]. unfold get_blogs. cbv zeta.
    now rewrite getBlogs_typed.
  - reflexivity.
  - reflexivity.
  - unfold query_number. now rewrite truthy_decimal, parseInt_decimal.
  - unfold query_number. simpl truthy. cbv iota.
    now apply parseInt_not_a_number.
Qed.

Lemma get_blogs_passes_query_witness :
  - 2 ^ 53 <= -5 <= 2 ^ 53
  /\ is_white_space "a" = false
  /\ "a"%char <> "-"%char /\ "a"%char <> "+"%char
  /\ radix_digit 10 "a" = None
  /\ status (get_blogs (Some "-5"%string) (Some "abc"%string)
                       sample_stored) = 500
  /\ handle (GET_blogs (Some "-5"%string) (Some "abc"%string))
            (after sample_calls)
     = (after sample_calls,
        respond 200
          (BlogList
             (map Stored.typed
                  (getBlogs (Some (Int (-5))) (Some NaN)
                            (after sample_calls)))))
  /\ query_number (Some (decimal (-5))) 10 = Int (-5)
  /\ query_number (Some "abc"%string) 0 = NaN.
Proof.
  assert (Hn : - 2 ^ 53 <= -5 <= 2 ^ 53) by lia.
  assert (Hw : is_white_space "a" = false) by reflexivity.
  assert (Hm : "a"%char <> "-"%char) by discriminate.
  assert (Hp : "a"%char <> "+"%char) by discriminate.
  assert (Hd : radix_digit 10 "a" = None) by reflexivity.
  pose proof (get_blogs_passes_query
                (Some "-5"%string) (Some "abc"%string) sample_stored
                (after sample_calls) (-5) 10 "a" "bc" Hn Hw Hm Hp Hd)
    as (_ & H2 & _ & H4 & _ & _ & H7 & _).
  pose proof (get_blogs_passes_query
                (Some "-5"%string) (Some "abc"%string) sample_stored
                (after sample_calls) (-5) 0 "a" "bc" Hn Hw Hm Hp Hd)
    as (_ & _ & _ & _ & _ & _ & _ & H8).
  split; [exact Hn|].
  split; [exact Hw|]. split; [exact Hm|]. split; [exact Hp|].
  split; [exact Hd|]. split; [exact H2|]. split; [exact H4|].
  split; [exact H7 | exact H8].
Defined.

(* ================================================================== *)
(** * More of the store *)

(** ** Keys and counters *)

(** X1. After any sequence of calls on a fresh store, the keys of each
    table are integers in increasing order, all from 1 up to the counter
    of the table excluded, and the counter is one more than the number of
    [create...] calls the table has had: [values()] iterates in the order
    of creation, and the counter is never one of the keys. *)
Theorem keys_in_creation_order :
  forall (cs : list call) (t : table),
    let this := after cs in
    (exists ids, keys_of t this = map Int ids
                 /\ StronglySorted Z.lt ids
                 /\ Forall (fun z => 1 <= z < counter_of t this) ids)
    /\ counter_of t this
       = 1 + Z.of_nat
               (List.length (assigned_ids t (fst (run cs new_MemStorage))))
    /\ ~ In (Int (counter_of t this)) (keys_of t this).
Proof.
  intros cs t this. pose proof (after_ok cs t) as Hok. fold this in Hok.
  split; [exact (proj2 Hok)|]. split.
  - destruct (assigned_ids_run t cs new_MemStorage) as [_ H].
    unfold this, after. rewrite H. now destruct t.
  - now apply keys_below_fresh.
Qed.

(** ** Lookups by another property than the identity *)

Lemma find_first {A : Type} (p : A -> bool) (l : list A) :
  match find p l with
  | Some x =>
      exists before later,
        l = before ++ x :: later
        /\ p x = true
        /\ Forall (fun y => p y = false) before
  | None => Forall (fun y => p y = false) l
  end.
Proof.
  induction l as [|y l IH]; simpl; [constructor|].
  destruct (p y) eqn:E.
  - exists [], l. now repeat split.
  - destruct (find p l) as [x|].
    + destruct IH as (before & later & -> & Hx & Hb).
      exists (y :: before), later. repeat split; auto.
    + now constructor.
Qed.

Lemma find_snoc {A : Type} (p : A -> bool) (l : list A) (x : A) :
  find p (l ++ [x])
  = match find p l with
    | Some y => Some y
    | None => if p x then Some x else None
    end.
Proof.
  induction l as [|y l IH]; simpl; [reflexivity|].
  now destruct (p y).
Qed.

(** X2. [getUserByUsername], [getUserByUid], [getLike] and [getFollower]
    answer with the first record, in the order of the store, that has the
    property asked for: the record found is stored and has it, and no
    record stored before it has it; nothing is found exactly when no
    stored record has it. Strings are compared as they are, case
    included. *)
Theorem lookup_first_match :
  forall (this : MemStorage),
    (forall username : string,
        match getUserByUsername username this with
        | Some user =>
            exists before later,
              JsMap.values (users this) = before ++ user :: later
              /\ User.username user = username
              /\ Forall (fun u => User.username u <> username) before
        | None =>
            Forall (fun u => User.username u <> username)
                   (JsMap.values (users this))
        end)
    /\ (forall uid : string,
          match getUserByUid uid this with
          | Some user =>
              exists before later,
                JsMap.values (users this) = before ++ user :: later
                /\ User.uid user = uid
                /\ Forall (fun u => User.uid u <> uid) before
          | None =>
              Forall (fun u => User.uid u <> uid)
                     (JsMap.values (users this))
          end)
    /\ (forall userId blogId : Z,
          match getLike (Int userId) (Int blogId) this with
          | Some like =>
              exists before later,
                JsMap.values (likes this) = before ++ like :: later
                /\ like_pair like = (userId, blogId)
                /\ Forall (fun l => like_pair l <> (userId, blogId)) before
          | None =>
              Forall (fun l => like_pair l <> (userId, blogId))
                     (JsMap.values (likes this))
          end)
    /\ (forall followerId followingId : Z,
          match getFollower (Int followerId) (Int followingId) this with
          | Some follower =>
              exists before later,
                JsMap.values (followers this)
                = before ++ follower :: later
                /\ follower_pair follower = (followerId, followingId)
                /\ Forall (fun f =>
                             follower_pair f <> (followerId, followingId))
                          before
          | None =>
              Forall (fun f => follower_pair f <> (followerId, followingId))
                     (JsMap.values (followers this))
          end)
    /\ (forall n : number,
          getLike NaN n this = None /\ getLike n NaN this = None
          /\ getFollower NaN n this = None
          /\ getFollower n NaN this = None).
Proof.
  intros this. repeat apply conj.
  - intros username. unfold getUserByUsername.
    match goal with |- context [find ?p ?l] =>
      pose proof (find_first p l) as H; destruct (find p l) as [u|] end.
    + destruct H as (before & later & E & Hu & Hb).
      exists before, later. apply String.eqb_eq in Hu.
      repeat split; auto. eapply Forall_impl; [|exact Hb].
      simpl. intros a Ha. now apply String.eqb_neq.
    + eapply Forall_impl; [|exact H].
      simpl. intros a Ha. now apply String.eqb_neq.
  - intros uid. unfold getUserByUid.
    match goal with |- context [find ?p ?l] =>
      pose proof (find_first p l) as H; destruct (find p l) as [u|] end.
    + destruct H as (before & later & E & Hu & Hb).
      exists before, later. apply String.eqb_eq in Hu.
      repeat split; auto. eapply Forall_impl; [|exact Hb].
      simpl. intros a Ha. now apply String.eqb_neq.
    + eapply Forall_impl; [|exact H].
      simpl. intros a Ha. now apply String.eqb_neq.
  - intros u b. unfold getLike.
    match goal with |- context [find ?p ?l] =>
      pose proof (find_first p l) as H; destruct (find p l) as [x|] end.
    + destruct H as (before & later & E & Hu & Hb).
      exists before, later. apply like_test in Hu.
      repeat split; auto. eapply Forall_impl; [|exact Hb].
      simpl. intros a Ha Hp. apply like_test in Hp. simpl in Hp.
      congruence.
    + eapply Forall_impl; [|exact H].
      simpl. intros a Ha Hp. apply like_test in Hp. simpl in Hp.
      congruence.
  - intros a b. unfold getFollower.
    match goal with |- context [find ?p ?l] =>
      pose proof (find_first p l) as H; destruct (find p l) as [x|] end.
    + destruct H as (before & later & E & Hu & Hb).
      exists before, later. apply follower_test in Hu.
      repeat split; auto. eapply Forall_impl; [|exact Hb].
      simpl. intros f Hf Hp. apply follower_test in Hp. simpl in Hp.
      congruence.
    + eapply Forall_impl; [|exact H].
      simpl. intros f Hf Hp. apply follower_test in Hp. simpl in Hp.
      congruence.
  - intros n. unfold getLike, getFollower.
    repeat split; apply find_absent; intros x _; simpl;
      try reflexivity; destruct n; simpl; try reflexivity;
      apply andb_false_r.
Qed.

(** X3. After [createUser] on a store reached by calls, a lookup by
    username or by uid finds what it found before and, when it found
    nothing, the new user if the new user has the username or uid asked
    for: so a user created with the username or the uid of a stored user
    is never the one found. *)
Theorem create_then_lookup :
  forall (cs : list call) (user : InsertUser) (name : string),
    let this := after cs in
    let (this1, newUser) := createUser user this in
    getUserByUsername name this1
    = match getUserByUsername name this with
      | Some found => Some found
      | None =>
          if String.eqb (User.i_username user) name then Some newUser
          else None
      end
    /\ getUserByUid name this1
       = match getUserByUid name this with
         | Some found => Some found
         | None =>
             if String.eqb (User.i_uid user) name then Some newUser
             else None
         end.
Proof.
  intros cs user name this. pose proof (after_ok cs Users) as Hok.
  fold this in Hok. clearbody this.
  destruct (counter_is_fresh (users this) _
              (User.with_id user (userId this)) Hok) as [_ Hs].
  simpl in Hs. unfold createUser, getUserByUsername, getUserByUid. simpl.
  rewrite Hs, values_app. simpl. now rewrite !find_snoc.
Qed.

(** ** Listings by a property *)

Section FilterFacts.
Context {A : Type}.
Implicit Types (p q : A -> bool) (l : list A).

Lemma filter_swap p q l :
  filter p (filter q l) = filter q (filter p l).
Proof.
  induction l as [|x l IH]; simpl; [reflexivity|].
  destruct (q x) eqn:Eq, (p x) eqn:Ep; simpl;
    rewrite ?Eq, ?Ep, IH; reflexivity.
Qed.

Lemma filter_sorted (R : A -> A -> Prop) p l :
  StronglySorted R l -> StronglySorted R (filter p l).
Proof.
  induction 1 as [|x l Hs IH Hx]; simpl; [constructor|].
  destruct (p x); [|assumption]. constructor; [assumption|].
  rewrite Forall_forall in *. intros y Hy. apply Hx.
  now apply filter_In in Hy.
Qed.

(** Filtering before or after the stable sort gives the same list. *)
Lemma sort_filter (key : A -> Z) p l :
  sort (descending key) (filter p l)
  = filter p (sort (descending key) l).
Proof.
  symmetry. apply stable_sort_unique.
  - apply filter_sorted, sort_sorted.
  - intros t. rewrite filter_swap, sort_stable. apply filter_swap.
Qed.

Lemma In_sort (comparefn : A -> A -> Z) l x :
  In x (sort comparefn l) <-> In x l.
Proof.
  split; apply Permutation_in;
    [|apply Permutation_sym]; apply sort_perm.
Qed.

Lemma filter_none p l :
  (forall x, p x = false) -> filter p l = [].
Proof.
  intros H. induction l as [|x l IH]; simpl; [reflexivity|].
  now rewrite H.
Qed.

End FilterFacts.

(** X4. [getBlogsByUser] and [getBlogsByCategory] give the posts of the
    user, or of the category, and no other, by publication timestamp
    descending; the list is the global listing of all posts restricted to
    them, so posts of the same timestamp come in the order of creation.
    The category is compared as it is, case included; a user id that is
    not a number gives the empty list. *)
Theorem blogs_by_property :
  forall (this : MemStorage) (userId : Z) (category : string),
    let all := sort by_publishedAt_desc (JsMap.values (blogs this)) in
    let newest_first :=
      StronglySorted (fun a b => getTime (Blog.publishedAt a)
                                 >= getTime (Blog.publishedAt b)) in
    (getBlogsByUser (Int userId) this
     = filter (fun blog => Blog.userId blog =? userId) all
     /\ newest_first (getBlogsByUser (Int userId) this)
     /\ (forall blog,
            In blog (getBlogsByUser (Int userId) this)
            <-> In blog (JsMap.values (blogs this))
                /\ Blog.userId blog = userId)
     /\ getBlogsByUser NaN this = [])
    /\ (getBlogsByCategory category this
        = filter (fun blog => String.eqb (Blog.category blog) category) all
        /\ newest_first (getBlogsByCategory category this)
        /\ (forall blog,
               In blog (getBlogsByCategory category this)
               <-> In blog (JsMap.values (blogs this))
                   /\ Blog.category blog = category)).
Proof.
  intros this userId category all newest_first.
  pose (key := fun blog => getTime (Blog.publishedAt blog)).
  change by_publishedAt_desc with (descending key) in *.
  split; [split; [|split; [|split]] | split; [|split]].
  - apply sort_filter.
  - apply (sort_sorted key).
  - intros blog. unfold getBlogsByUser.
    change by_publishedAt_desc with (descending key).
    rewrite In_sort.
    rewrite filter_In. simpl. now rewrite Z.eqb_eq.
  - unfold getBlogsByUser. now rewrite filter_none.
  - apply sort_filter.
  - apply (sort_sorted key).
  - intros blog. unfold getBlogsByCategory.
    change by_publishedAt_desc with (descending key).
    rewrite In_sort.
    rewrite filter_In. now rewrite String.eqb_eq.
Qed.

(** X5. [getCommentsByBlog] and [getCommentsByUser] give the comments of
    the post, or of the user, and no other, by creation timestamp
    descending, comments of the same timestamp in the order of creation;
    an id that is not a number gives the empty list. *)
Theorem comments_by_property :
  forall (this : MemStorage) (id : Z),
    let newest_first :=
      StronglySorted (fun a b => getTime (Comment.createdAt a)
                                 >= getTime (Comment.createdAt b)) in
    let same_time (t : Z) :=
      filter (fun c => getTime (Comment.createdAt c) =? t) in
    (newest_first (getCommentsByBlog (Int id) this)
     /\ (forall t,
            same_time t (getCommentsByBlog (Int id) this)
            = filter (fun c => Comment.blogId c =? id)
                     (same_time t (JsMap.values (comments this))))
     /\ (forall c,
            In c (getCommentsByBlog (Int id) this)
            <-> In c (JsMap.values (comments this))
                /\ Comment.blogId c = id)
     /\ getCommentsByBlog NaN this = [])
    /\ (newest_first (getCommentsByUser (Int id) this)
        /\ (forall t,
               same_time t (getCommentsByUser (Int id) this)
               = filter (fun c => Comment.userId c =? id)
                        (same_time t (JsMap.values (comments this))))
        /\ (forall c,
               In c (getCommentsByUser (Int id) this)
               <-> In c (JsMap.values (comments this))
                   /\ Comment.userId c = id)
        /\ getCommentsByUser NaN this = []).
Proof.
  intros this id newest_first same_time.
  pose (key := fun c => getTime (Comment.createdAt c)).
  unfold getCommentsByBlog, getCommentsByUser, same_time.
  change by_createdAt_desc with (descending key).
  split; (split; [|split; [|split]]).
  - apply (sort_sorted key).
  - intros t. rewrite (sort_stable key). apply filter_swap.
  - intros c. rewrite In_sort.
    rewrite filter_In. simpl. now rewrite Z.eqb_eq.
  - now rewrite filter_none.
  - apply (sort_sorted key).
  - intros t. rewrite (sort_stable key). apply filter_swap.
  - intros c. rewrite In_sort.
    rewrite filter_In. simpl. now rewrite Z.eqb_eq.
  - now rewrite filter_none.
Qed.

(** ** Likes and followers, as listed *)

Section PairFacts.
Context {V : Type} (f g : V -> Z).
Implicit Types (l : list V).

Lemma NoDup_first_of_pairs l b :
  NoDup (map (fun v => (f v, g v)) l) ->
  NoDup (map f (filter (fun v => g v =? b) l)).
Proof.
  induction l as [|x l IH]; simpl; [constructor|].
  intros Hnd. apply NoDup_cons_iff in Hnd. destruct Hnd as [Hx Hnd].
  destruct (Z.eqb_spec (g x) b) as [E|E]; simpl; [|now apply IH].
  constructor; [|now apply IH].
  intros Hin. apply in_map_iff in Hin. destruct Hin as (y & Hf & Hy).
  apply filter_In in Hy. destruct Hy as [Hy Hg]. apply Z.eqb_eq in Hg.
  apply Hx. apply in_map_iff. exists y. split; [|assumption]. congruence.
Qed.

Lemma NoDup_second_of_pairs l a :
  NoDup (map (fun v => (f v, g v)) l) ->
  NoDup (map g (filter (fun v => f v =? a) l)).
Proof.
  induction l as [|x l IH]; simpl; [constructor|].
  intros Hnd. apply NoDup_cons_iff in Hnd. destruct Hnd as [Hx Hnd].
  destruct (Z.eqb_spec (f x) a) as [E|E]; simpl; [|now apply IH].
  constructor; [|now apply IH].
  intros Hin. apply in_map_iff in Hin. destruct Hin as (y & Hg & Hy).
  apply filter_In in Hy. destruct Hy as [Hy Hf]. apply Z.eqb_eq in Hf.
  apply Hx. apply in_map_iff. exists y. split; [|assumption]. congruence.
Qed.

Lemma find_in_filter (p q : V -> bool) l :
  find (fun v => p v && q v) l = find p (filter q l).
Proof.
  induction l as [|x l IH]; simpl; [reflexivity|].
  destruct (q x) eqn:Eq, (p x) eqn:Ep; simpl; rewrite ?Eq, ?Ep; auto.
Qed.

End PairFacts.

(** X6. The likes listed for a post, or for a user, are the stored likes
    of that post, or user, in the order of creation. On a store reached
    through the routes no user appears twice among the likes of a post and
    no post twice among the likes of a user, so the length of the list of
    a post counts the users who like it; and looking for a user in the
    likes listed for a post, as the client does, finds what [getLike]
    finds. An id that is not a number gives the empty list. *)
Theorem likes_as_listed :
  forall (reqs : list Request) (userId blogId : Z),
    let storage := served reqs in
    let stored := JsMap.values (likes storage) in
    getLikesByBlog (Int blogId) storage
    = filter (fun like => Like.blogId like =? blogId) stored
    /\ getLikesByUser (Int userId) storage
       = filter (fun like => Like.userId like =? userId) stored
    /\ NoDup (map Like.userId (getLikesByBlog (Int blogId) storage))
    /\ NoDup (map Like.blogId (getLikesByUser (Int userId) storage))
    /\ find (fun like => Like.userId like =? userId)
            (getLikesByBlog (Int blogId) storage)
       = getLike (Int userId) (Int blogId) storage
    /\ getLikesByBlog NaN storage = []
    /\ getLikesByUser NaN storage = [].
Proof.
  intros reqs userId blogId storage stored.
  destruct (served_invariant reqs) as [_ (_ & Hp & _)].
  fold storage in Hp. fold stored in Hp.
  repeat apply conj; try reflexivity.
  - apply (NoDup_first_of_pairs Like.userId Like.blogId), Hp.
  - apply (NoDup_second_of_pairs Like.userId Like.blogId), Hp.
  - unfold getLike, getLikesByBlog. symmetry.
    apply (find_in_filter
             (fun like => strict_equals (Int (Like.userId like))
                                        (Int userId))).
  - unfold getLikesByBlog. now rewrite filter_none.
  - unfold getLikesByUser. now rewrite filter_none.
Qed.

(** X7. [getFollowers] lists the stored relations that point to the user
    and [getFollowing] those that start from the user, in the order of
    creation, so a relation from a to b is among the followers of b
    exactly when it is among the following of a. On a store reached
    through the routes no follower appears twice among the followers of a
    user and no followed user twice among the following of a user; and
    looking for a follower in the followers listed for a user, as the
    client does, finds what [getFollower] finds. An id that is not a
    number gives the empty list. *)
Theorem followers_as_listed :
  forall (reqs : list Request) (a b : Z),
    let storage := served reqs in
    let stored := JsMap.values (followers storage) in
    getFollowers (Int b) storage
    = filter (fun follower => Follower.followingId follower =? b) stored
    /\ getFollowing (Int a) storage
       = filter (fun follower => Follower.followerId follower =? a) stored
    /\ (forall follower,
          In follower (getFollowers (Int b) storage)
          /\ Follower.followerId follower = a
          <-> In follower (getFollowing (Int a) storage)
              /\ Follower.followingId follower = b)
    /\ NoDup (map Follower.followerId (getFollowers (Int b) storage))
    /\ NoDup (map Follower.followingId (getFollowing (Int a) storage))
    /\ find (fun follower => Follower.followerId follower =? a)
            (getFollowers (Int b) storage)
       = getFollower (Int a) (Int b) storage
    /\ getFollowers NaN storage = []
    /\ getFollowing NaN storage = [].
Proof.
  intros reqs a b storage stored.
  destruct (served_invariant reqs) as [_ (_ & _ & _ & Hp)].
  fold storage in Hp. fold stored in Hp.
  repeat apply conj; try reflexivity.
  - intros follower. unfold getFollowers, getFollowing.
    rewrite !filter_In. simpl. rewrite !Z.eqb_eq. tauto.
  - apply (NoDup_first_of_pairs Follower.followerId Follower.followingId),
      Hp.
  - apply (NoDup_second_of_pairs Follower.followerId Follower.followingId),
      Hp.
  - unfold getFollower, getFollowers. symmetry.
    apply (find_in_filter
             (fun follower =>
                strict_equals (Int (Follower.followerId follower))
                              (Int a))).
  - unfold getFollowers. now rewrite filter_none.
  - unfold getFollowing. now rewrite filter_none.
Qed.

(** ** What a delete leaves behind *)

(** X8. Deleting a post does not cascade. On a store reached through the
    routes, after DELETE /api/blogs/:id, whether it answered 200 or 404,
    GET /api/blogs/:id answers 404, while GET /api/likes/blog/:id and
    GET /api/comments/blog/:id answer what they answered before: the likes
    and comments of a deleted post stay stored and listed. *)
Theorem deleted_post_keeps_likes_and_comments :
  forall (reqs : list Request) (id : string),
    let storage := served reqs in
    let (storage1, response) := delete_blogs id storage in
    response = (if is_some (getBlog (parseInt id) storage)
                then respond 200 Success
                else respond 404 (Message "Blog not found"))
    /\ get_blogs_id id storage1 = respond 404 (Message "Blog not found")
    /\ get_likes_blog id storage1 = get_likes_blog id storage
    /\ get_comments_blog id storage1 = get_comments_blog id storage
    /\ likes storage1 = likes storage
    /\ comments storage1 = comments storage.
Proof.
  intros reqs id storage.
  destruct (served_invariant reqs) as [Hok _]. fold storage in Hok.
  clearbody storage.
  unfold delete_blogs, deleteBlog, JsMap.delete, get_blogs_id, getBlog.
  unfold JsMap.has.
  pose proof (get_remove_same (parseInt id) (blogs storage)
                (keys_below_NoDup _ _ (Hok Blogs))) as Hgone.
  destruct (JsMap.get (parseInt id) (blogs storage)); simpl;
    rewrite Hgone; now repeat split.
Qed.

(** ** Pages of the post listing *)

Lemma firstn_then_next {A : Type} (a b : nat) (l : list A) :
  firstn a l ++ firstn b (skipn a l) = firstn (a + b) l.
Proof.
  revert l. induction a as [|a IH]; intros l; [reflexivity|].
  destruct l as [|x l]; simpl; [now rewrite firstn_nil|].
  now rewrite IH.
Qed.

Lemma getBlogs_nat this (limit offset : nat) :
  getBlogs (Some (Int (Z.of_nat limit))) (Some (Int (Z.of_nat offset))) this
  = firstn limit
      (skipn offset (sort by_publishedAt_desc (JsMap.values (blogs this)))).
Proof. apply slice_page. Qed.

(** X9. The pages of the listing follow one another: on every store, the
    page of [limit] posts at [offset] followed by the page of [limit']
    posts at [offset + limit] is the page of [limit + limit'] posts at
    [offset]; the first [n] pages of size [limit] put end to end are the
    first [n * limit] posts of the sorted listing, and all of them, each
    once, as soon as [n * limit] reaches the number of posts. *)
Theorem getBlogs_pages :
  forall (this : MemStorage) (limit limit' offset n : nat),
    let page (limit offset : nat) :=
      getBlogs (Some (Int (Z.of_nat limit))) (Some (Int (Z.of_nat offset)))
               this in
    let sorted := sort by_publishedAt_desc (JsMap.values (blogs this)) in
    page limit offset ++ page limit' (offset + limit)%nat
    = page (limit + limit')%nat offset
    /\ List.concat (map (fun i => page limit (i * limit)%nat) (seq 0 n))
       = firstn (n * limit) sorted
    /\ List.concat (map (fun i => page limit (i * limit)%nat)
                   (seq 0 (n + List.length sorted)))
       = (if (limit =? 0)%nat then [] else sorted).
Proof.
  intros this limit limit' offset n page sorted.
  assert (Hpage : forall l o, page l o = firstn l (skipn o sorted))
    by (intros; apply getBlogs_nat).
  assert (Hcat : forall m,
             List.concat (map (fun i => page limit (i * limit)%nat) (seq 0 m))
             = firstn (m * limit) sorted).
  { induction m as [|m IH]; [reflexivity|].
    rewrite seq_S, map_app, concat_app, IH. cbn [map List.concat].
    rewrite app_nil_r, Hpage, Nat.add_0_l, firstn_then_next.
    f_equal. lia. }
  split; [|split].
  - rewrite !Hpage, Nat.add_comm, <- skipn_skipn.
    apply firstn_then_next.
  - apply Hcat.
  - rewrite Hcat. destruct limit as [|limit]; simpl.
    + now rewrite Nat.mul_0_r.
    + apply firstn_all2. nia.
Qed.

Lemma slice_backwards {A : Type} (start stop : number) (l : list A) :
  clamp_index (Z.of_nat (List.length l)) (to_integer stop)
  <= clamp_index (Z.of_nat (List.length l)) (to_integer start) ->
  slice start stop l = [].
Proof.
  intros H. unfold slice. cbv zeta. now rewrite Z.max_r by lia.
Qed.

Lemma clamp_index_range len rel :
  0 <= len -> 0 <= clamp_index len rel <= len.
Proof.
  intros H. unfold clamp_index. destruct (Z.ltb_spec rel 0); lia.
Qed.

(** X10. What the listing gives for arguments that are not counts, on
    every store: nothing when the limit or the offset is [NaN] and
    nothing when the limit is 0, whatever the other argument; with the
    offset 0 and a negative limit [-k], all the posts but the [k] last of
    the sorted listing; and nothing for the offset [-k] with the limit
    [k], which does not give the [k] last posts. No argument makes the
    listing fail. *)
Theorem getBlogs_other_arguments :
  forall (this : MemStorage) (n : number) (k : nat),
    let sorted := sort by_publishedAt_desc (JsMap.values (blogs this)) in
    getBlogs (Some NaN) (Some n) this = []
    /\ getBlogs (Some n) (Some NaN) this = []
    /\ getBlogs (Some (Int 0)) (Some n) this = []
    /\ getBlogs (Some (Int (- Z.of_nat (S k)))) (Some (Int 0)) this
       = firstn (List.length sorted - S k) sorted
    /\ getBlogs (Some (Int (Z.of_nat (S k))))
                (Some (Int (- Z.of_nat (S k)))) this
       = [].
Proof.
  intros this n k sorted. unfold getBlogs. fold sorted.
  pose proof (clamp_index_range (Z.of_nat (List.length sorted))) as Hr.
  repeat apply conj.
  - apply slice_backwards. destruct n as [|z]; simpl;
      [lia | specialize (Hr z); unfold clamp_index in *; simpl; lia].
  - apply slice_backwards. simpl. lia.
  - apply slice_backwards. destruct n as [|z]; simpl; [lia|].
    rewrite Z.add_0_r. lia.
  - unfold slice, clamp_index, num_add, to_integer. cbv zeta.
    replace (0 + - Z.of_nat (S k)) with (- Z.of_nat (S k)) by lia.
    destruct (Z.ltb_spec (- Z.of_nat (S k)) 0); [|lia].
    change (0 <? 0) with false. cbv iota.
    rewrite (Z.min_l 0) by lia. change (Z.to_nat 0) with 0%nat.
    cbn [skipn]. f_equal. lia.
  - apply slice_backwards. unfold num_add, to_integer.
    replace (- Z.of_nat (S k) + Z.of_nat (S k)) with 0 by lia.
    specialize (Hr (- Z.of_nat (S k)) ltac:(lia)).
    unfold clamp_index at 1. change (0 <? 0) with false. cbv iota. lia.
Qed.

(** ** Counting the entries of a table *)

Lemma length_remove {V : Type} (k : number) (m : JsMap.t V) :
  (List.length (JsMap.remove k m) + (if JsMap.has k m then 1 else 0)
   = List.length m)%nat.
Proof.
  unfold JsMap.has. induction m as [|[k' v'] m IH]; simpl; [reflexivity|].
  destruct (same_value_zero k' k); simpl; lia.
Qed.

Lemma length_keys {V : Type} (m : JsMap.t V) :
  List.length (JsMap.keys m) = List.length m.
Proof. apply length_map. Qed.

Lemma invoke_size t c this :
  store_ok this ->
  (List.length (keys_of t (fst (invoke c this)))
   + (if is_removal t (c, snd (invoke c this)) then 1 else 0)
   = List.length (keys_of t this)
     + (if is_create t (c, snd (invoke c this)) then 1 else 0))%nat.
Proof.
  intros Hok.
  pose proof (fun V (v : V) m H =>
                proj1 (keys_below_set_fresh (counter_of t this) v m H))
    as Hfresh.
  pose proof (Hok t) as Ht.
  destruct c, t; simpl in *; unfold_methods; simpl; case_get;
    unfold is_create, is_removal; simpl; try lia;
    try (rewrite (Hfresh _ _ _ Ht); unfold JsMap.keys;
         rewrite map_app, length_app; simpl; lia);
    try (rewrite keys_set_present by congruence; lia);
    try (rewrite !length_keys;
         match goal with
         | |- context [JsMap.has ?k ?m] =>
             pose proof (length_remove k m); destruct (JsMap.has k m)
         end; lia).
Qed.

(** X11. After any sequence of calls on a fresh store, the number of
    entries of a table is the number of [create...] calls it has had
    minus the number of its [delete...] calls that answered [true];
    updates, failed or not, and deletes that answered [false] do not
    change it. *)
Theorem table_size_accounts :
  forall (cs : list call) (t : table),
    let log := fst (run cs new_MemStorage) in
    (List.length (keys_of t (after cs)) + count (is_removal t) log
     = count (is_create t) log)%nat.
Proof.
  intros cs t.
  assert (H : forall this,
             store_ok this ->
             (List.length (keys_of t (snd (run cs this)))
              + count (is_removal t) (fst (run cs this))
              = List.length (keys_of t this)
                + count (is_create t) (fst (run cs this)))%nat).
  { induction cs as [|c cs IH]; intros this Hok;
      [unfold count; simpl; lia|].
    rewrite run_cons. cbn [fst snd]. unfold count in *. cbn [filter].
    specialize (IH _ (invoke_ok c this Hok)).
    pose proof (invoke_size t c this Hok) as Hc.
    destruct (is_removal t (c, snd (invoke c this))),
             (is_create t (c, snd (invoke c this)));
      cbn [List.length]; lia. }
  intros log. specialize (H new_MemStorage new_MemStorage_ok).
  replace (List.length (keys_of t new_MemStorage)) with 0%nat in H
    by now destruct t.
  exact H.
Qed.

(** ** Records under their own identity *)

Lemma In_set {V : Type} (k : number) (v : V) (e : number * V)
  (m : JsMap.t V) :
  In e (JsMap.set k v m) -> In e m \/ e = (k, v).
Proof.
  induction m as [|[k' v'] m IH]; simpl.
  - intros [<-|[]]. now right.
  - destruct (same_value_zero k' k) eqn:E; simpl.
    + apply same_value_zero_eq in E. subst k'.
      intros [<-|H]; [now right | now left; right].
    + intros [<-|H]; [now left; left|].
      destruct (IH H); [now left; right | now right].
Qed.

Lemma key_is_id_set {V : Type} (id : V -> Z) (m : JsMap.t V) k v :
  key_is_id id m -> k = Int (id v) -> key_is_id id (JsMap.set k v m).
Proof.
  intros H Hk k' v' Hin. apply In_set in Hin.
  destruct Hin as [Hin|[= -> ->]]; [now apply H | assumption].
Qed.

Lemma invoke_ids c this :
  carries_id c = false ->
  ids_are_keys this -> ids_are_keys (fst (invoke c this)).
Proof.
  intros Hc (HU & HB & HL & HF & HC).
  destruct c; simpl in *; unfold_methods; simpl; case_get;
    unfold ids_are_keys; simpl; repeat split; try assumption;
    try (now apply key_is_id_set);
    try (now apply key_is_id_remove);
    (apply key_is_id_set; [assumption|]);
    match goal with
    | H : JsMap.get _ _ = Some _ |- _ => apply get_In in H
    end.
  - rewrite (HU _ _ Heqo). simpl.
    destruct (User.p_id userData); [discriminate | reflexivity].
  - rewrite (HB _ _ Heqo). simpl.
    destruct (Blog.p_id blogData); [discriminate | reflexivity].
  - rewrite (HC _ _ Heqo). simpl.
    destruct (Comment.p_id commentData); [discriminate | reflexivity].
Qed.

(** X12. After any sequence of calls on a fresh store in which no update
    carries an [id] in its partial object, every record of every table is
    stored under its own [id]: the [id] of what [getUser], [getBlog] or
    [getComment] finds is the identity asked for. *)
Theorem ids_stay_keys :
  forall (cs : list call) (id : Z),
    forallb (fun c => negb (carries_id c)) cs = true ->
    ids_are_keys (after cs)
    /\ match getUser (Int id) (after cs) with
       | Some user => User.id user = id
       | None => True
       end
    /\ match getBlog (Int id) (after cs) with
       | Some blog => Blog.id blog = id
       | None => True
       end
    /\ match getComment (Int id) (after cs) with
       | Some comment => Comment.id comment = id
       | None => True
       end.
Proof.
  intros cs id Hcs.
  assert (H : forall this, ids_are_keys this ->
                           ids_are_keys (snd (run cs this))).
  { induction cs as [|c cs IH]; intros this Hthis; [assumption|].
    simpl in Hcs. apply andb_true_iff in Hcs. destruct Hcs as [Hc Hcs].
    rewrite run_cons. simpl. apply IH; [assumption|].
    apply invoke_ids; [|assumption]. now apply negb_true_iff. }
  assert (Hkeys : ids_are_keys (after cs)).
  { apply H. repeat split; intros k v []. }
  split; [exact Hkeys|]. destruct Hkeys as (HU & HB & _ & _ & HC).
  unfold getUser, getBlog, getComment. repeat split.
  - destruct (JsMap.get _ (users _)) as [u|] eqn:G; [|exact I].
    apply get_In in G. apply HU in G. congruence.
  - destruct (JsMap.get _ (blogs _)) as [u|] eqn:G; [|exact I].
    apply get_In in G. apply HB in G. congruence.
  - destruct (JsMap.get _ (comments _)) as [u|] eqn:G; [|exact I].
    apply get_In in G. apply HC in G. congruence.
Qed.

Lemma ids_stay_keys_witness :
  forallb (fun c => negb (carries_id c)) sample_calls = true
  /\ ids_are_keys (after sample_calls)
  /\ match getUser (Int 1) (after sample_calls) with
     | Some user => User.id user = 1
     | None => True
     end
  /\ match getBlog (Int 1) (after sample_calls) with
     | Some blog => Blog.id blog = 1
     | None => True
     end
  /\ match getComment (Int 1) (after sample_calls) with
     | Some comment => Comment.id comment = 1
     | None => True
     end.
Proof.
  split; [reflexivity|]. exact (ids_stay_keys sample_calls 1 eq_refl).
Defined.

(* ================================================================== *)
(** * More of the routes *)

(** X13. A request that is answered with an error status (400, 404, 409
    or 500) leaves the store exactly as it was, on every store: a refused
    POST inserts nothing, a PUT or DELETE on an identity that is not
    stored changes nothing. *)
Theorem refused_request_changes_nothing :
  forall (req : Request) (storage : MemStorage),
    400 <= status (snd (handle req storage)) ->
    fst (handle req storage) = storage.
Proof.
  intros req storage.
  pose proof (set_same_table storage) as (_ & EB & EL & EF & EC).
  destruct req as [body|id body|limit offset|body|id body|id|body|id
                  |body|id|body|id body|id]; cbn [handle].
  - unfold post_users. destruct body; [|reflexivity].
    destruct (getUserByUsername _ _); [reflexivity|]. simpl. lia.
  - unfold put_users, updateUser.
    destruct (JsMap.get _ _); [simpl; lia | reflexivity].
  - reflexivity.
  - unfold post_blogs. destruct body; [simpl; lia | reflexivity].
  - unfold put_blogs, updateBlog.
    destruct (JsMap.get _ _); [simpl; lia | reflexivity].
  - unfold delete_blogs, deleteBlog, JsMap.delete, JsMap.has.
    destruct (JsMap.get _ _) eqn:G; simpl; [lia|].
    intros _. now rewrite (remove_absent _ _ G).
  - unfold post_likes. destruct body; [|reflexivity].
    destruct (getLike _ _ _); [reflexivity|]. simpl. lia.
  - unfold delete_likes, deleteLike, JsMap.delete, JsMap.has.
    destruct (JsMap.get _ _) eqn:G; simpl; [lia|].
    intros _. now rewrite (remove_absent _ _ G).
  - unfold post_followers. destruct body; [|reflexivity].
    destruct (getFollower _ _ _); [reflexivity|]. simpl. lia.
  - unfold delete_followers, deleteFollower, JsMap.delete, JsMap.has.
    destruct (JsMap.get _ _) eqn:G; simpl; [lia|].
    intros _. now rewrite (remove_absent _ _ G).
  - unfold post_comments. destruct body; [simpl; lia | reflexivity].
  - unfold put_comments, updateComment.
    destruct (JsMap.get _ _); [simpl; lia | reflexivity].
  - unfold delete_comments, deleteComment, JsMap.delete, JsMap.has.
    destruct (JsMap.get _ _) eqn:G; simpl; [lia|].
    intros _. now rewrite (remove_absent _ _ G).
Qed.

Lemma refused_request_changes_nothing_witness :
  400 <= status (snd (handle (PUT_users "7" (only_id_user 1))
                             (served sample_requests)))
  /\ fst (handle (PUT_users "7" (only_id_user 1)) (served sample_requests))
     = served sample_requests.
Proof.
  assert (H : 400 <= status (snd (handle (PUT_users "7" (only_id_user 1))
                                         (served sample_requests))))
    by (vm_compute; discriminate).
  split; [exact H|].
  exact (refused_request_changes_nothing _ _ H).
Defined.

Lemma serve_is_run reqs storage :
  exists cs, serve reqs storage = snd (run cs storage).
Proof.
  revert storage. induction reqs as [|req reqs IH]; intros storage.
  - now exists [].
  - simpl. destruct (handle_invokes req storage) as [->|[c ->]].
    + apply IH.
    + destruct (IH (fst (invoke c storage))) as [cs ->].
      exists (c :: cs). now rewrite run_cons.
Qed.

Lemma serve_ok reqs storage :
  store_ok storage -> store_ok (serve reqs storage).
Proof.
  intros H. destruct (serve_is_run reqs storage) as [cs ->].
  now apply run_ok.
Qed.

Lemma serve_spent t k reqs storage :
  store_ok storage -> spent t k storage -> ~ In k (keys_of t storage) ->
  ~ In k (keys_of t (serve reqs storage)).
Proof.
  intros Hok Hs Hk. destruct (serve_is_run reqs storage) as [cs ->].
  now apply run_spent.
Qed.

(** X14. On a store reached through the routes, once a DELETE route has
    answered 200 for a path parameter, the same DELETE answers 404
    whatever requests are served in between, for posts, likes, followers
    and comments; a DELETE that answers 404 has left the store as it
    was. *)
Theorem delete_route_answers_200_once :
  forall (reqs later : list Request) (id : string),
    let storage := served reqs in
    (let (storage1, response) := delete_blogs id storage in
     if status response =? 200
     then status (snd (delete_blogs id (serve later storage1))) = 404
     else storage1 = storage)
    /\ (let (storage1, response) := delete_likes id storage in
        if status response =? 200
        then status (snd (delete_likes id (serve later storage1))) = 404
        else storage1 = storage)
    /\ (let (storage1, response) := delete_followers id storage in
        if status response =? 200
        then status (snd (delete_followers id (serve later storage1)))
             = 404
        else storage1 = storage)
    /\ (let (storage1, response) := delete_comments id storage in
        if status response =? 200
        then status (snd (delete_comments id (serve later storage1))) = 404
        else storage1 = storage).
Proof.
  intros reqs later id storage.
  destruct (served_invariant reqs) as [Hok _]. fold storage in Hok.
  clearbody storage. split; [|split; [|split]].
  - unfold delete_blogs, deleteBlog, JsMap.delete.
    unfold JsMap.has at 1.
    destruct (JsMap.get (parseInt id) (blogs storage)) eqn:G; simpl.
    + assert (Hin : In (parseInt id) (keys_of Blogs storage))
        by (apply get_In_keys; congruence).
      assert (Hgone : ~ In (parseInt id)
                        (keys_of Blogs
                           (serve later
                              (fst (invoke (DeleteBlog (parseInt id))
                                           storage))))).
      { apply serve_spent.
        - exact (invoke_ok (DeleteBlog (parseInt id)) _ Hok).
        - exact (present_spent Blogs _ _ Hok Hin).
        - apply get_None_keys, get_remove_same,
            (keys_below_NoDup _ _ (Hok Blogs)). }
      apply has_false_keys in Hgone. simpl in Hgone. now rewrite Hgone.
    + rewrite (remove_absent _ _ G). apply set_same_table.
  - unfold delete_likes, deleteLike, JsMap.delete.
    unfold JsMap.has at 1.
    destruct (JsMap.get (parseInt id) (likes storage)) eqn:G; simpl.
    + assert (Hin : In (parseInt id) (keys_of Likes storage))
        by (apply get_In_keys; congruence).
      assert (Hgone : ~ In (parseInt id)
                        (keys_of Likes
                           (serve later
                              (fst (invoke (DeleteLike (parseInt id))
                                           storage))))).
      { apply serve_spent.
        - exact (invoke_ok (DeleteLike (parseInt id)) _ Hok).
        - exact (present_spent Likes _ _ Hok Hin).
        - apply get_None_keys, get_remove_same,
            (keys_below_NoDup _ _ (Hok Likes)). }
      apply has_false_keys in Hgone. simpl in Hgone. now rewrite Hgone.
    + rewrite (remove_absent _ _ G). apply set_same_table.
  - unfold delete_followers, deleteFollower, JsMap.delete.
    unfold JsMap.has at 1.
    destruct (JsMap.get (parseInt id) (followers storage)) eqn:G; simpl.
    + assert (Hin : In (parseInt id) (keys_of Followers storage))
        by (apply get_In_keys; congruence).
      assert (Hgone : ~ In (parseInt id)
                        (keys_of Followers
                           (serve later
                              (fst (invoke (DeleteFollower (parseInt id))
                                           storage))))).
      { apply serve_spent.
        - exact (invoke_ok (DeleteFollower (parseInt id)) _ Hok).
        - exact (present_spent Followers _ _ Hok Hin).
        - apply get_None_keys, get_remove_same,
            (keys_below_NoDup _ _ (Hok Followers)). }
      apply has_false_keys in Hgone. simpl in Hgone. now rewrite Hgone.
    + rewrite (remove_absent _ _ G). apply set_same_table.
  - unfold delete_comments, deleteComment, JsMap.delete.
    unfold JsMap.has at 1.
    destruct (JsMap.get (parseInt id) (comments storage)) eqn:G; simpl.
    + assert (Hin : In (parseInt id) (keys_of Comments storage))
        by (apply get_In_keys; congruence).
      assert (Hgone : ~ In (parseInt id)
                        (keys_of Comments
                           (serve later
                              (fst (invoke (DeleteComment (parseInt id))
                                           storage))))).
      { apply serve_spent.
        - exact (invoke_ok (DeleteComment (parseInt id)) _ Hok).
        - exact (present_spent Comments _ _ Hok Hin).
        - apply get_None_keys, get_remove_same,
            (keys_below_NoDup _ _ (Hok Comments)). }
      apply has_false_keys in Hgone. simpl in Hgone. now rewrite Hgone.
    + rewrite (remove_absent _ _ G). apply set_same_table.
Qed.

(** X15. On a store reached through the routes. POST /api/users with a
    body that [insertUserSchema.parse] refuses is answered 400 and leaves
    the store as it is; with a body it accepts, it is answered 201 with
    the new user, or 409 with the store unchanged. After a 201,
    GET /api/users/:id with the decimal writing of the new [id], and
    GET /api/users/username/:username with the new username, answer 200
    with this user, and GET /api/users/uid/:uid with its uid answers 200
    (with the first user stored under this uid). After a 409, the GET by
    username answers 200. POST /api/blogs with a body that
    [insertBlogSchema.parse] refuses is answered 400 and leaves the store
    as it is; with a body it accepts, it is answered 201 and
    GET /api/blogs/:id then answers 200 with the new post. Which bodies a
    schema accepts is not part of the model. *)
Theorem post_then_get :
  forall (reqs : list Request) (userBody : option InsertUser)
         (blogBody : option InsertBlog),
    let storage := served reqs in
    (let (storage1, response) := post_users userBody storage in
     match userBody with
     | None =>
         response = respond 400 ValidationError /\ storage1 = storage
     | Some userData =>
         let user := User.with_id userData (userId storage) in
         if status response =? 201
         then response = respond 201 (OneUser user)
              /\ get_users_id (decimal (User.id user)) storage1
                 = respond 200 (OneUser user)
              /\ get_users_username (User.username user) storage1
                 = respond 200 (OneUser user)
              /\ status (get_users_uid (User.uid user) storage1) = 200
         else response = respond 409 (Message "Username already exists")
              /\ storage1 = storage
              /\ status (get_users_username (User.i_username userData)
                                            storage)
                 = 200
     end)
    /\ (let (storage1, response) := post_blogs blogBody storage in
        match blogBody with
        | None =>
            response = respond 400 ValidationError /\ storage1 = storage
        | Some blogData =>
            let blog := Blog.with_id blogData (blogId storage) in
            response = respond 201 (OneBlog blog)
            /\ get_blogs_id (decimal (Blog.id blog)) storage1
               = respond 200 (OneBlog blog)
        end).
Proof.
  intros reqs userBody blogBody storage.
  destruct (served_invariant reqs) as [Hok _]. fold storage in Hok.
  clearbody storage. split.
  - destruct userBody as [userData|]; [|now split].
    unfold post_users, get_users_username.
    destruct (getUserByUsername (User.i_username userData) storage)
      as [existing|] eqn:G; simpl; [now repeat split|].
    destruct (counter_is_fresh (users storage) _
                (User.with_id userData (userId storage)) (Hok Users))
      as [_ Hs].
    simpl in Hs. unfold get_users_id, get_users_uid, getUser.
    rewrite parseInt_decimal. simpl. rewrite get_set_same.
    unfold getUserByUsername, getUserByUid in *. simpl.
    rewrite Hs, values_app. simpl. rewrite !find_snoc, G. simpl.
    rewrite !String.eqb_refl. repeat split.
    match goal with |- context [find ?p ?l] => destruct (find p l) end;
      reflexivity.
  - destruct blogBody as [blogData|]; [|now split].
    unfold post_blogs, get_blogs_id, getBlog. simpl.
    rewrite parseInt_decimal, get_set_same. now split.
Qed.

(** ** Usernames *)

Lemma handle_usernames req storage :
  store_ok storage -> is_PUT_users req = false ->
  NoDup (map User.username (JsMap.values (users storage))) ->
  NoDup (map User.username
             (JsMap.values (users (fst (handle req storage))))).
Proof.
  intros Hok Hreq Hnd.
  destruct req as [body|id body|limit offset|body|id body|id|body|id
                  |body|id|body|id body|id]; cbn [handle];
    try discriminate Hreq.
  - unfold post_users. destruct body as [userData|]; [|assumption].
    destruct (getUserByUsername _ storage) eqn:G; [assumption|].
    destruct (counter_is_fresh (users storage) _
                (User.with_id userData (userId storage)) (Hok Users))
      as [_ Hs].
    simpl in *. rewrite Hs, values_app. apply NoDup_map_snoc; [assumption|].
    intros y Hy E. pose proof (find_none _ _ G y Hy) as Hf. simpl in Hf.
    apply String.eqb_neq in Hf. now apply Hf.
  - assumption.
  - unfold post_blogs. now destruct body.
  - unfold put_blogs, updateBlog. now destruct (JsMap.get _ _).
  - unfold delete_blogs, deleteBlog, JsMap.delete. simpl.
    now destruct (JsMap.has _ _).
  - unfold post_likes. destruct body; [|assumption].
    now destruct (getLike _ _ _).
  - unfold delete_likes, deleteLike, JsMap.delete. simpl.
    now destruct (JsMap.has _ _).
  - unfold post_followers. destruct body; [|assumption].
    now destruct (getFollower _ _ _).
  - unfold delete_followers, deleteFollower, JsMap.delete. simpl.
    now destruct (JsMap.has _ _).
  - unfold post_comments. now destruct body.
  - unfold put_comments, updateComment. now destruct (JsMap.get _ _).
  - unfold delete_comments, deleteComment, JsMap.delete. simpl.
    now destruct (JsMap.has _ _).
Qed.

Lemma serve_usernames reqs storage :
  forallb (fun req => negb (is_PUT_users req)) reqs = true ->
  store_ok storage ->
  NoDup (map User.username (JsMap.values (users storage))) ->
  NoDup (map User.username (JsMap.values (users (serve reqs storage)))).
Proof.
  revert storage. induction reqs as [|req reqs IH];
    intros storage Hreqs Hok Hnd; [assumption|].
  simpl in Hreqs. apply andb_true_iff in Hreqs.
  destruct Hreqs as [Hreq Hreqs]. apply negb_true_iff in Hreq.
  simpl. apply IH; auto using handle_ok, handle_usernames.
Qed.

(** X16. As long as no PUT /api/users/:id is served, the lookup made by
    POST /api/users keeps the usernames of the stored users distinct, and
    a lookup by the username of a stored user finds this user. *)
Theorem usernames_stay_distinct :
  forall (reqs : list Request) (user : User),
    forallb (fun req => negb (is_PUT_users req)) reqs = true ->
    In user (JsMap.values (users (served reqs))) ->
    NoDup (map User.username (JsMap.values (users (served reqs))))
    /\ getUserByUsername (User.username user) (served reqs) = Some user
    /\ get_users_username (User.username user) (served reqs)
       = respond 200 (OneUser user).
Proof.
  intros reqs user Hreqs Hin.
  pose proof (serve_usernames reqs new_MemStorage Hreqs
                new_MemStorage_ok (NoDup_nil _)) as H.
  fold (served reqs) in H. split; [exact H|].
  assert (Hfound : getUserByUsername (User.username user) (served reqs)
                   = Some user).
  { unfold getUserByUsername.
    match goal with |- find ?p ?l = _ =>
      destruct (find_found p l user Hin (String.eqb_refl _)) as [y Hy]
    end.
    rewrite Hy. f_equal. apply find_some in Hy. destruct Hy as [Hy Hn].
    apply String.eqb_eq in Hn.
    exact (NoDup_map_same User.username _ _ _ H Hy Hin Hn). }
  split; [exact Hfound|]. unfold get_users_username. now rewrite Hfound.
Qed.

Lemma usernames_stay_distinct_witness :
  let user1 := User.with_id sample_user 1 in
  forallb (fun req => negb (is_PUT_users req)) two_users = true
  /\ In user1 (JsMap.values (users (served two_users)))
  /\ NoDup (map User.username (JsMap.values (users (served two_users))))
  /\ getUserByUsername (User.username user1) (served two_users)
     = Some user1
  /\ get_users_username (User.username user1) (served two_users)
     = respond 200 (OneUser user1).
Proof.
  intros user1.
  assert (Hin : In user1 (JsMap.values (users (served two_users))))
    by (left; reflexivity).
  split; [reflexivity|]. split; [exact Hin|].
  exact (usernames_stay_distinct two_users user1 eq_refl Hin).
Defined.

Lemma two_entries_not_NoDup {V B : Type} (f : V -> B) (m : JsMap.t V)
  k1 k2 v1 v2 :
  In (k1, v1) m -> In (k2, v2) m -> k1 <> k2 -> f v1 = f v2 ->
  ~ NoDup (map f (JsMap.values m)).
Proof.
  intros H1 H2 Hk Hf Hnd.
  apply in_split in H1. destruct H1 as (m1 & m2 & ->).
  unfold JsMap.values in Hnd. rewrite !map_app in Hnd. simpl in Hnd.
  apply NoDup_remove_2 in Hnd. apply Hnd.
  apply in_app_iff in H2. rewrite in_app_iff, Hf.
  destruct H2 as [H2|[[= E _]|H2]]; [left| congruence |right];
    apply in_map; change v2 with (snd (k2, v2)); now apply in_map.
Qed.

(** X17. PUT /api/users/:id looks nothing up: with two users stored under
    different identities, on any store, a PUT on the second with a
    partial object that carries the username of the first is answered
    200, and the store then holds two users of this username. *)
Theorem put_users_can_repeat_a_username :
  forall (storage : MemStorage) (id1 id2 : Z) (user1 user2 : User),
    getUser (Int id1) storage = Some user1 ->
    getUser (Int id2) storage = Some user2 ->
    id1 <> id2 ->
    let (storage1, response) :=
      put_users (decimal id2) (only_username (User.username user1))
                storage in
    let updated := User.merge user2 (only_username (User.username user1)) in
    response = respond 200 (OneUser updated)
    /\ User.username updated = User.username user1
    /\ getUser (Int id1) storage1 = Some user1
    /\ getUser (Int id2) storage1 = Some updated
    /\ ~ NoDup (map User.username (JsMap.values (users storage1))).
Proof.
  intros storage id1 id2 user1 user2 H1 H2 Hne.
  unfold put_users, updateUser, getUser in *.
  rewrite parseInt_decimal, H2. simpl.
  rewrite get_set_same, get_set_other by congruence.
  repeat split; try assumption.
  apply (two_entries_not_NoDup User.username _ (Int id1) (Int id2) user1
           (User.merge user2 (only_username (User.username user1)))).
  - apply get_In. now rewrite get_set_other by congruence.
  - apply get_In, get_set_same.
  - congruence.
  - reflexivity.
Qed.

Lemma put_users_can_repeat_a_username_witness :
  let storage := served two_users in
  let user1 := User.with_id sample_user 1 in
  let user2 := User.with_id sample_user_twin 2 in
  getUser (Int 1) storage = Some user1
  /\ getUser (Int 2) storage = Some user2
  /\ 1 <> 2
  /\ let (storage1, response) :=
       put_users (decimal 2) (only_username (User.username user1))
                 storage in
     let updated :=
       User.merge user2 (only_username (User.username user1)) in
     response = respond 200 (OneUser updated)
     /\ User.username updated = User.username user1
     /\ getUser (Int 1) storage1 = Some user1
     /\ getUser (Int 2) storage1 = Some updated
     /\ ~ NoDup (map User.username (JsMap.values (users storage1))).
Proof.
  intros storage user1 user2.
  assert (Hne : 1 <> 2) by lia.
  split; [reflexivity|]. split; [reflexivity|]. split; [exact Hne|].
  exact (put_users_can_repeat_a_username storage 1 2 user1 user2
           eq_refl eq_refl Hne).
Defined.

(** ** Path parameters that are not the decimal writing of an integer *)

Lemma read_digits_then d rest acc :
  read_digits 10 (NilEmpty.string_of_uint d ++ rest)%string (Some acc)
  = read_digits 10 rest (Some (uint_value d acc)).
Proof.
  revert acc. induction d; intros acc;
    cbn [NilEmpty.string_of_uint String.append read_digits uint_value];
    [reflexivity| ..]; eval_chars; cbv beta iota; apply IHd.
Qed.

Lemma read_digits_stop c rest acc :
  radix_digit 10 c = None -> read_digits 10 (String c rest) acc = acc.
Proof. intros H. cbn [read_digits]. now rewrite H. Qed.

Lemma parseInt_uint_then d c rest :
  d <> Decimal.Nil ->
  radix_digit 10 c = None -> c <> "x"%char -> c <> "X"%char ->
  parseInt (NilEmpty.string_of_uint d ++ String c rest)%string
  = Int (uint_value d 0)
  /\ parseInt (String "-" (NilEmpty.string_of_uint d ++ String c rest))
     = Int (- uint_value d 0).
Proof.
  intros Hd Hc Hx HX.
  destruct d as [|l|l|l|l|l|l|l|l|l|l];
    [congruence|destruct l|..].
  2-20:
    (split; unfold parseInt;
     cbn [NilEmpty.string_of_uint String.append trim_start];
     eval_chars; cbv beta iota;
     repeat (cbn [read_digits]; eval_chars; cbv beta iota);
     rewrite ?read_digits_then, ?(read_digits_stop c rest) by exact Hc;
     cbn [uint_value]; f_equal; lia).
  split; unfold parseInt;
    cbn [NilEmpty.string_of_uint String.append trim_start];
    eval_chars; cbv beta iota;
    destruct c as [[] [] [] [] [] [] [] []];
      try congruence; try discriminate Hc;
      cbv beta iota;
      repeat (cbn [read_digits]; eval_chars; cbv beta iota);
      reflexivity.
Qed.

Lemma parseInt_decimal_then n c rest :
  radix_digit 10 c = None -> c <> "x"%char -> c <> "X"%char ->
  parseInt (decimal n ++ String c rest)%string = Int n.
Proof.
  intros Hc Hx HX. unfold decimal.
  destruct n as [|p|p]; cbn [Z.to_int NilZero.string_of_int].
  - exact (proj1 (parseInt_uint_then (Decimal.D0 Decimal.Nil) c rest
                    ltac:(discriminate) Hc Hx HX)).
  - pose proof (Unsigned.to_uint_nonnil p) as Hp.
    destruct (parseInt_uint_then _ c rest Hp Hc Hx HX) as [H _].
    rewrite uint_value_0, DecimalPos.Unsigned.of_to in H.
    unfold NilZero.string_of_uint.
    destruct (Pos.to_uint p) eqn:E; [congruence|..];
      cbv iota; exact H.
  - pose proof (Unsigned.to_uint_nonnil p) as Hp.
    destruct (parseInt_uint_then _ c rest Hp Hc Hx HX) as [_ H].
    rewrite uint_value_0, DecimalPos.Unsigned.of_to in H.
    unfold NilZero.string_of_uint. cbn [String.append].
    destruct (Pos.to_uint p) eqn:E; [congruence|..];
      cbv iota; exact H.
Qed.

(** X18. [parseInt] skips white space in front and stops at the first
    character that is not a digit: for an integer in the range a
    JavaScript number holds exactly, its decimal writing behind a white
    space character and before a character that is neither a decimal
    digit nor x or X is read as this integer. So the routes treat such a
    path parameter as the integer: GET /api/users/:id, PUT and DELETE
    /api/blogs/:id answer, and change the store, as for the decimal
    writing alone. *)
Theorem path_parameter_read_by_prefix :
  forall (n : Z) (w c : ascii) (rest : string),
    - 2 ^ 53 <= n <= 2 ^ 53 ->
    is_white_space w = true ->
    radix_digit 10 c = None -> c <> "x"%char -> c <> "X"%char ->
    let id := String w (decimal n ++ String c rest) in
    parseInt id = Int n
    /\ (forall storage,
          get_users_id id storage = get_users_id (decimal n) storage)
    /\ (forall storage body,
          put_blogs id body storage = put_blogs (decimal n) body storage)
    /\ (forall storage,
          delete_blogs id storage = delete_blogs (decimal n) storage).
Proof.
  intros n w c rest _ Hw Hc Hx HX id.
  assert (E : parseInt id = Int n).
  { unfold id, parseInt. cbn [trim_start]. rewrite Hw.
    exact (parseInt_decimal_then n c rest Hc Hx HX). }
  split; [exact E|].
  unfold get_users_id, put_blogs, delete_blogs.
  now rewrite E, parseInt_decimal.
Qed.

Lemma path_parameter_read_by_prefix_witness :
  - 2 ^ 53 <= 12 <= 2 ^ 53
  /\ is_white_space " " = true
  /\ radix_digit 10 "p" = None
  /\ "p"%char <> "x"%char /\ "p"%char <> "X"%char
  /\ parseInt " 12px" = Int 12
  /\ (forall storage,
        get_users_id " 12px" storage = get_users_id "12" storage)
  /\ (forall storage body,
        put_blogs " 12px" body storage = put_blogs "12" body storage)
  /\ (forall storage,
        delete_blogs " 12px" storage = delete_blogs "12" storage).
Proof.
  assert (Hn : - 2 ^ 53 <= 12 <= 2 ^ 53) by lia.
  assert (Hx : "p"%char <> "x"%char) by discriminate.
  assert (HX : "p"%char <> "X"%char) by discriminate.
  split; [exact Hn|]. split; [reflexivity|]. split; [reflexivity|].
  split; [exact Hx|]. split; [exact HX|].
  exact (path_parameter_read_by_prefix 12 " " "p" "x" Hn eq_refl eq_refl
           Hx HX).
Defined.

(* ================================================================== *)
(** * The like and follow buttons *)

Section RemoveOne.
Context {V : Type}.
Implicit Types (m : JsMap.t V) (k : number) (v : V) (p : V -> bool).

(** Removing the entry of a record leaves the records that pass a test
    the record fails, and takes one from those that pass a test it
    passes. *)
Lemma filter_remove k v p m :
  NoDup (JsMap.keys m) -> In (k, v) m ->
  (p v = false ->
   filter p (JsMap.values (JsMap.remove k m)) = filter p (JsMap.values m))
  /\ (p v = true ->
      S (List.length (filter p (JsMap.values (JsMap.remove k m))))
      = List.length (filter p (JsMap.values m))).
Proof.
  induction m as [|[k1 v1] m IH]; simpl; [tauto|].
  intros Hnd Hin. apply NoDup_cons_iff in Hnd. destruct Hnd as [Hk1 Hnd].
  destruct Hin as [[= -> ->]|Hin].
  - rewrite same_value_zero_refl. split; intros ->; reflexivity.
  - assert (Hne : same_value_zero k1 k = false).
    { apply same_value_zero_neq. intros ->. apply Hk1.
      change k with (fst (k, v)). now apply in_map. }
    rewrite Hne. simpl. destruct (IH Hnd Hin) as [IH1 IH2].
    split; intros Hp; destruct (p v1); simpl; auto;
      rewrite ?(IH1 Hp), ?(IH2 Hp); reflexivity.
Qed.

End RemoveOne.

Lemma isLiked_getLike this (userId blogId : Z) :
  find (fun like => strict_equals (Int (Like.userId like)) (Int userId))
       (getLikesByBlog (Int blogId) this)
  = getLike (Int userId) (Int blogId) this.
Proof.
  unfold getLike, getLikesByBlog. symmetry.
  apply (find_in_filter
           (fun like => strict_equals (Int (Like.userId like))
                                      (Int userId))).
Qed.

Lemma existsb_find {A : Type} (p : A -> bool) (l : list A) :
  existsb p l = is_some (find p l).
Proof.
  induction l as [|x l IH]; simpl; [reflexivity|]. now destruct (p x).
Qed.

Lemma isFollowing_getFollower this (a b : Z) :
  find (fun f => strict_equals (Int (Follower.followerId f)) (Int a))
       (getFollowers (Int b) this)
  = getFollower (Int a) (Int b) this.
Proof.
  unfold getFollower, getFollowers. symmetry.
  apply (find_in_filter
           (fun f => strict_equals (Int (Follower.followerId f)) (Int a))).
Qed.

(** X19. The like button of the client, on a store reached through the
    routes, with the likes fetched for the post and the state derived from
    them. When the user likes the post, or when the [id] of the user and
    that of the post are integers of 32 bits, the request sent by
    [toggleLikeMutation] turns the state over - the likes fetched
    afterwards show the user as liking the post exactly when the ones
    before did not - adds or takes exactly one like of the post, and
    leaves the likes of the other users as they were. Otherwise the body
    posted is refused by [insertLikeSchema], the request is answered 400,
    and the store and the likes fetched afterwards are as before. *)
Theorem like_button_toggles :
  forall (reqs : list Request) (dbUserId blogId : Z),
    let storage := served reqs in
    let id := decimal blogId in
    let likes := list_body (get_likes_blog id storage) in
    let liked := isLiked likes dbUserId in
    let storage1 :=
      after_click (toggleLike liked likes dbUserId id) storage in
    let likes1 := list_body (get_likes_blog id storage1) in
    if liked || (int32 dbUserId && int32 blogId)
    then isLiked likes1 dbUserId = negb liked
         /\ List.length likes1
            = (if liked then List.length likes - 1
               else List.length likes + 1)%nat
         /\ filter (fun like => negb (Like.userId like =? dbUserId)) likes1
            = filter (fun like => negb (Like.userId like =? dbUserId)) likes
    else toggleLike liked likes dbUserId id = Some (POST_likes None)
         /\ handle (POST_likes None) storage
            = (storage, respond 400 ValidationError)
         /\ storage1 = storage
         /\ likes1 = likes.
Proof.
  intros reqs u b. cbv zeta. set (storage := served reqs).
  destruct (served_invariant reqs) as [Hok Hrel].
  fold storage in Hok, Hrel. clearbody storage.
  unfold toggleLike, isLiked, get_likes_blog. cbn [list_body].
  rewrite !parseInt_decimal, !isLiked_getLike.
  destruct (getLike (Int u) (Int b) storage) as [existing|] eqn:G;
    cbn [is_some negb orb after_click handle].
  - pose proof G as Hfound. apply find_some in Hfound.
    destruct Hfound as [Hin Htest]. apply like_test in Htest.
    destruct (like_again storage (Like.mkInsert u b) existing Hok Hrel
                Hin Htest) as (Hd & Hn & _).
    simpl in Hd, Hn. rewrite Hd. cbn [fst]. rewrite Hn.
    split; [reflexivity|].
    pose proof Hrel as (Hk & _).
    apply In_values in Hin. destruct Hin as (k & Hin).
    pose proof (Hk k existing Hin) as ->.
    pose proof (keys_below_NoDup _ _ (Hok Likes)) as Hnd.
    injection Htest as Hu Hb.
    unfold getLikesByBlog. cbn [likes set_likes]. split.
    + destruct (filter_remove _ _
                  (fun like => strict_equals (Int (Like.blogId like))
                                             (Int b))
                  _ Hnd Hin) as [_ H].
      rewrite <- H by (simpl; now apply Z.eqb_eq). simpl. lia.
    + rewrite !filter_swap
        with (p := fun like => negb (Like.userId like =? u)).
      f_equal.
      destruct (filter_remove _ _
                  (fun like => negb (Like.userId like =? u))
                  _ Hnd Hin) as [H _].
      apply H. simpl. rewrite Hu. now rewrite Z.eqb_refl.
  - unfold insertLikeSchema.
    destruct (int32 u && int32 b); [|now repeat split].
    unfold post_likes. cbn [Like.i_userId Like.i_blogId]. rewrite G.
    unfold createLike. cbn [fst].
    destruct (keys_below_set_fresh _
                (Like.with_id (Like.mkInsert u b) (likeId storage))
                (likes storage) (Hok Likes)) as [E _].
    unfold getLike, getLikesByBlog in *.
    cbn [likes set_likes set_likeId likes] in *. simpl in E.
    rewrite E, values_app. cbn [JsMap.values map].
    rewrite find_snoc, G, filter_app, length_app, filter_app.
    simpl. rewrite !Z.eqb_refl. simpl.
    repeat split. rewrite Z.eqb_refl. simpl. apply app_nil_r.
Qed.

(** X20. The follow button of the client, on a store reached through the
    routes, with the followers fetched for the profile and the state
    derived from them. When the user follows the profile, or when the
    [id] of the user and that of the profile are integers of 32 bits, the
    request sent by [followMutation] for the opposite state turns the
    state over, adds or takes exactly one follower of the profile, and
    leaves the other followers as they were. Otherwise the body posted is
    refused by [insertFollowerSchema], the request is answered 400, and
    the store and the followers fetched afterwards are as before. *)
Theorem follow_button_toggles :
  forall (reqs : list Request) (dbUserId profileUserId : Z),
    let storage := served reqs in
    let id := decimal profileUserId in
    let followers := list_body (get_followers_user id storage) in
    let following := isFollowing followers dbUserId in
    let request :=
      toggleFollow (negb following) followers dbUserId profileUserId in
    let storage1 := after_click request storage in
    let followers1 := list_body (get_followers_user id storage1) in
    if following || (int32 dbUserId && int32 profileUserId)
    then isFollowing followers1 dbUserId = negb following
         /\ List.length followers1
            = (if following then List.length followers - 1
               else List.length followers + 1)%nat
         /\ filter (fun f => negb (Follower.followerId f =? dbUserId))
                   followers1
            = filter (fun f => negb (Follower.followerId f =? dbUserId))
                     followers
    else request = Some (POST_followers None)
         /\ handle (POST_followers None) storage
            = (storage, respond 400 ValidationError)
         /\ storage1 = storage
         /\ followers1 = followers.
Proof.
  intros reqs u b. cbv zeta. set (storage := served reqs).
  destruct (served_invariant reqs) as [Hok Hrel].
  fold storage in Hok, Hrel. clearbody storage.
  unfold toggleFollow, isFollowing, get_followers_user. cbn [list_body].
  rewrite !parseInt_decimal, !existsb_find, !isFollowing_getFollower.
  destruct (getFollower (Int u) (Int b) storage) as [existing|] eqn:G;
    cbn [is_some negb orb after_click handle].
  - pose proof G as Hfound. apply find_some in Hfound.
    destruct Hfound as [Hin Htest]. apply follower_test in Htest.
    destruct (follower_again storage (Follower.mkInsert u b) existing
                Hok Hrel Hin Htest) as (Hd & Hn & _).
    simpl in Hd, Hn. rewrite Hd. cbn [fst]. rewrite Hn.
    split; [reflexivity|].
    pose proof Hrel as (_ & _ & Hk & _).
    apply In_values in Hin. destruct Hin as (k & Hin).
    pose proof (Hk k existing Hin) as ->.
    pose proof (keys_below_NoDup _ _ (Hok Followers)) as Hnd.
    injection Htest as Hu Hb.
    unfold getFollowers. cbn [followers set_followers]. split.
    + destruct (filter_remove _ _
                  (fun f => strict_equals (Int (Follower.followingId f))
                                          (Int b))
                  _ Hnd Hin) as [_ H].
      rewrite <- H by (simpl; now apply Z.eqb_eq). simpl. lia.
    + rewrite !filter_swap
        with (p := fun f => negb (Follower.followerId f =? u)).
      f_equal.
      destruct (filter_remove _ _
                  (fun f => negb (Follower.followerId f =? u))
                  _ Hnd Hin) as [H _].
      apply H. simpl. rewrite Hu. now rewrite Z.eqb_refl.
  - unfold insertFollowerSchema.
    destruct (int32 u && int32 b); [|now repeat split].
    unfold post_followers.
    cbn [Follower.i_followerId Follower.i_followingId]. rewrite G.
    unfold createFollower. cbn [fst].
    destruct (keys_below_set_fresh _
                (Follower.with_id (Follower.mkInsert u b)
                                  (followerId storage))
                (followers storage) (Hok Followers)) as [E _].
    unfold getFollower, getFollowers in *.
    cbn [followers set_followers set_followerId] in *. simpl in E.
    rewrite E, values_app. cbn [JsMap.values map].
    rewrite find_snoc, G, filter_app, length_app, filter_app.
    simpl. rewrite !Z.eqb_refl. simpl.
    repeat split. rewrite Z.eqb_refl. simpl. apply app_nil_r.
Qed.
